(** * gosmart.server.families.elmer_libnuma

    A shallow embedding of [ElmerLibNumaFamily] (the translation of a
    simulation description into the GSSF configuration document), the
    properties of it that the specification states, and further properties
    of [load_definition] and of the sections that [to_xml] writes.

    Conventions of the embedding:
    - a Python exception is a value of [exn]; code that may raise returns a
      [result]; code that mutates [self] runs in the state-and-exception
      monad [M], whose state survives a raise as the object does in Python;
    - a [dict] is an association list in insertion order, as a Python 3.7
      dict iterates;
    - a Python [float] is represented by the rational number it denotes and
      arithmetic on it is exact: rounding to binary64, infinities and NaN are
      not represented;
    - a [str] is a [string], one [ascii] per character;
    - the checks lxml makes on tag names and attribute text (XML-compatible
      characters) are not represented: every string is taken to be
      acceptable to [Element.set];
    - [print] is not represented. *)

From Stdlib Require Import List String Ascii ZArith QArith Bool Arith Lia.
From Stdlib Require Import Numbers.DecimalString.
From Stdlib Require Import Sorting.Permutation Sorting.Sorted.
Import ListNotations.

Local Open Scope list_scope.
Local Open Scope string_scope.

Set Implicit Arguments.

(* ================================================================== *)
(** ** Exceptions and results *)

Inductive exn : Type :=
| TypeError
| KeyError
| IndexError
| AttributeError
| ValueError
| ZeroDivisionError
| NameError (name : string)
| RuntimeError (msg : string).

Inductive result (A : Type) : Type :=
| Ok (a : A)
| Err (e : exn).

Arguments Ok {A} a.
Arguments Err {A} e.

Definition rbind {A B : Type} (m : result A) (k : A -> result B) : result B :=
  match m with
  | Ok a => k a
  | Err e => Err e
  end.

Declare Scope result_scope.
Delimit Scope result_scope with result.
Notation "x <- m ;; k" := (rbind m (fun x => k))
  (at level 61, m at next level, right associativity) : result_scope.
Notation "' pat <- m ;; k" := (rbind m (fun x => match x with pat => k end))
  (at level 61, pat pattern, m at next level, right associativity) : result_scope.
Local Open Scope result_scope.

(** [for x in xs: ...] whose body may raise and yields one item. *)
Fixpoint mapM {A B : Type} (f : A -> result B) (xs : list A) : result (list B) :=
  match xs with
  | [] => Ok []
  | x :: xs' => y <- f x ;; ys <- mapM f xs' ;; Ok (y :: ys)
  end.

(** [for x in xs: ...] whose body updates local state and may raise. *)
Fixpoint foldM {A S : Type} (f : S -> A -> result S) (s : S) (xs : list A) : result S :=
  match xs with
  | [] => Ok s
  | x :: xs' => s' <- f s x ;; foldM f s' xs'
  end.

(** Reading an attribute that only [load_definition] sets. *)
Definition getattr {A : Type} (a : option A) : result A :=
  match a with
  | Some v => Ok v
  | None => Err AttributeError
  end.

(* ================================================================== *)
(** ** Strings *)

Definition EMPTY : string := EmptyString.

(** [needle in hay] for two [str]. *)
Fixpoint str_contains (needle hay : string) : bool :=
  if String.prefix needle hay then true
  else match hay with
       | EmptyString => false
       | String _ hay' => str_contains needle hay'
       end.

(** [sep.join(parts)]. *)
Definition join (sep : string) (parts : list string) : string :=
  String.concat sep parts.

(** [s.split(sep, 1)]: the text before the first [sep] and, when [sep]
    occurs, the text after it. *)
Fixpoint split_once (sep : ascii) (s : string) : string * option string :=
  match s with
  | EmptyString => (EMPTY, None)
  | String c s' =>
      if Ascii.eqb c sep then (EMPTY, Some s')
      else let '(h, t) := split_once sep s' in (String c h, t)
  end.

(** [s.rfind(c)] as an index counted from 0, [-1] when [c] is absent. *)
Fixpoint rfind_from (c : ascii) (s : string) (i : Z) (last : Z) : Z :=
  match s with
  | EmptyString => last
  | String d s' => rfind_from c s' (i + 1) (if Ascii.eqb d c then i else last)
  end.

Definition rfind (c : ascii) (s : string) : Z := rfind_from c s 0 (-1).

(** [s[i:]]. *)
Fixpoint drop_str (i : nat) (s : string) : string :=
  match i, s with
  | O, _ => s
  | S i', String _ s' => drop_str i' s'
  | S _, EmptyString => EMPTY
  end.

(** The loop of [genericpath._splitext] that skips the leading dots of the
    file name: [true] when a character other than the dot stands between
    [filenameIndex] and [dotIndex]. *)
Fixpoint has_non_dot (s : string) (n : nat) : bool :=
  match n, s with
  | S n', String c s' => if Ascii.eqb c "." then has_non_dot s' n' else true
  | _, _ => false
  end.

(** [os.path.splitext(p)[1]] (posixpath). *)
Definition splitext_ext (p : string) : string :=
  let sepIndex := rfind "/" p in
  let dotIndex := rfind "." p in
  if (sepIndex <? dotIndex)%Z then
    let filenameIndex := (sepIndex + 1)%Z in
    if has_non_dot (drop_str (Z.to_nat filenameIndex) p)
                   (Z.to_nat (dotIndex - filenameIndex))
    then drop_str (Z.to_nat dotIndex) p
    else EMPTY
  else EMPTY.

Definition starts_with_sep (s : string) : bool :=
  match s with
  | String c _ => Ascii.eqb c "/"
  | EmptyString => false
  end.

Fixpoint ends_with_sep (s : string) : bool :=
  match s with
  | EmptyString => false
  | String c EmptyString => Ascii.eqb c "/"
  | String _ s' => ends_with_sep s'
  end.

(** [os.path.join(a, b)] (posixpath, two arguments). *)
Definition os_path_join (a b : string) : string :=
  if starts_with_sep b then b
  else if (String.eqb a EMPTY || ends_with_sep a)%bool then a ++ b
  else a ++ "/" ++ b.

(** [sorted(xs)] on a list of [str]: insertion sort by code point order. *)
Fixpoint insert_sorted (x : string) (xs : list string) : list string :=
  match xs with
  | [] => [x]
  | y :: ys => if String.leb x y then x :: xs else y :: insert_sorted x ys
  end.

Definition sorted (xs : list string) : list string :=
  fold_right insert_sorted [] xs.

(** [x in xs] for a [str] and a list or tuple of [str]. *)
Definition str_in (x : string) (xs : list string) : bool :=
  existsb (String.eqb x) xs.

(** [str(n)] for an [int]. *)
Definition str_int (z : Z) : string := NilZero.string_of_int (Z.to_int z).

(* ================================================================== *)
(** ** Dictionaries *)

Section Dict.
Variables K V : Type.
Variable keq : K -> K -> bool.

Definition dict : Type := list (K * V).

Fixpoint dict_get (k : K) (d : dict) : option V :=
  match d with
  | [] => None
  | (k', v) :: d' => if keq k k' then Some v else dict_get k d'
  end.

Definition dict_mem (k : K) (d : dict) : bool :=
  match dict_get k d with Some _ => true | None => false end.

(** [d[k] = v]: a present key keeps its place. *)
Fixpoint dict_set (k : K) (v : V) (d : dict) : dict :=
  match d with
  | [] => [(k, v)]
  | (k', v') :: d' =>
      if keq k k' then (k', v) :: d' else (k', v') :: dict_set k v d'
  end.

(** [d[k]] where a missing key raises. *)
Definition dict_item (k : K) (d : dict) : result V :=
  match dict_get k d with
  | Some v => Ok v
  | None => Err KeyError
  end.
End Dict.

Arguments dict_get {K V} keq k d.
Arguments dict_mem {K V} keq k d.
Arguments dict_set {K V} keq k v d.
Arguments dict_item {K V} keq k d.

(* ================================================================== *)
(** ** Python values *)

#[warnings="-register-all"]
Inductive pyval : Type :=
| VNone
| VBool (b : bool)
| VInt (z : Z)
| VFloat (q : Q)
| VStr (s : string)
| VList (l : list pyval).

(** The numeric tower: [bool] and [int] are integers, a [float] is the
    rational it denotes. *)
Inductive number : Type :=
| NInt (z : Z)
| NFloat (q : Q).

Definition as_number (v : pyval) : option number :=
  match v with
  | VBool b => Some (NInt (Z.b2z b))
  | VInt z => Some (NInt z)
  | VFloat q => Some (NFloat q)
  | _ => None
  end.

Definition number_value (n : number) : Q :=
  match n with
  | NInt z => inject_Z z
  | NFloat q => q
  end.

(** [a + b]. *)
Definition py_add (a b : pyval) : result pyval :=
  match as_number a, as_number b with
  | Some (NInt x), Some (NInt y) => Ok (VInt (x + y))
  | Some x, Some y => Ok (VFloat (Qred (number_value x + number_value y)))
  | _, _ =>
      match a, b with
      | VStr s, VStr t => Ok (VStr (s ++ t))
      | VList l, VList m => Ok (VList (l ++ m)%list)
      | _, _ => Err TypeError
      end
  end.

(** [a - b]. *)
Definition py_sub (a b : pyval) : result pyval :=
  match as_number a, as_number b with
  | Some (NInt x), Some (NInt y) => Ok (VInt (x - y))
  | Some x, Some y => Ok (VFloat (Qred (number_value x - number_value y)))
  | _, _ => Err TypeError
  end.

(** [a / b], true division: the quotient is a [float]. *)
Definition py_truediv (a b : pyval) : result pyval :=
  match as_number a, as_number b with
  | Some x, Some y =>
      if Qeq_bool (number_value y) 0 then Err ZeroDivisionError
      else Ok (VFloat (Qred (number_value x / number_value y)))
  | _, _ => Err TypeError
  end.

(** [sum(xs)]: a left fold of [+] from the [int] 0. *)
Definition py_sum (xs : list pyval) : result pyval :=
  foldM py_add (VInt 0) xs.

(** Truth value of an object, as [if v:] tests it. *)
Definition truthy (v : pyval) : bool :=
  match v with
  | VNone => false
  | VBool b => b
  | VInt z => negb (Z.eqb z 0)
  | VFloat q => negb (Qeq_bool q 0)
  | VStr s => negb (String.eqb s EMPTY)
  | VList l => match l with [] => false | _ => true end
  end.

(** [v is None], [v is True]. *)
Definition is_None (v : pyval) : bool :=
  match v with VNone => true | _ => false end.

Definition is_True (v : pyval) : bool :=
  match v with VBool true => true | _ => false end.

(** [v == s] for a [str] constant [s]. *)
Definition eq_str (v : pyval) (s : string) : bool :=
  match v with VStr t => String.eqb t s | _ => false end.

(** [a == b]. *)
Fixpoint py_eq (a b : pyval) : bool :=
  match as_number a, as_number b with
  | Some x, Some y => Qeq_bool (number_value x) (number_value y)
  | _, _ =>
      match a, b with
      | VNone, VNone => true
      | VStr s, VStr t => String.eqb s t
      | VList l, VList m =>
          (fix all2 (l m : list pyval) {struct l} : bool :=
             match l, m with
             | [], [] => true
             | x :: l', y :: m' => (py_eq x y && all2 l' m')%bool
             | _, _ => false
             end) l m
      | _, _ => false
      end
  end.

(** [iter(v)]: the items of a list, the characters of a [str]. *)
Definition py_iter (v : pyval) : result (list pyval) :=
  match v with
  | VList l => Ok l
  | VStr s => Ok (map (fun c => VStr (String c EMPTY)) (list_ascii_of_string s))
  | _ => Err TypeError
  end.

(** An object where lxml wants a [str] (attribute value, [join] item). *)
Definition as_str (v : pyval) : result string :=
  match v with
  | VStr s => Ok s
  | _ => Err TypeError
  end.

(** [zip] applied to the unpacked [rows] (at least one row): the columns,
    as many as the shortest row has items. [first] is the first row. *)
Fixpoint heads_tails (rows : list (list pyval)) : option (list pyval * list (list pyval)) :=
  match rows with
  | [] => Some ([], [])
  | [] :: _ => None
  | (x :: r) :: rows' =>
      match heads_tails rows' with
      | Some (hs, ts) => Some (x :: hs, r :: ts)
      | None => None
      end
  end.

Fixpoint zip_star_from (first : list pyval) (rest : list (list pyval)) : list (list pyval) :=
  match first with
  | [] => []
  | x :: first' =>
      match heads_tails rest with
      | Some (hs, ts) => (x :: hs) :: zip_star_from first' ts
      | None => []
      end
  end.

Definition zip_star (rows : list (list pyval)) : list (list pyval) :=
  match rows with
  | [] => []
  | first :: rest => zip_star_from first rest
  end.

(* ================================================================== *)
(** ** lxml elements *)

#[warnings="-register-all"]
Inductive Element : Type :=
| mkElement (tag : string) (attrib : dict string string)
            (text : option string) (children : list Element).

Definition tag (e : Element) : string :=
  match e with mkElement t _ _ _ => t end.
Definition attrib (e : Element) : dict string string :=
  match e with mkElement _ a _ _ => a end.
Definition text (e : Element) : option string :=
  match e with mkElement _ _ x _ => x end.
Definition children (e : Element) : list Element :=
  match e with mkElement _ _ _ c => c end.

(** [node.set(k, v)] on the attribute dictionary of a node. *)
Definition set (k v : string) (a : dict string string) : dict string string :=
  dict_set String.eqb k v a.

(** [node.get(k)]. *)
Definition get (k : string) (e : Element) : option string :=
  dict_get String.eqb k (attrib e).

(** [ET.Element(tag)] once its attributes and children are in place. *)
Definition node (t : string) (a : dict string string) (c : list Element) : Element :=
  mkElement t a None c.

(** [root.find(t)]: the first child with that tag. *)
Definition find (t : string) (e : Element) : option Element :=
  List.find (fun c => String.eqb (tag c) t) (children e).

(* ================================================================== *)
(** ** The state-and-exception monad of the methods that mutate [self] *)

Definition M (S A : Type) : Type := S -> result A * S.

Definition mret {S A : Type} (a : A) : M S A := fun s => (Ok a, s).

Definition mbind {S A B : Type} (m : M S A) (k : A -> M S B) : M S B :=
  fun s =>
    match m s with
    | (Ok a, s') => k a s'
    | (Err e, s') => (Err e, s')
    end.

Definition raise {S A : Type} (e : exn) : M S A := fun s => (Err e, s).

Definition gets {S A : Type} (f : S -> A) : M S A := fun s => (Ok (f s), s).

Definition modify {S : Type} (f : S -> S) : M S unit := fun s => (Ok tt, f s).

Definition lift {S A : Type} (r : result A) : M S A := fun s => (r, s).

Declare Scope monad_scope.
Delimit Scope monad_scope with monad.
Notation "x <- m ;; k" := (mbind m (fun x => k))
  (at level 61, m at next level, right associativity) : monad_scope.
Notation "m ;;; k" := (mbind m (fun _ => k))
  (at level 61, right associativity) : monad_scope.

(** [for x in xs: body(x)] in [M]. *)
Fixpoint for_each {S A : Type} (body : A -> M S unit) (xs : list A) : M S unit :=
  match xs with
  | [] => mret tt
  | x :: xs' => mbind (body x) (fun _ => for_each body xs')
  end.

(* ================================================================== *)
(** ** The data of a family instance *)

(** [key -> (raw value, type tag)], as [read_parameters] builds it and as
    the caller of [load_definition] passes it. *)
Definition parameters : Type := dict string (pyval * option string).

(** A value of [self._needles]: the dictionary with the keys
    ["parameters"], ["file"] and ["class"]. *)
Record needle : Type := mkNeedle {
  needle_parameters : parameters;
  needle_file : string;
  needle_class : string
}.

(** A value of [self._regions]: the dictionary with the keys ["format"],
    ["meaning"], ["input"] and ["groups"]. *)
Record region : Type := mkRegion {
  region_format : string;
  region_meaning : string;
  region_input : string;
  region_groups : list string
}.

(** A value of [self._algorithms]: ["arguments"] and ["content"]; the
    content of an algorithm without text is [None]. *)
Record algorithm : Type := mkAlgorithm {
  arguments : list string;
  content : option string
}.

(** The attributes of an instance. [__init__] sets [_needles],
    [_needle_order] and [_files_required]; [_sif] and [_xml] are class
    attributes, [None] at first; the other five exist only once
    [load_definition] has assigned them, [None] here is the unset
    attribute. *)
Record Family : Type := mkFamily {
  _sif : option string;
  _xml : option Element;
  _needles : dict string needle;
  _needle_order : dict nat string;
  _files_required : dict string string;
  _regions : option (dict string region);
  _regions_by_meaning : option (dict string (list region));
  _parameters : option parameters;
  _algorithms : option (dict string algorithm);
  _definition : option (option string)
}.

(** [ElmerLibNumaFamily(files_required)] (lines 52-55). *)
Definition __init__ (files_required : dict string string) : Family :=
  {| _sif := None; _xml := None;
     _needles := []; _needle_order := [];
     _files_required := files_required;
     _regions := None; _regions_by_meaning := None;
     _parameters := None; _algorithms := None; _definition := None |}.

Definition set_sif (v : option string) (f : Family) : Family :=
  mkFamily v (_xml f) (_needles f) (_needle_order f) (_files_required f)
           (_regions f) (_regions_by_meaning f) (_parameters f)
           (_algorithms f) (_definition f).
Definition set_xml (v : option Element) (f : Family) : Family :=
  mkFamily (_sif f) v (_needles f) (_needle_order f) (_files_required f)
           (_regions f) (_regions_by_meaning f) (_parameters f)
           (_algorithms f) (_definition f).
Definition set_needles (v : dict string needle) (f : Family) : Family :=
  mkFamily (_sif f) (_xml f) v (_needle_order f) (_files_required f)
           (_regions f) (_regions_by_meaning f) (_parameters f)
           (_algorithms f) (_definition f).
Definition set_needle_order (v : dict nat string) (f : Family) : Family :=
  mkFamily (_sif f) (_xml f) (_needles f) v (_files_required f)
           (_regions f) (_regions_by_meaning f) (_parameters f)
           (_algorithms f) (_definition f).
Definition set_files_required (v : dict string string) (f : Family) : Family :=
  mkFamily (_sif f) (_xml f) (_needles f) (_needle_order f) v
           (_regions f) (_regions_by_meaning f) (_parameters f)
           (_algorithms f) (_definition f).
Definition set_regions (v : option (dict string region)) (f : Family) : Family :=
  mkFamily (_sif f) (_xml f) (_needles f) (_needle_order f) (_files_required f)
           v (_regions_by_meaning f) (_parameters f)
           (_algorithms f) (_definition f).
Definition set_regions_by_meaning (v : option (dict string (list region)))
    (f : Family) : Family :=
  mkFamily (_sif f) (_xml f) (_needles f) (_needle_order f) (_files_required f)
           (_regions f) v (_parameters f)
           (_algorithms f) (_definition f).
Definition set_parameters (v : option parameters) (f : Family) : Family :=
  mkFamily (_sif f) (_xml f) (_needles f) (_needle_order f) (_files_required f)
           (_regions f) (_regions_by_meaning f) v
           (_algorithms f) (_definition f).
Definition set_algorithms (v : option (dict string algorithm)) (f : Family) : Family :=
  mkFamily (_sif f) (_xml f) (_needles f) (_needle_order f) (_files_required f)
           (_regions f) (_regions_by_meaning f) (_parameters f)
           v (_definition f).
Definition set_definition (v : option (option string)) (f : Family) : Family :=
  mkFamily (_sif f) (_xml f) (_needles f) (_needle_order f) (_files_required f)
           (_regions f) (_regions_by_meaning f) (_parameters f)
           (_algorithms f) v.

(** [_disallowed_functions] (lines 29-47). *)
Definition _disallowed_functions : list string :=
  [ "funcdel"; "sprintf"; "sscanf"; "eval"; "source"; "fread"; "fscanf";
    "fgets"; "fwrite"; "fprintf"; "fputs"; "fopen"; "freopen"; "fclose";
    "save"; "load"; "format" ].

(** The newline character and the marker appended to the definition
    (line 254). *)
Definition NL : string := String (ascii_of_nat 10) EMPTY.
Definition SOURCES_MARKER : string := NL ++ "$SOURCES" ++ NL.

(* ================================================================== *)
(** ** The family: [load_definition] and [to_xml] *)

Section ElmerLibNumaFamily.

(** What the module takes from outside this file. [float_repr] and
    [str_repr] are Python's [repr] of a [float] and of a [str];
    [json_dumps] is [json.dumps]; [json_loads_groups] is [json.loads] on
    the [groups] attribute of a region, a JSON list of strings;
    [convert_parameter] and [read_parameters] are imported from
    [gosmart.server.parameters], which is not among the sources: the
    results below hold whatever these functions compute. *)
Variable float_repr : Q -> string.
Variable str_repr : string -> string.
Variable json_dumps : pyval -> string.
Variable json_loads_groups : string -> result (list string).
Variable convert_parameter : pyval -> option string -> bool -> pyval.
Variable xml_parameters : Type.
Variable read_parameters : xml_parameters -> parameters.

(** *** The input description

    The elements of the XML description that [load_definition] reads,
    with the attributes the external interface gives them; of these only
    the input file of a region is optional. *)

(** A child of [<needles>]. *)
Record needle_element : Type := mkNeedleElement {
  needle_index_attr : string;           (* needle.get("index") *)
  needle_class_attr : string;           (* needle.get("class") *)
  needle_file_attr : string;            (* needle.get("file") *)
  needle_parameters_elem : xml_parameters  (* needle.find("parameters") *)
}.

(** A child of [<regions>]. *)
Record region_element : Type := mkRegionElement {
  region_id_attr : string;              (* region.get("id") *)
  region_name_attr : string;            (* region.get("name") *)
  region_format_attr : string;          (* region.get("format") *)
  region_input_attr : option string;    (* region.get("input") *)
  region_groups_attr : string           (* region.get("groups") *)
}.

(** The description: the text of [<definition>] ([None] for an element
    without text), the children of [<needles>] and of [<regions>]
    ([None] when [find] finds no such element). *)
Record description : Type := mkDescription {
  definition_text : option string;
  needles_block : option (list needle_element);
  regions_block : option (list region_element)
}.

(** *** Python's [str] and [repr] *)

Fixpoint py_repr (v : pyval) : string :=
  match v with
  | VNone => "None"
  | VBool true => "True"
  | VBool false => "False"
  | VInt z => str_int z
  | VFloat q => float_repr q
  | VStr s => str_repr s
  | VList l => "[" ++ join ", " (map py_repr l) ++ "]"
  end.

Definition py_str (v : pyval) : string :=
  match v with
  | VStr s => s
  | _ => py_repr v
  end.

(** *** [get_parameter] (lines 67-76) *)

Definition get_parameter (self : Family) (key : string) (try_json : bool)
    (parameters : option parameters) : result pyval :=
  parameters <- match parameters with
                | None => getattr (_parameters self)
                | Some p => Ok p
                end ;;
  match dict_get String.eqb key parameters with
  | None => Ok VNone
  | Some (parameter, typ) => Ok (convert_parameter parameter typ try_json)
  end.

(** *** [get_needle_parameter] (lines 59-65)

    [needle_index] is an [int] (an ordinal) or a [str] (a declared
    index). The keys of [_needles] are [str] and those of
    [_needle_order] are [int]: an [int] is never in [_needles], a [str]
    never in [_needle_order]. *)
Definition get_needle_parameter (self : Family) (needle_index : nat + string)
    (key : string) (try_json : bool) : result pyval :=
  let needle_index :=
    match needle_index with
    | inl k =>
        match dict_get Nat.eqb k (_needle_order self) with
        | Some ix => inr ix
        | None => inl k
        end
    | inr ix => inr ix
    end in
  needle <- match needle_index with
            | inl _ => Err KeyError
            | inr ix => dict_item String.eqb ix (_needles self)
            end ;;
  get_parameter self key try_json (Some (needle_parameters needle)).

(** *** [load_definition] (lines 78-121) *)

Local Open Scope monad_scope.

(** The body of [for needle in needles] (lines 88-101); [k] is the
    counter of the loop. *)
Definition load_needle (k : nat) (needle : needle_element) : M Family unit :=
  let needle_file := needle_file_attr needle in
  let location := split_once ":" needle_file in
  needle_file <-
    (if str_in (fst location) ["surface"; "zone"] then
       match snd location with
       | None => raise IndexError
       | Some location1 =>
           let target_file := needle_index_attr needle ++ splitext_ext location1 in
           modify (fun self =>
             set_files_required
               (dict_set String.eqb (os_path_join "input" target_file) location1
                         (_files_required self)) self) ;;;
           mret (fst location ++ ":" ++ target_file)
       end
     else mret needle_file) ;;
  modify (fun self =>
    set_needles
      (dict_set String.eqb (needle_index_attr needle)
         {| needle_parameters := read_parameters (needle_parameters_elem needle);
            needle_file := needle_file;
            needle_class := needle_class_attr needle |}
         (_needles self)) self) ;;;
  modify (fun self =>
    set_needle_order
      (dict_set Nat.eqb k (needle_index_attr needle) (_needle_order self)) self).

Fixpoint load_needles (k : nat) (needles : list needle_element) : M Family unit :=
  match needles with
  | [] => mret tt
  | needle :: needles' => load_needle k needle ;;; load_needles (S k) needles'
  end.

(** The body of [for region in regions] (lines 105-117). *)
Definition load_region (region : region_element) : M Family unit :=
  by_meaning <- mbind (gets _regions_by_meaning) (fun a => lift (getattr a)) ;;
  (if dict_mem String.eqb (region_name_attr region) by_meaning then mret tt
   else modify (set_regions_by_meaning
          (Some (dict_set String.eqb (region_name_attr region) [] by_meaning)))) ;;;
  (* os.path.splitext(None) raises TypeError *)
  input <- match region_input_attr region with
           | None => raise TypeError
           | Some input => mret input
           end ;;
  let target_file := region_id_attr region ++ splitext_ext input in
  groups <- lift (json_loads_groups (region_groups_attr region)) ;;
  let stored :=
    {| region_format := region_format_attr region;
       region_meaning := region_name_attr region;
       region_input := target_file;
       region_groups := groups |} in
  regions <- mbind (gets _regions) (fun a => lift (getattr a)) ;;
  modify (set_regions
    (Some (dict_set String.eqb (region_id_attr region) stored regions))) ;;;
  (if (str_in (region_format_attr region) ["surface"; "zone"]
       && negb (String.eqb input EMPTY))%bool
   then modify (fun self =>
          set_files_required
            (dict_set String.eqb (os_path_join "input" target_file) input
                      (_files_required self)) self)
   else mret tt) ;;;
  by_meaning <- mbind (gets _regions_by_meaning) (fun a => lift (getattr a)) ;;
  bucket <- lift (dict_item String.eqb (region_name_attr region) by_meaning) ;;
  modify (set_regions_by_meaning
    (Some (dict_set String.eqb (region_name_attr region) (bucket ++ [stored])%list
                    by_meaning))).

Definition load_definition (xml : description) (parameters : parameters)
    (algorithms : dict string algorithm) : M Family unit :=
  modify (set_sif (definition_text xml)) ;;;
  modify (set_needles []) ;;;
  modify (set_regions (Some [])) ;;;
  modify (set_regions_by_meaning (Some [])) ;;;
  match needles_block xml with
  | Some needles => load_needles 0 needles
  | None => mret tt
  end ;;;
  match regions_block xml with
  | Some regions => for_each load_region regions
  | None => raise TypeError          (* None is not iterable *)
  end ;;;
  modify (set_parameters (Some parameters)) ;;;
  modify (set_algorithms (Some algorithms)) ;;;
  modify (set_definition (Some (definition_text xml))).

Local Close Scope monad_scope.

(** *** [to_xml] (lines 123-346)

    The method builds the tree by mutation; the nodes [regions],
    [needlelibrary], [mesher] and [elmer] receive more children in the
    loop over the needles after their section was written. Here every
    section yields its attributes and children, the loop over the needles
    appends to the four lists of children, and the nodes are put together
    at the end; a raise anywhere leaves no tree. *)

(** [for k, v in kvs: node.set(k, v)]. *)
Definition set_all (kvs : list (string * string)) (a : dict string string)
    : dict string string :=
  fold_left (fun a kv => set (fst kv) (snd kv) a) kvs a.

Definition XYZ : list string := ["x"; "y"; "z"].

(** Lines 131-140: the centre location. *)
Definition centre_location (self : Family) : result pyval :=
  centre_location <- get_parameter self "CENTRE_LOCATION" true None ;;
  if (is_None centre_location || eq_str centre_location "first-needle")%bool then
    match _needles self with
    | [] => Ok centre_location
    | _ :: _ => get_needle_parameter self (inl 0%nat) "NEEDLE_TIP_LOCATION" true
    end
  else if eq_str centre_location "centroid-of-tips" then
    match _needles self with
    | [] => Ok centre_location
    | _ :: _ =>
        let n := List.length (_needles self) in
        needle_tips <- mapM (fun i => get_needle_parameter self (inl i)
                                        "NEEDLE_TIP_LOCATION" true)
                            (seq 0 n) ;;
        needle_tips <- mapM py_iter needle_tips ;;
        centre <- mapM (fun tips => total <- py_sum tips ;;
                                    py_truediv total (VInt (Z.of_nat n)))
                       (zip_star needle_tips) ;;
        Ok (VList centre)
    end
  else Ok centre_location.

(** Lines 142-145: the [centre] node. *)
Definition centre_node (centre_location : pyval) : result Element :=
  vs <- py_iter centre_location ;;
  Ok (node "centre" (set_all (combine XYZ (map py_str vs)) []) []).

(** Lines 147-153: the [needleaxis] node, when there are needles. *)
Definition needleaxis_nodes (self : Family) : result (list Element) :=
  match _needles self with
  | [] => Ok []
  | _ :: _ =>
      tip_location <- get_needle_parameter self (inl 0%nat) "NEEDLE_TIP_LOCATION" true ;;
      entry_location <- get_needle_parameter self (inl 0%nat) "NEEDLE_ENTRY_LOCATION" true ;;
      vts <- py_iter tip_location ;;
      ves <- py_iter entry_location ;;
      kvs <- mapM (fun '(c, (vt, ve)) => d <- py_sub ve vt ;; Ok (c, py_str d))
                  (combine XYZ (combine vts ves)) ;;
      Ok [node "needleaxis" (set_all kvs []) []]
  end.

(** Lines 155-157. *)
Definition simulationscaling_nodes (self : Family) : result (list Element) :=
  scaling <- get_parameter self "SIMULATION_SCALING" true None ;;
  if is_None scaling then Ok []
  else Ok [node "simulationscaling" (set "ratio" (py_str scaling) []) []].

(** Lines 160-164: one child of [regions] for a region. *)
Definition region_node (entry : string * region) : Element :=
  let '(name, region) := entry in
  node (region_format region)
       (set "groups" (join "; " (region_groups region))
         (set "input" (os_path_join "input/" (region_input region))
           (set "name" name [])))
       [].

(** Lines 167-174: one child of [constants] for a parameter. *)
Definition parameter_node (entry : string * (pyval * option string)) : Element :=
  let '(key, (parameter, typ)) := entry in
  let p := convert_parameter parameter typ true in
  let a := set "value" (json_dumps p) (set "name" key []) in
  node "parameter"
       (match typ with Some t => set "type" t a | None => a end)
       [].

(** Lines 189-200: the axisymmetric inner meshes. *)
Definition inner_nodes (self : Family) : result (list Element) :=
  mesher_inner <- get_parameter self "SETTING_AXISYMMETRIC_INNER" true None ;;
  inner <- (if is_None mesher_inner then Ok []
            else template <- as_str mesher_inner ;;
                 Ok [node "inner" (set "template" template
                                    (set "type" "axisymmetric" [])) []]) ;;
  mesher_inner_coarse <- get_parameter self "SETTING_AXISYMMETRIC_INNER_COARSE" true None ;;
  coarse <- (if is_None mesher_inner_coarse then Ok []
             else template <- as_str mesher_inner_coarse ;;
                  Ok [node "inner" (set "template" template
                                     (set "name" "coarse"
                                       (set "type" "axisymmetric" []))) []]) ;;
  Ok (inner ++ coarse)%list.

(** Lines 202-207. *)
Definition extent_node (self : Family) : result Element :=
  radius <- get_parameter self "SIMULATION_DOMAIN_RADIUS" true None ;;
  Ok (node "extent"
           (set "radius" (if is_None radius then "50" else py_str radius) [])
           []).

(** Lines 211-217: the classification of a region by the mesher. *)
Definition mesher_region_nodes (entry : string * region) : list Element :=
  let '(idx, region) := entry in
  if String.eqb (region_format region) "zone" then
    [node "zone" (set "region" idx []) []]
  else if String.eqb (region_meaning region) "organ" then
    [node "organ" (set "region" idx []) []]
  else if (str_in "vessels" (region_groups region)
           || str_in "bronchi" (region_groups region))%bool then
    [node "vessel" (set "region" idx []) []]
  else [].

(** [xs[i] = v] for an index within the list. *)
Fixpoint setitem {A : Type} (i : nat) (v : A) (xs : list A) : list A :=
  match i, xs with
  | O, _ :: xs' => v :: xs'
  | S i', x :: xs' => x :: setitem i' v xs'
  | _, [] => []
  end.

(** Lines 219-247: the [lengthscales] node; the value of
    [RESOLUTION_FIELD_NEEDLE_ZONE] is used again for the needles. *)
Definition lengthscales_node (self : Family) : result (Element * pyval) :=
  resolution_high <- get_parameter self "RESOLUTION_HIGH" true None ;;
  let lengthscale_settings :=
    if truthy resolution_high then
      [("nearfield", VStr "1.0"); ("farfield", VStr "2.0");
       ("zonefield", VStr "1.0"); ("vessels", VStr "far")]
    else
      [("nearfield", VStr "2.0"); ("farfield", VStr "5.0");
       ("zonefield", VStr "2.0"); ("vessels", VStr "far")] in
  nearfield <- get_parameter self "RESOLUTION_FIELD_NEAR" true None ;;
  needlezonefield <- get_parameter self "RESOLUTION_FIELD_NEEDLE_ZONE" true None ;;
  farfield <- get_parameter self "RESOLUTION_FIELD_FAR" true None ;;
  zonefield <- get_parameter self "RESOLUTION_FIELD_ZONE" true None ;;
  let lengthscale_settings :=
    if truthy nearfield
    then setitem 0 ("nearfield", nearfield) lengthscale_settings
    else lengthscale_settings in
  let lengthscale_settings :=
    if truthy farfield
    then setitem 1 ("farfield", farfield) lengthscale_settings
    else lengthscale_settings in
  let lengthscale_settings :=
    if truthy zonefield
    then setitem 2 ("zonefield", zonefield) lengthscale_settings
    else lengthscale_settings in
  let a := set_all (map (fun kv => (fst kv, py_str (snd kv))) lengthscale_settings) [] in
  let a := if truthy needlezonefield
           then set "needlezonefield" (py_str needlezonefield) a
           else a in
  Ok (node "lengthscales" a [], needlezonefield).

(** Lines 252-258: the [variant] node. *)
Definition variant_node (self : Family) : result Element :=
  definition <- getattr (_definition self) ;;
  sif_text <- match definition with
              | Some t => Ok (t ++ SOURCES_MARKER)
              | None => Err TypeError        (* None += str *)
              end ;;
  modules <- get_parameter self "ELMER_NUMA_MODULES" true None ;;
  a <- (if truthy modules
        then items <- py_iter modules ;;
             names <- mapM as_str items ;;
             Ok (set "modules" (join "; " names) [])
        else Ok []) ;;
  Ok (mkElement "variant" a (Some sif_text) []).

(** Lines 262-276: the [algorithm] node of one algorithm. The name
    [RuntimeException] that line 276 raises is bound nowhere in the
    module: evaluating it raises [NameError]. *)
Definition algorithm_node (entry : string * algorithm) : result Element :=
  let '(result_name, definition) := entry in
  let a := set "arguments" (join "," (arguments definition))
             (set "result" result_name []) in
  let arguments_node :=
    node "arguments" []
         (map (fun argument => node "argument" (set "name" argument []) [])
              (sorted (arguments definition))) in
  let content_text := match content definition with
                      | Some t => t
                      | None => EMPTY
                      end in
  let content_node := mkElement "content" [] (Some content_text) [] in
  if existsb (fun fn => (str_contains fn content_text
                         || str_contains fn result_name)%bool)
             _disallowed_functions
  then Err (NameError "RuntimeException")
  else Ok (node "algorithm" a [arguments_node; content_node]).

(** The children that the loop over the needles appends (lines 278-330)
    and its counter [l]. *)
Record placement : Type := mkPlacement {
  l : nat;
  regions_children : list Element;
  needlelibrary_children : list Element;
  mesher_children : list Element;
  elmer_children : list Element
}.

(** Lines 310-315: one [constant] of a needle of the library. *)
Definition constant_node (entry : string * (pyval * option string)) : Element :=
  let '(key, (parameter, typ)) := entry in
  node "constant"
       (set "value" (py_str (convert_parameter parameter typ true))
         (set "name" key []))
       [].

(** [" ".join(map(lambda c: str(f(c)), pairs))] for a difference [f] of the
    two components of a pair. *)
Definition joined_differences (f : pyval * pyval -> result pyval)
    (pairs : list (pyval * pyval)) : result string :=
  ds <- mapM (fun c => d <- f c ;; Ok (py_str d)) pairs ;;
  Ok (join " " ds).

(** [location[1]]. *)
Definition location1 (location : string * option string) : result string :=
  match snd location with
  | Some s => Ok s
  | None => Err IndexError
  end.

(** Lines 281-315: a needle of class [boundary] or [solid-boundary]. *)
Definition boundary_needle (self : Family) (centre_location needlezonefield : pyval)
    (name_needle_regions : bool) (ix : string) (needle : needle) (b : placement)
    : result placement :=
  let location := split_once ":" (needle_file needle) in
  if str_in (fst location) ["surface"; "zone"] then
    input <- location1 location ;;
    let needleNode :=
      node (fst location)
           (set "groups" "needles"
             (set "input" (os_path_join "input/" input)
               (set "name" ix [])))
           [] in
    a <- (if (truthy needlezonefield && String.eqb (fst location) "zone")%bool
          then length <- as_str needlezonefield ;;
               Ok (set "characteristic_length" length (set "region" ix []))
          else Ok (set "region" ix [])) ;;
    Ok {| l := l b;
          regions_children := (regions_children b ++ [needleNode])%list;
          needlelibrary_children := needlelibrary_children b;
          mesher_children := (mesher_children b ++ [node "needle" a []])%list;
          elmer_children := elmer_children b |}
  else
    let l' := S (l b) in
    let a := if name_needle_regions
             then set "name" (str_int (Z.of_nat l')) []
             else [] in
    ref <- location1 location ;;
    let a := if String.eqb (fst location) "library"
             then set "id" ref a
             else set "name" ref a in
    tip_location <- get_needle_parameter self (inr ix) "NEEDLE_TIP_LOCATION" true ;;
    entry_location <- get_needle_parameter self (inr ix) "NEEDLE_ENTRY_LOCATION" true ;;
    tips <- py_iter tip_location ;;
    centres <- py_iter centre_location ;;
    (* lambda c: str(c[1] - c[0]) over zip(tip_location, centre_location) *)
    offset <- joined_differences (fun c => py_sub (snd c) (fst c))
                                 (combine tips centres) ;;
    entries <- py_iter entry_location ;;
    (* lambda c: str(c[0] - c[1]) over zip(entry_location, tip_location) *)
    axis <- joined_differences (fun c => py_sub (fst c) (snd c))
                               (combine entries tips) ;;
    let a := set "axis" axis (set "offset" offset a) in
    let parameters :=
      node "parameters" [] (map constant_node (needle_parameters needle)) in
    Ok {| l := l';
          regions_children := regions_children b;
          needlelibrary_children :=
            (needlelibrary_children b ++ [node "needle" a [parameters]])%list;
          mesher_children := mesher_children b;
          elmer_children := elmer_children b |}.

(** Lines 317-330: a needle of class [point-sources]. *)
Definition point_sources_needle (self : Family) (needle : needle) (b : placement)
    : result placement :=
  let location := split_once ":" (needle_file needle) in
  a <- (if String.eqb (fst location) "library"
        then system <- location1 location ;; Ok (set "system" system [])
        else Err (RuntimeError
                    ("Unknown point source distribution method: " ++ fst location))) ;;
  extension_lengths <- get_parameter self "CONSTANT_NEEDLE_EXTENSIONS" true None ;;
  lengths <- py_iter extension_lengths ;;
  let extension_nodes :=
    map (fun pe => node "extension"
                     (set "length" (py_str (snd pe))
                       (set "phase" (str_int (Z.of_nat (fst pe))) []))
                     [])
        (combine (seq 0 (List.length lengths)) lengths) in
  let point_sources := node "pointsources" a [node "extensions" [] extension_nodes] in
  Ok {| l := l b;
        regions_children := regions_children b;
        needlelibrary_children := needlelibrary_children b;
        mesher_children := mesher_children b;
        elmer_children := (elmer_children b ++ [point_sources])%list |}.

(** The body of [for ix, needle in self._needles.items()] (lines 279-330). *)
Definition place_needle (self : Family) (centre_location needlezonefield : pyval)
    (name_needle_regions : bool) (b : placement) (entry : string * needle)
    : result placement :=
  let '(ix, needle) := entry in
  if str_in (needle_class needle) ["solid-boundary"; "boundary"] then
    boundary_needle self centre_location needlezonefield name_needle_regions
                    ix needle b
  else if String.eqb (needle_class needle) "point-sources" then
    point_sources_needle self needle b
  else Ok b.

(** Lines 333-342: the [lesion] node. *)
Definition lesion_node (self : Family) : result Element :=
  field <- get_parameter self "SETTING_LESION_FIELD" false None ;;
  field <- as_str field ;;
  let a := set "field" field [] in
  threshold_upper <- get_parameter self "SETTING_LESION_THRESHOLD_UPPER" true None ;;
  let a := if is_None threshold_upper then a
           else set "threshold_upper" (py_str threshold_upper) a in
  threshold_lower <- get_parameter self "SETTING_LESION_THRESHOLD_LOWER" true None ;;
  let a := if is_None threshold_lower then a
           else set "threshold_lower" (py_str threshold_lower) a in
  Ok (node "lesion" a []).

(** What lines 124-258 have built when the loop over the algorithms
    starts: the geometry, regions, constants, needle library and mesher
    sections and the [variant] node. *)
Record front : Type := mkFront {
  centre : pyval;
  geometry : Element;
  region_nodes : list Element;
  constants : Element;
  needlelibrary_attrib : dict string string;
  name_needle_regions : bool;
  mesher_attrib : dict string string;
  mesher_nodes : list Element;
  needlezonefield : pyval;
  variant : Element
}.

Definition sections_before_algorithms (self : Family) : result front :=
  (* geometry, lines 128-157 *)
  centre <- centre_location self ;;
  centre_location_node <- centre_node centre ;;
  needle_axis <- needleaxis_nodes self ;;
  scaling <- simulationscaling_nodes self ;;
  let geometry :=
    node "geometry" [] ((centre_location_node :: needle_axis) ++ scaling)%list in
  (* regions, lines 159-164 *)
  regions <- getattr (_regions self) ;;
  let region_nodes := map region_node regions in
  (* constants, lines 166-174 *)
  parameters <- getattr (_parameters self) ;;
  let constants := node "constants" [] (map parameter_node parameters) in
  (* needlelibrary, lines 176-182 *)
  solid_needles <- get_parameter self "SETTING_SOLID_NEEDLES" true None ;;
  let needlelibrary_attrib :=
    if is_None solid_needles then []
    else set "zones" (if is_True solid_needles then "true" else "false") [] in
  let name_needle_regions := negb (is_None solid_needles) in
  (* mesher, lines 184-247 *)
  zone_boundaries <- get_parameter self "SETTING_ZONE_BOUNDARIES" true None ;;
  let mesher_attrib :=
    if (is_True solid_needles || is_True zone_boundaries)%bool
    then set "zone_boundaries" "true" (set "type" "CGAL" [])
    else set "type" "CGAL" [] in
  inner <- inner_nodes self ;;
  extent <- extent_node self ;;
  let classes := flat_map mesher_region_nodes regions in
  '(lengthscales, needlezonefield) <- lengthscales_node self ;;
  let mesher_nodes :=
    (inner ++ [extent; node "centre" [] []] ++ classes ++ [lengthscales])%list in
  (* optimizer, elmergrid, elmer and variant, lines 249-258 *)
  variant <- variant_node self ;;
  Ok {| centre := centre; geometry := geometry; region_nodes := region_nodes;
        constants := constants;
        needlelibrary_attrib := needlelibrary_attrib;
        name_needle_regions := name_needle_regions;
        mesher_attrib := mesher_attrib; mesher_nodes := mesher_nodes;
        needlezonefield := needlezonefield; variant := variant |}.

(** The children of the four nodes when the loop over the needles
    starts. *)
Definition initial_placement (fr : front) (algorithm_nodes : list Element)
    : placement :=
  {| l := 0;
     regions_children := region_nodes fr;
     needlelibrary_children := [];
     mesher_children := mesher_nodes fr;
     elmer_children := [variant fr; node "algorithms" [] algorithm_nodes] |}.

(** [for ix, needle in self._needles.items()] (lines 279-330). *)
Definition place_needles (self : Family) (fr : front) (b : placement)
    (needles : dict string needle) : result placement :=
  foldM (place_needle self (centre fr) (needlezonefield fr)
                      (name_needle_regions fr))
        b needles.

(** The root once every section is written. *)
Definition assemble (fr : front) (b : placement) (lesion : Element) : Element :=
  node "gosmart"
       (set "version" "1.0.1" (set "name" "elmer_libnuma" []))
       [ geometry fr;
         node "regions" [] (regions_children b);
         constants fr;
         node "needlelibrary" (needlelibrary_attrib fr) (needlelibrary_children b);
         node "mesher" (mesher_attrib fr) (mesher_children b);
         node "optimizer" [] [];
         node "elmergrid" [] [];
         node "elmer" [] (elmer_children b);
         lesion ].

(** The tree that [to_xml] returns, or the exception it raises. *)
Definition to_xml_root (self : Family) : result Element :=
  fr <- sections_before_algorithms self ;;
  (* the algorithms, lines 260-276 *)
  algorithms <- getattr (_algorithms self) ;;
  algorithm_nodes <- mapM algorithm_node algorithms ;;
  (* the needles, lines 278-330 *)
  b <- place_needles self fr (initial_placement fr algorithm_nodes)
                     (_needles self) ;;
  (* lesion, lines 333-342 *)
  lesion <- lesion_node self ;;
  Ok (assemble fr b lesion).

(** [to_xml]: the tree is kept in [self._xml] and returned (lines 344-346). *)
Definition to_xml : M Family Element :=
  fun self =>
    match to_xml_root self with
    | Ok root => (Ok root, set_xml (Some root) self)
    | Err e => (Err e, self)
    end.

(** Loading a description into a new instance and compiling it. *)
Definition compile (files_required : dict string string) (xml : description)
    (parameters : parameters) (algorithms : dict string algorithm)
    : result Element :=
  match load_definition xml parameters algorithms (__init__ files_required) with
  | (Ok _, self) => fst (to_xml self)
  | (Err e, _) => Err e
  end.

End ElmerLibNumaFamily.

(* ================================================================== *)
(** ** Sample inputs

    An instance of the functions that the family takes from outside, and
    the descriptions on which the results below are evaluated. *)

Module Sample.

(** The double quote character. *)
Definition DQ : string := String (ascii_of_nat 34) EMPTY.

(** [repr] of a [float] whose value has a decimal expansion of at most
    17 places: the whole part, the point and the places. The samples
    print no other float; for one, the fraction is written out. *)
Definition float_repr (q : Q) : string :=
  let r := Qred q in
  let n := Qnum r in
  let d := Zpos (Qden r) in
  match List.find (fun k => (10 ^ k mod d =? 0)%Z) (map Z.of_nat (seq 0 18)) with
  | Some k =>
      let m := (Z.abs n * 10 ^ k / d)%Z in
      let whole := (m / 10 ^ k)%Z in
      let places := (m mod 10 ^ k)%Z in
      (if (n <? 0)%Z then "-" else EMPTY)
      ++ str_int whole ++ "."
      ++ (if (k =? 0)%Z then "0" else drop_str 1 (str_int (10 ^ k + places)))
  | None => str_int n ++ "/" ++ str_int d
  end.

(** [repr] of a [str] that holds no quote, backslash or control
    character. *)
Definition str_repr (s : string) : string := "'" ++ s ++ "'".

(** [json.dumps] on values whose strings need no escape. *)
Fixpoint json_dumps (v : pyval) : string :=
  match v with
  | VNone => "null"
  | VBool true => "true"
  | VBool false => "false"
  | VInt z => str_int z
  | VFloat q => float_repr q
  | VStr s => DQ ++ s ++ DQ
  | VList l => "[" ++ join ", " (map json_dumps l) ++ "]"
  end.

(** [json.loads] on a list of strings written without escapes, the
    items separated by commas and blanks. *)
Fixpoint parse_items (s : string) (inside : bool) (cur : string)
    (acc : list string) : result (list string) :=
  match s with
  | EmptyString => Err ValueError
  | String c s' =>
      if inside then
        if Ascii.eqb c (ascii_of_nat 34)
        then parse_items s' false EMPTY (acc ++ [cur])%list
        else parse_items s' true (cur ++ String c EMPTY) acc
      else if Ascii.eqb c (ascii_of_nat 34) then parse_items s' true EMPTY acc
      else if Ascii.eqb c "]" then
        match s' with EmptyString => Ok acc | _ => Err ValueError end
      else if (Ascii.eqb c "," || Ascii.eqb c " ")%bool
      then parse_items s' false EMPTY acc
      else Err ValueError
  end.

Definition json_loads_groups (s : string) : result (list string) :=
  match s with
  | String "[" s' => parse_items s' false EMPTY []
  | _ => Err ValueError
  end.

(** The JSON text of a list of strings. *)
Definition json_list (items : list string) : string :=
  "[" ++ join ", " (map (fun s => DQ ++ s ++ DQ) items) ++ "]".

(** Modelled from the spec: [gosmart.server.parameters.convert_parameter]
    is not among the sources. The data model of the specification says
    that a parameter without type tag is passed through; the samples use
    parameters without type tag whose raw value is the Python object
    itself. *)
Definition convert_parameter (parameter : pyval) (typ : option string)
    (try_json : bool) : pyval := parameter.

(** Modelled from the spec: [gosmart.server.parameters.read_parameters]
    is not among the sources. The nested parameter block of a needle is
    taken as the dictionary it is read into. *)
Definition read_parameters (block : parameters) : parameters := block.

Definition load_definition :=
  load_definition json_loads_groups read_parameters.
Definition to_xml_root :=
  to_xml_root float_repr str_repr json_dumps convert_parameter.
Definition compile :=
  compile float_repr str_repr json_dumps json_loads_groups convert_parameter
          read_parameters.
Definition py_str := py_str float_repr str_repr.
Definition get_parameter := get_parameter convert_parameter.
Definition centre_location := centre_location convert_parameter.

Definition untyped (v : pyval) : pyval * option string := (v, None).

(** A description without needles and without regions. *)
Definition bare : description parameters :=
  {| definition_text := Some "Header";
     needles_block := None;
     regions_block := Some [] |}.

Definition lesion_field : string * (pyval * option string) :=
  ("SETTING_LESION_FIELD", untyped (VStr "dead")).

Definition origin : pyval := VList [VInt 0; VInt 0; VInt 0].


(** An algorithm with an argument named [eval]. *)
Definition algs_eval_argument : dict string algorithm :=
  [("out", {| arguments := ["x"; "eval"]; content := Some "x + 1" |})].

(** The parameters of a compilation whose centre is given: the origin. *)
Definition params_origin : parameters :=
  [("CENTRE_LOCATION", untyped origin); lesion_field].

(** The instance that has loaded a description into a new object. *)
Definition loaded (xml : description parameters) (parameters : parameters)
    (algorithms : dict string algorithm) : Family :=
  snd (load_definition xml parameters algorithms (__init__ [])).

(** The document of a compilation that returns one. *)
Definition document (r : result Element) : Element :=
  match r with
  | Ok root => root
  | Err _ => node EMPTY [] []
  end.

(** A needle of the library at (1, 2, 3), entering at (4, 6, 8). *)
Definition probe : needle_element parameters :=
  {| needle_index_attr := "n1";
     needle_class_attr := "solid-boundary";
     needle_file_attr := "library:probe";
     needle_parameters_elem :=
       [("NEEDLE_TIP_LOCATION", untyped (VList [VInt 1; VInt 2; VInt 3]));
        ("NEEDLE_ENTRY_LOCATION", untyped (VList [VInt 4; VInt 6; VInt 8]))] |}.

(** A second needle of the library, at (3, 4, 6). *)
Definition probe2 : needle_element parameters :=
  {| needle_index_attr := "n2";
     needle_class_attr := "boundary";
     needle_file_attr := "library:probe";
     needle_parameters_elem :=
       [("NEEDLE_TIP_LOCATION", untyped (VList [VInt 3; VInt 4; VInt 6]));
        ("NEEDLE_ENTRY_LOCATION", untyped (VList [VInt 4; VInt 6; VInt 8]))] |}.

Definition one_probe : description parameters :=
  {| definition_text := Some "Header";
     needles_block := Some [probe];
     regions_block := Some [] |}.

Definition two_probes : description parameters :=
  {| definition_text := Some "Header";
     needles_block := Some [probe; probe2];
     regions_block := Some [] |}.

Definition params_centroid : parameters :=
  [("CENTRE_LOCATION", untyped (VStr "centroid-of-tips")); lesion_field].

(** The near field supplied as 0. *)
Definition params_near_zero : parameters :=
  [("CENTRE_LOCATION", untyped origin); lesion_field;
   ("RESOLUTION_FIELD_NEAR", untyped (VInt 0))].

(** High resolution, with the far field supplied as 3. *)
Definition params_high_far : parameters :=
  [("CENTRE_LOCATION", untyped origin); lesion_field;
   ("RESOLUTION_HIGH", untyped (VBool true));
   ("RESOLUTION_FIELD_FAR", untyped (VInt 3))].


(** A point source whose distribution is given by a surface file. *)
Definition surface_source : needle_element parameters :=
  {| needle_index_attr := "p1";
     needle_class_attr := "point-sources";
     needle_file_attr := "surface:mesh.stl";
     needle_parameters_elem :=
       [("NEEDLE_TIP_LOCATION", untyped (VList [VInt 1; VInt 2; VInt 3]));
        ("NEEDLE_ENTRY_LOCATION", untyped (VList [VInt 4; VInt 6; VInt 8]))] |}.

(** A point source of the library. *)
Definition library_source : needle_element parameters :=
  {| needle_index_attr := "p1";
     needle_class_attr := "point-sources";
     needle_file_attr := "library:umbrella";
     needle_parameters_elem :=
       [("NEEDLE_TIP_LOCATION", untyped (VList [VInt 1; VInt 2; VInt 3]));
        ("NEEDLE_ENTRY_LOCATION", untyped (VList [VInt 4; VInt 6; VInt 8]))] |}.

Definition with_needle (ne : needle_element parameters) : description parameters :=
  {| definition_text := Some "Header";
     needles_block := Some [ne];
     regions_block := Some [] |}.

Definition params_extensions : parameters :=
  [lesion_field;
   ("CONSTANT_NEEDLE_EXTENSIONS", untyped (VList [VInt 10; VInt 20]))].

(** Four regions: a zone, an organ, a vessel and a region of no class. *)
Definition region_of (id name format : string) (groups : list string)
    : region_element :=
  {| region_id_attr := id;
     region_name_attr := name;
     region_format_attr := format;
     region_input_attr := Some (id ++ "-in.vtp");
     region_groups_attr := json_list groups |}.

Definition four_regions : description parameters :=
  {| definition_text := Some "Header";
     needles_block := None;
     regions_block :=
       Some [ region_of "r1" "organ" "zone" ["organs"];
              region_of "r2" "organ" "surface" ["organs"];
              region_of "r3" "veins" "surface" ["vessels"; "veins"];
              region_of "r4" "tumour" "surface" ["tumours"] ] |}.

(** A region without the [input] attribute. *)
Definition region_without_input : region_element :=
  {| region_id_attr := "r1";
     region_name_attr := "organ";
     region_format_attr := "surface";
     region_input_attr := None;
     region_groups_attr := json_list ["organs"] |}.

Definition with_region (re : region_element) : description parameters :=
  {| definition_text := Some "Header";
     needles_block := None;
     regions_block := Some [re] |}.


End Sample.

(* ================================================================== *)
(** ** What the specification speaks of *)

(** A text holds an identifier of the denylist as a substring. *)
Definition denylisted (s : string) : bool :=
  existsb (fun fn => str_contains fn s) _disallowed_functions.

(** The text of the content of an algorithm. *)
Definition content_text (definition : algorithm) : string :=
  match content definition with
  | Some t => t
  | None => EMPTY
  end.

(** Neither the content nor the result name of the algorithm holds an
    identifier of the denylist. *)
Definition clean (entry : string * algorithm) : bool :=
  (negb (denylisted (content_text (snd entry)))
   && negb (denylisted (fst entry)))%bool.

(** The entry of an algorithm in the document: its result name, its
    arguments as declared, joined by commas, one [argument] node for each
    argument in sorted order, and its content. *)
Definition algorithm_entry (entry : string * algorithm) : Element :=
  node "algorithm"
       [("result", fst entry); ("arguments", join "," (arguments (snd entry)))]
       [ node "arguments" []
              (map (fun a => node "argument" [("name", a)] [])
                   (sorted (arguments (snd entry))));
         mkElement "content" [] (Some (content_text (snd entry))) [] ].

(** [root.find("elmer").find("algorithms")]. *)
Definition algorithms_of (root : Element) : option Element :=
  match find "elmer" root with
  | Some elmer => find "algorithms" elmer
  | None => None
  end.

(** The reference kind and the locator of a needle: the two parts of
    [kind:locator]. *)
Definition reference_kind (needle : needle) : string :=
  fst (split_once ":" (needle_file needle)).

Definition locator (needle : needle) : option string :=
  snd (split_once ":" (needle_file needle)).

(** The class of the needle is [boundary] or [solid-boundary]. *)
Definition is_boundary (needle : needle) : bool :=
  str_in (needle_class needle) ["solid-boundary"; "boundary"].

(** The file reference of the needle is a surface or zone mesh file. *)
Definition is_mesh_file (needle : needle) : bool :=
  str_in (reference_kind needle) ["surface"; "zone"].

(** The needle is emitted as a placement of the needle library. *)
Definition is_library_placement (entry : string * needle) : bool :=
  (is_boundary (snd entry) && negb (is_mesh_file (snd entry)))%bool.

(** The class of the needle is [point-sources]. *)
Definition is_point_sources (entry : string * needle) : bool :=
  String.eqb (needle_class (snd entry)) "point-sources".

(** The per-axis difference [x - y] of two vectors, over the axes that
    both have. *)
Definition per_axis_difference (xs ys : list pyval) : result (list pyval) :=
  mapM (fun c => py_sub (fst c) (snd c)) (combine xs ys).







(** The block written for a needle of class [point-sources]: its
    distribution system is the locator of a [library] reference. *)
Definition point_source_block (entry : string * needle) (e : Element) : Prop :=
  exists system extensions,
    reference_kind (snd entry) = "library" /\
    locator (snd entry) = Some system /\
    e = node "pointsources" [("system", system)] [node "extensions" [] extensions].

(** A child of [elmer] is a [pointsources] block. *)
Definition is_pointsources_block (e : Element) : bool :=
  String.eqb (tag e) "pointsources".

(** A child of [mesher] that classifies a region. *)
Definition is_class_entry (e : Element) : bool :=
  str_in (tag e) ["zone"; "organ"; "vessel"].

(** What the mesher section holds for the region [idx]: a [zone] entry for
    a region of format [zone]; else an [organ] entry for a region that
    means [organ]; else a [vessel] entry for a region in the group
    [vessels] or [bronchi]; else nothing. *)
Inductive mesher_entry (idx : string) (r : region) : list Element -> Prop :=
| entry_zone :
    region_format r = "zone" ->
    mesher_entry idx r [node "zone" [("region", idx)] []]
| entry_organ :
    region_format r <> "zone" ->
    region_meaning r = "organ" ->
    mesher_entry idx r [node "organ" [("region", idx)] []]
| entry_vessel :
    region_format r <> "zone" ->
    region_meaning r <> "organ" ->
    In "vessels" (region_groups r) \/ In "bronchi" (region_groups r) ->
    mesher_entry idx r [node "vessel" [("region", idx)] []]
| entry_none :
    region_format r <> "zone" ->
    region_meaning r <> "organ" ->
    ~ In "vessels" (region_groups r) ->
    ~ In "bronchi" (region_groups r) ->
    mesher_entry idx r [].

(** Two instances that differ at most in [_files_required]. *)
Definition same_but_files (s1 s2 : Family) : Prop :=
  set_files_required [] s1 = set_files_required [] s2.

(** A computation whose result and whose effect on the other attributes do
    not depend on [_files_required]. *)
Definition files_blind {A : Type} (m : M Family A) : Prop :=
  forall s1 s2, same_but_files s1 s2 ->
    fst (m s1) = fst (m s2) /\ same_but_files (snd (m s1)) (snd (m s2)).

(** A computation that leaves [_needles] and [_needle_order] as they are. *)
Definition keeps_needles {A : Type} (m : M Family A) : Prop :=
  forall s, _needles (snd (m s)) = _needles s /\
            _needle_order (snd (m s)) = _needle_order s.


(* ================================================================== *)
(** ** Results *)

Lemma rbind_ok {A B : Type} (m : result A) (k : A -> result B) (b : B) :
  rbind m k = Ok b -> exists a, m = Ok a /\ k a = Ok b.
Proof.
  destruct m as [a|e]; simpl; intros H.
  - exists a; auto.
  - discriminate.
Qed.

(** Splits a hypothesis [x <- m ;; k = Ok b] into the two steps. *)
Ltac bind_inv H :=
  let a := fresh "v" in
  let Ha := fresh "Hv" in
  apply rbind_ok in H; destruct H as (a & Ha & H).

Lemma existsb_orb {A : Type} (f g : A -> bool) (xs : list A) :
  existsb (fun x => (f x || g x)%bool) xs = (existsb f xs || existsb g xs)%bool.
Proof.
  induction xs as [|x xs IH]; simpl; [reflexivity|].
  rewrite IH. destruct (f x), (g x), (existsb f xs), (existsb g xs); reflexivity.
Qed.

Lemma algorithm_node_spec (entry : string * algorithm) :
  algorithm_node entry =
  if clean entry then Ok (algorithm_entry entry)
  else Err (NameError "RuntimeException").
Proof.
  destruct entry as [name definition]. unfold algorithm_node, clean, denylisted.
  rewrite existsb_orb. simpl fst; simpl snd. fold (content_text definition).
  destruct (existsb _ _), (existsb _ _); reflexivity.
Qed.

Lemma mapM_algorithm_node_clean (algorithms : dict string algorithm) :
  forallb clean algorithms = true ->
  mapM algorithm_node algorithms = Ok (map algorithm_entry algorithms).
Proof.
  induction algorithms as [|entry rest IH]; simpl; intros H; [reflexivity|].
  apply andb_prop in H. destruct H as [Hc Hrest].
  rewrite algorithm_node_spec, Hc. simpl. rewrite (IH Hrest). reflexivity.
Qed.

Lemma mapM_algorithm_node_dirty (algorithms : dict string algorithm) :
  forallb clean algorithms = false ->
  mapM algorithm_node algorithms = Err (NameError "RuntimeException").
Proof.
  induction algorithms as [|entry rest IH]; simpl; intros H; [discriminate|].
  rewrite algorithm_node_spec. destruct (clean entry); simpl in *.
  - rewrite (IH H). reflexivity.
  - reflexivity.
Qed.

Lemma mapM_algorithm_node_ok (algorithms : dict string algorithm) (nodes : list Element) :
  mapM algorithm_node algorithms = Ok nodes ->
  forallb clean algorithms = true /\ nodes = map algorithm_entry algorithms.
Proof.
  intros H. destruct (forallb clean algorithms) eqn:Hc.
  - rewrite (mapM_algorithm_node_clean _ Hc) in H. inversion H. auto.
  - rewrite (mapM_algorithm_node_dirty _ Hc) in H. discriminate.
Qed.

Lemma combine_map_fst_dup {A B : Type} (xs : list A) (ys : list B) :
  List.length ys = List.length xs -> map fst (combine xs ys) = xs.
Proof.
  revert ys. induction xs as [|x xs IH]; intros [|y ys] H; simpl in *;
    try discriminate; try reflexivity.
  rewrite IH by congruence. reflexivity.
Qed.

(** *** Dictionaries built by insertion *)

Section DictFacts.

Variables K V : Type.
Variable keq : K -> K -> bool.
Hypothesis keq_eq : forall a b, keq a b = true <-> a = b.

Lemma keq_refl (a : K) : keq a a = true.
Proof. apply keq_eq. reflexivity. Qed.

Lemma keq_neq (a b : K) : a <> b -> keq a b = false.
Proof.
  intros H. destruct (keq a b) eqn:E; [|reflexivity].
  apply keq_eq in E. contradiction.
Qed.

Lemma dict_set_new (k : K) (v : V) (d : dict K V) :
  ~ In k (map fst d) -> dict_set keq k v d = (d ++ [(k, v)])%list.
Proof.
  induction d as [|[k' v'] d IH]; simpl; intros H; [reflexivity|].
  rewrite keq_neq by (intros ->; apply H; left; reflexivity).
  rewrite IH by (intros Hin; apply H; right; exact Hin). reflexivity.
Qed.

(** Inserting new, distinct keys one after the other appends them. *)
Lemma fold_dict_set_new (entries : list (K * V)) :
  forall d,
    NoDup (map fst entries) ->
    (forall k, In k (map fst entries) -> ~ In k (map fst d)) ->
    fold_left (fun d e => dict_set keq (fst e) (snd e) d) entries d
    = (d ++ entries)%list.
Proof.
  induction entries as [|[k v] entries IH]; intros d Hnd Hfresh; simpl.
  - rewrite app_nil_r. reflexivity.
  - simpl in Hnd. inversion Hnd as [|? ? Hk Hnd']; subst.
    rewrite dict_set_new by (apply Hfresh; left; reflexivity).
    rewrite IH.
    + rewrite <- app_assoc. reflexivity.
    + assumption.
    + intros k' Hk'. rewrite map_app, in_app_iff. simpl.
      intros [Hd|[->|[]]].
      * apply (Hfresh k'); [right; assumption|assumption].
      * contradiction.
Qed.

Lemma dict_get_nth (keys : list K) :
  forall (vals : list V) i k v,
    NoDup keys ->
    nth_error keys i = Some k ->
    nth_error vals i = Some v ->
    dict_get keq k (combine keys vals) = Some v.
Proof.
  induction keys as [|k0 keys IH]; intros vals i k v Hnd Hk Hv.
  - destruct i; discriminate.
  - inversion Hnd as [|? ? Hk0 Hnd']; subst.
    destruct vals as [|v0 vals]; [destruct i; discriminate|].
    destruct i as [|i]; simpl in *.
    + inversion Hk; inversion Hv; subst. rewrite keq_refl. reflexivity.
    + rewrite keq_neq.
      * eapply IH; eassumption.
      * intros ->. apply Hk0. eapply nth_error_In; eassumption.
Qed.

Lemma dict_get_set_same (k : K) (v : V) (d : dict K V) :
  dict_get keq k (dict_set keq k v d) = Some v.
Proof.
  induction d as [|[k' v'] d IH]; simpl.
  - rewrite keq_refl. reflexivity.
  - destruct (keq k k') eqn:E; simpl; rewrite E; auto.
Qed.

End DictFacts.

(** *** Sums, means and columns *)















Lemma Forall2_nth_error_l {A B : Type} (R : A -> B -> Prop) (xs : list A)
    (ys : list B) :
  Forall2 R xs ys ->
  forall k a, nth_error xs k = Some a ->
  exists b, nth_error ys k = Some b /\ R a b.
Proof.
  induction 1 as [|x y xs ys HR _ IH]; intros k a Hk.
  - destruct k; discriminate.
  - destruct k as [|k]; simpl in *.
    + inversion Hk; subst. exists y. auto.
    + apply IH. assumption.
Qed.



Lemma nth_error_seq_lt (n k : nat) :
  (k < n)%nat -> nth_error (seq 0 n) k = Some k.
Proof.
  intros H. rewrite (nth_error_nth' (seq 0 n) 0%nat) by (rewrite length_seq; assumption).
  rewrite seq_nth by assumption. reflexivity.
Qed.



Lemma In_insert_sorted (x y : string) (xs : list string) :
  In y (insert_sorted x xs) <-> y = x \/ In y xs.
Proof.
  induction xs as [|z xs IH]; simpl.
  - intuition auto.
  - destruct (String.leb x z); simpl; [intuition auto|].
    rewrite IH. intuition auto.
Qed.

Lemma In_sorted (y : string) (xs : list string) : In y (sorted xs) <-> In y xs.
Proof.
  unfold sorted. induction xs as [|x xs IH]; simpl; [reflexivity|].
  rewrite In_insert_sorted, IH. intuition auto.
Qed.

(* ================================================================== *)
(** ** A treatment with needles of every kind

    The description on which the results about the sections of a document
    are evaluated: a needle of the library, a needle given by a zone, one
    given by a surface, one of a catalogue that is not the library, and a
    point source; the four regions; and settings for every section. *)

Module Treatment.

Import Sample.

Definition zone_needle : needle_element parameters :=
  {| needle_index_attr := "z1";
     needle_class_attr := "boundary";
     needle_file_attr := "zone:meshes/antenna.vtu";
     needle_parameters_elem := [] |}.

Definition surface_needle : needle_element parameters :=
  {| needle_index_attr := "s1";
     needle_class_attr := "solid-boundary";
     needle_file_attr := "surface:probe.stl";
     needle_parameters_elem := [] |}.

Definition catalogue_needle : needle_element parameters :=
  {| needle_index_attr := "c1";
     needle_class_attr := "boundary";
     needle_file_attr := "catalogue:rod";
     needle_parameters_elem :=
       [("NEEDLE_TIP_LOCATION", untyped (VList [VInt 3; VInt 4; VInt 6]));
        ("NEEDLE_ENTRY_LOCATION", untyped (VList [VInt 4; VInt 6; VInt 8]))] |}.

Definition settings : parameters :=
  [("CENTRE_LOCATION", untyped origin);
   lesion_field;
   ("SETTING_LESION_THRESHOLD_LOWER", untyped (VInt 1));
   ("SETTING_SOLID_NEEDLES", untyped (VBool true));
   ("RESOLUTION_FIELD_NEEDLE_ZONE", untyped (VStr "0.5"));
   ("CONSTANT_NEEDLE_EXTENSIONS", untyped (VList [VInt 10; VInt 20]));
   ("SIMULATION_SCALING", untyped (VInt 2));
   ("ELMER_NUMA_MODULES", untyped (VList [VStr "heat"; VStr "cells"]));
   ("SETTING_AXISYMMETRIC_INNER", untyped (VStr "disc"));
   ("SIMULATION_DOMAIN_RADIUS", untyped (VInt 30));
   ("POWER", (VInt 5, Some "int"))].

Definition plan : description parameters :=
  {| definition_text := Some "Header";
     needles_block :=
       Some [probe; zone_needle; surface_needle; catalogue_needle;
             library_source];
     regions_block := regions_block four_regions |}.

(** The instance that has loaded the plan. *)
Definition planned : Family := loaded plan settings [].

(** The document of the plan. *)
Definition sheet : Element := document (to_xml_root planned).

(** The instance once it has, after the plan, loaded the description with
    the one needle of the library. *)
Definition replanned : Family :=
  snd (load_definition one_probe params_origin [] planned).

(** The new instance on which loading a region without input has
    raised. *)
Definition unloaded : Family :=
  snd (load_definition (with_region region_without_input) params_origin []
                       (__init__ [])).

(** An algorithm that declares an argument twice, out of order. *)
Definition algs_repeated : dict string algorithm :=
  [("out", {| arguments := ["y"; "x"; "y"]; content := Some "x + y" |})].

End Treatment.

(** The needle is written as a region of its own: its class is [boundary]
    or [solid-boundary] and its file a surface or zone mesh file. *)
Definition is_mesh_needle (entry : string * needle) : bool :=
  (is_boundary (snd entry) && is_mesh_file (snd entry))%bool.

(** The region written for a needle with a mesh file: its tag is the
    reference kind, its name the index of the needle, its input the
    locator under [input/], its group [needles]. *)
Definition needle_region (entry : string * needle) (e : Element) : Prop :=
  exists input,
    locator (snd entry) = Some input /\
    e = node (reference_kind (snd entry))
             [("name", fst entry);
              ("input", os_path_join "input/" input);
              ("groups", "needles")]
             [].

(** The entry of the mesher for a needle with a mesh file: the
    characteristic length is the needle zone field, a string, and is
    written only for a zone and a field that is true as a condition. *)
Definition needle_mesh_entry (needlezonefield : pyval) (entry : string * needle)
    (e : Element) : Prop :=
  if (truthy needlezonefield
      && String.eqb (reference_kind (snd entry)) "zone")%bool
  then exists length,
         needlezonefield = VStr length /\
         e = node "needle"
                  [("region", fst entry); ("characteristic_length", length)] []
  else e = node "needle" [("region", fst entry)] [].

(** [enumerate(xs)] followed by a map: the item at [k] is made from [k]
    and the item of [xs] there. *)
Lemma nth_error_enumerate {A B : Type} (f : nat * A -> B) (xs : list A) :
  forall start k x,
    nth_error xs k = Some x ->
    nth_error (map f (combine (seq start (List.length xs)) xs)) k
    = Some (f ((start + k)%nat, x)).
Proof.
  induction xs as [|y xs IH]; intros start [|k] x H; simpl in *; try discriminate.
  - inversion H. rewrite Nat.add_0_r. reflexivity.
  - rewrite (IH (S start) k x H). f_equal. f_equal. f_equal. lia.
Qed.

Lemma length_enumerate {A B : Type} (f : nat * A -> B) (xs : list A) (start : nat) :
  List.length (map f (combine (seq start (List.length xs)) xs)) = List.length xs.
Proof.
  rewrite length_map, length_combine, length_seq. apply Nat.min_id.
Qed.

Lemma mapM_as_str (items : list pyval) (names : list string) :
  mapM as_str items = Ok names -> items = map VStr names.
Proof.
  revert names. induction items as [|v items IH]; intros names H; simpl in H.
  - inversion H. reflexivity.
  - bind_inv H. bind_inv H. inversion H; subst names; clear H.
    destruct v; try discriminate. inversion Hv; subst v0.
    simpl. f_equal. apply IH. assumption.
Qed.

(** *** Dictionaries: what an assignment keeps *)

Section DictUpdates.

Variables K V : Type.
Variable keq : K -> K -> bool.
Hypothesis keq_eq : forall a b, keq a b = true <-> a = b.

Lemma dict_get_set_other (k k' : K) (v : V) (d : dict K V) :
  k <> k' -> dict_get keq k (dict_set keq k' v d) = dict_get keq k d.
Proof.
  intros Hne. induction d as [|[k2 v2] d IH]; simpl.
  - rewrite (@keq_neq _ keq keq_eq _ _ Hne). reflexivity.
  - destruct (keq k' k2) eqn:E; simpl.
    + apply keq_eq in E. subst k2. rewrite (@keq_neq _ keq keq_eq _ _ Hne). reflexivity.
    + destruct (keq k k2); [reflexivity|assumption].
Qed.

Lemma dict_mem_set_same (k : K) (v : V) (d : dict K V) :
  dict_mem keq k (dict_set keq k v d) = true.
Proof. unfold dict_mem. rewrite (@dict_get_set_same _ _ keq keq_eq). reflexivity. Qed.

(** An assignment removes no key. *)
Lemma dict_mem_set (k k' : K) (v : V) (d : dict K V) :
  dict_mem keq k d = true -> dict_mem keq k (dict_set keq k' v d) = true.
Proof.
  intros H. destruct (keq k k') eqn:E.
  - apply keq_eq in E. subst k'. apply dict_mem_set_same.
  - unfold dict_mem in *. rewrite dict_get_set_other; [assumption|].
    intros ->. rewrite (@keq_refl _ keq keq_eq) in E. discriminate.
Qed.

Lemma dict_get_In (k : K) (v : V) (d : dict K V) :
  dict_get keq k d = Some v -> In (k, v) d.
Proof.
  induction d as [|[k' v'] d IH]; simpl; [discriminate|].
  destruct (keq k k') eqn:E.
  - apply keq_eq in E. subst k'. intros H. inversion H. left. reflexivity.
  - intros H. right. apply IH. assumption.
Qed.

Lemma In_dict_set (k k' : K) (v v' : V) (d : dict K V) :
  In (k', v') (dict_set keq k v d) -> (k' = k /\ v' = v) \/ In (k', v') d.
Proof.
  induction d as [|[k2 v2] d IH]; simpl.
  - intros [H|[]]. inversion H. left. split; reflexivity.
  - destruct (keq k k2) eqn:E.
    + apply keq_eq in E. subst k2. intros [H|H].
      * inversion H. left. split; reflexivity.
      * right. right. assumption.
    + intros [H|H].
      * right. left. assumption.
      * destruct (IH H) as [Hl|Hr]; [left; assumption|right; right; assumption].
Qed.

End DictUpdates.

(** Numbering the items of a list from [start], one assignment after the
    other: an ordinal of the range is bound to its item, any other key is
    as before. *)

Lemma dict_get_numbered {V : Type} (vals : list V) :
  forall (start : nat) (d : dict nat V) (k : nat),
    dict_get Nat.eqb k
      (fold_left (fun d e => dict_set Nat.eqb (fst e) (snd e) d)
                 (combine (seq start (List.length vals)) vals) d)
    = if ((start <=? k) && (k <? start + List.length vals))%nat%bool
      then nth_error vals (k - start)
      else dict_get Nat.eqb k d.
Proof.
  induction vals as [|v vals IH]; intros start d k; cbn [List.length seq combine fold_left].
  - replace (k <? start + 0)%nat with (k <? start)%nat by (f_equal; lia).
    destruct (start <=? k)%nat eqn:E1, (k <? start)%nat eqn:E2; try reflexivity.
    apply Nat.leb_le in E1. apply Nat.ltb_lt in E2. lia.
  - rewrite IH. cbn [fst snd].
    destruct (S start <=? k)%nat eqn:E1.
    + apply Nat.leb_le in E1.
      replace (start <=? k)%nat with true by (symmetry; apply Nat.leb_le; lia).
      replace (k <? start + S (List.length vals))%nat
        with (k <? S start + List.length vals)%nat by (f_equal; lia).
      cbn [andb]. destruct (k <? S start + List.length vals)%nat.
      * replace (k - start)%nat with (S (k - S start)) by lia. reflexivity.
      * apply (@dict_get_set_other _ _ Nat.eqb Nat.eqb_eq). lia.
    + apply Nat.leb_gt in E1. cbn [andb].
      destruct (start <=? k)%nat eqn:E2.
      * apply Nat.leb_le in E2. assert (k = start) by lia. subst k.
        replace (start <? start + S (List.length vals))%nat with true
          by (symmetry; apply Nat.ltb_lt; lia).
        rewrite Nat.sub_diag. cbn [andb nth_error].
        apply (@dict_get_set_same _ _ Nat.eqb Nat.eqb_eq).
      * apply Nat.leb_gt in E2. cbn [andb].
        apply (@dict_get_set_other _ _ Nat.eqb Nat.eqb_eq). lia.
Qed.

(** *** What a computation leaves as it is *)

(** The computation does not change the attribute [f]. *)
Definition preserves {A B : Type} (f : Family -> B) (m : M Family A) : Prop :=
  forall s, f (snd (m s)) = f s.

(** The computation removes no key of the dictionary [f]. *)
Definition keeps_keys {A K V : Type} (keq : K -> K -> bool)
    (f : Family -> dict K V) (m : M Family A) : Prop :=
  forall s k, dict_mem keq k (f s) = true -> dict_mem keq k (f (snd (m s))) = true.

Lemma preserves_mbind {A B C : Type} (f : Family -> C) (m : M Family A)
    (k : A -> M Family B) :
  preserves f m -> (forall a, preserves f (k a)) -> preserves f (mbind m k).
Proof.
  intros Hm Hk s. unfold mbind. specialize (Hm s).
  destruct (m s) as [[a|e] s1]; simpl in *.
  - rewrite (Hk a s1). assumption.
  - assumption.
Qed.

Lemma preserves_pure {A C : Type} (f : Family -> C) (m : M Family A) :
  (forall s, snd (m s) = s) -> preserves f m.
Proof. intros H s. rewrite H. reflexivity. Qed.

Lemma preserves_modify {C : Type} (f : Family -> C) (g : Family -> Family) :
  (forall s, f (g s) = f s) -> preserves f (modify g).
Proof. intros H s. apply H. Qed.

Lemma preserves_for_each {A C : Type} (f : Family -> C) (body : A -> M Family unit)
    (xs : list A) :
  (forall x, preserves f (body x)) -> preserves f (for_each body xs).
Proof.
  intros Hb. induction xs as [|x xs IH]; simpl.
  - apply preserves_pure. reflexivity.
  - apply preserves_mbind; [apply Hb|]. intros _. exact IH.
Qed.

Lemma preserves_keeps_keys {A K V : Type} (keq : K -> K -> bool)
    (f : Family -> dict K V) (m : M Family A) :
  preserves f m -> keeps_keys keq f m.
Proof. intros H s k Hk. rewrite H. assumption. Qed.

Lemma keeps_keys_mbind {A B K V : Type} (keq : K -> K -> bool)
    (f : Family -> dict K V) (m : M Family A) (k : A -> M Family B) :
  keeps_keys keq f m -> (forall a, keeps_keys keq f (k a)) ->
  keeps_keys keq f (mbind m k).
Proof.
  intros Hm Hk s key Hkey. unfold mbind. specialize (Hm s key Hkey).
  destruct (m s) as [[a|e] s1]; simpl in *.
  - apply Hk. assumption.
  - assumption.
Qed.

Lemma keeps_keys_for_each {A K V : Type} (keq : K -> K -> bool)
    (f : Family -> dict K V) (body : A -> M Family unit) (xs : list A) :
  (forall x, keeps_keys keq f (body x)) -> keeps_keys keq f (for_each body xs).
Proof.
  intros Hb. induction xs as [|x xs IH]; simpl.
  - apply preserves_keeps_keys, preserves_pure. reflexivity.
  - apply keeps_keys_mbind; [apply Hb|]. intros _. exact IH.
Qed.

Lemma keeps_keys_assign {K V : Type} (keq : K -> K -> bool)
    (keq_eq : forall a b, keq a b = true <-> a = b)
    (f : Family -> dict K V) (g : Family -> Family) (k : K) (v : V) :
  (forall s, f (g s) = dict_set keq k v (f s)) -> keeps_keys keq f (modify g).
Proof.
  intros H s key Hkey. simpl. rewrite H. apply (@dict_mem_set _ _ keq keq_eq). assumption.
Qed.

(** The two file names under [input] are one: the document names an input
    by [os.path.join("input/", name)], the registry by
    [os.path.join("input", name)]. *)
Lemma input_path_either_way (name : string) :
  os_path_join "input/" name = os_path_join "input" name.
Proof.
  unfold os_path_join. destruct (starts_with_sep name); reflexivity.
Qed.

(** Splitting at the first colon undoes the joining of a reference kind
    that holds no colon with a locator. *)
Lemma split_once_join (s kind rest locator : string) :
  split_once ":" s = (kind, Some rest) ->
  split_once ":" (kind ++ ":" ++ locator) = (kind, Some locator).
Proof.
  revert kind. induction s as [|c s IH]; intros kind H; simpl in H.
  - discriminate.
  - destruct (Ascii.eqb c ":") eqn:E.
    + inversion H; subst. reflexivity.
    + destruct (split_once ":" s) as [h t] eqn:Hs.
      inversion H; subst. specialize (IH h eq_refl).
      simpl in IH |- *. rewrite E, IH. reflexivity.
Qed.

(** The number of regions in the buckets of [_regions_by_meaning]. *)
Definition bucket_total (by_meaning : dict string (list region)) : nat :=
  List.length (List.concat (map snd by_meaning)).

Lemma bucket_total_new (k : string) (d : dict string (list region)) :
  dict_mem String.eqb k d = false ->
  bucket_total (dict_set String.eqb k [] d) = bucket_total d.
Proof.
  unfold bucket_total, dict_mem.
  induction d as [|[k' b] d IH]; simpl; [reflexivity|].
  destruct (String.eqb k k') eqn:E; simpl; [discriminate|].
  intros H. rewrite !length_app, (IH H). reflexivity.
Qed.

Lemma bucket_total_append (k : string) (b : list region) (x : region)
    (d : dict string (list region)) :
  dict_get String.eqb k d = Some b ->
  bucket_total (dict_set String.eqb k (b ++ [x])%list d) = S (bucket_total d).
Proof.
  unfold bucket_total.
  induction d as [|[k' b'] d IH]; simpl; [discriminate|].
  destruct (String.eqb k k') eqn:E; simpl; intros H.
  - inversion H; subst b'. rewrite !length_app. simpl. lia.
  - rewrite !length_app, (IH H). lia.
Qed.

(** *** [sorted] *)

(** The order of [sorted] on [str]: by code points. *)
Definition str_le (a b : string) : Prop := String.leb a b = true.

Lemma insert_sorted_Permutation (x : string) (xs : list string) :
  Permutation (insert_sorted x xs) (x :: xs).
Proof.
  induction xs as [|y ys IH]; simpl; [apply Permutation_refl|].
  destruct (String.leb x y); [apply Permutation_refl|].
  eapply perm_trans; [apply perm_skip, IH|apply perm_swap].
Qed.

Lemma sorted_Permutation (xs : list string) : Permutation (sorted xs) xs.
Proof.
  induction xs as [|x xs IH]; simpl; [constructor|].
  eapply perm_trans; [apply insert_sorted_Permutation|].
  apply perm_skip. assumption.
Qed.

Lemma insert_sorted_Sorted (x : string) (xs : list string) :
  Sorted str_le xs -> Sorted str_le (insert_sorted x xs).
Proof.
  induction xs as [|y ys IH]; simpl; intros H.
  - repeat constructor.
  - destruct (String.leb x y) eqn:E.
    + constructor; [assumption|]. constructor. exact E.
    + inversion H as [|? ? Hs Hd]; subst.
      constructor; [apply IH; assumption|].
      assert (Hyx : str_le y x).
      { destruct (String.leb_total x y) as [Hxy|Hyx]; [congruence|assumption]. }
      destruct ys as [|z zs]; simpl.
      * constructor. assumption.
      * destruct (String.leb x z); constructor; [assumption|].
        inversion Hd. assumption.
Qed.

Lemma sorted_Sorted (xs : list string) : Sorted str_le (sorted xs).
Proof.
  induction xs as [|x xs IH]; simpl; [constructor|].
  apply insert_sorted_Sorted. assumption.
Qed.

(** *** [in] on strings *)

Lemma prefix_append (a b : string) :
  String.prefix a b = true <-> exists post, b = a ++ post.
Proof.
  revert b. induction a as [|c a IH]; intros b.
  - split; [intros _; exists b; reflexivity|intros _; destruct b; reflexivity].
  - destruct b as [|d b]; simpl.
    { split; [discriminate|intros (post & H); discriminate]. }
    destruct (ascii_dec c d) as [->|Hne].
    + rewrite IH. split; intros (post & H); exists post.
      * rewrite H. reflexivity.
      * inversion H. reflexivity.
    + split; [discriminate|]. intros (post & H). inversion H. subst.
      exfalso. apply Hne. reflexivity.
Qed.

Lemma str_contains_eq (needle hay : string) :
  str_contains needle hay
  = if String.prefix needle hay then true
    else match hay with
         | EmptyString => false
         | String _ hay' => str_contains needle hay'
         end.
Proof. destruct hay; reflexivity. Qed.

(** [needle in hay] holds exactly when [hay] is some text, [needle] and
    some text, one after the other. *)
Lemma str_contains_substring (needle hay : string) :
  str_contains needle hay = true
  <-> exists pre post, hay = pre ++ needle ++ post.
Proof.
  induction hay as [|c hay IH]; rewrite str_contains_eq.
  - destruct (String.prefix needle EmptyString) eqn:E.
    + apply prefix_append in E. destruct E as (post & E).
      split; [|intros _; reflexivity]. intros _. exists EmptyString, post. exact E.
    + split; [discriminate|]. intros (pre & post & H).
      destruct pre; [|discriminate]. simpl in H.
      assert (E' : String.prefix needle EmptyString = true)
        by (apply prefix_append; exists post; exact H).
      congruence.
  - destruct (String.prefix needle (String c hay)) eqn:E.
    + apply prefix_append in E. destruct E as (post & E).
      split; [|intros _; reflexivity]. intros _. exists EmptyString, post. exact E.
    + rewrite IH. split.
      * intros (pre & post & H). exists (String c pre), post.
        rewrite H. reflexivity.
      * intros (pre & post & H). destruct pre as [|d pre].
        -- simpl in H.
           assert (E' : String.prefix needle (String c hay) = true)
             by (apply prefix_append; exists post; exact H).
           congruence.
        -- inversion H. exists pre, post. reflexivity.
Qed.
Section Properties.

Variable float_repr : Q -> string.
Variable str_repr : string -> string.
Variable json_dumps : pyval -> string.
Variable json_loads_groups : string -> result (list string).
Variable convert_parameter : pyval -> option string -> bool -> pyval.
Variable xml_parameters : Type.
Variable read_parameters : xml_parameters -> parameters.

Local Abbreviation py_str := (py_str float_repr str_repr).
Local Abbreviation get_parameter := (get_parameter convert_parameter).
Local Abbreviation get_needle_parameter := (get_needle_parameter convert_parameter).
Local Abbreviation centre_location := (centre_location convert_parameter).
Local Abbreviation centre_node := (centre_node float_repr str_repr).
Local Abbreviation needleaxis_nodes := (needleaxis_nodes float_repr str_repr convert_parameter).
Local Abbreviation simulationscaling_nodes :=
  (simulationscaling_nodes float_repr str_repr convert_parameter).
Local Abbreviation parameter_node := (parameter_node json_dumps convert_parameter).
Local Abbreviation inner_nodes := (inner_nodes convert_parameter).
Local Abbreviation extent_node := (extent_node float_repr str_repr convert_parameter).
Local Abbreviation lengthscales_node :=
  (lengthscales_node float_repr str_repr convert_parameter).
Local Abbreviation variant_node := (variant_node convert_parameter).
Local Abbreviation sections_before_algorithms :=
  (sections_before_algorithms float_repr str_repr json_dumps convert_parameter).
Local Abbreviation joined_differences := (joined_differences float_repr str_repr).
Local Abbreviation constant_node := (constant_node float_repr str_repr convert_parameter).
Local Abbreviation boundary_needle := (boundary_needle float_repr str_repr convert_parameter).
Local Abbreviation point_sources_needle :=
  (point_sources_needle float_repr str_repr convert_parameter).
Local Abbreviation place_needle := (place_needle float_repr str_repr convert_parameter).
Local Abbreviation place_needles := (place_needles float_repr str_repr convert_parameter).
Local Abbreviation lesion_node := (lesion_node float_repr str_repr convert_parameter).
Local Abbreviation to_xml_root :=
  (to_xml_root float_repr str_repr json_dumps convert_parameter).
Local Abbreviation to_xml := (to_xml float_repr str_repr json_dumps convert_parameter).
Local Abbreviation load_needle := (load_needle read_parameters).
Local Abbreviation load_needles := (load_needles read_parameters).
Local Abbreviation load_region := (load_region json_loads_groups).
Local Abbreviation load_definition :=
  (load_definition json_loads_groups read_parameters).
Local Abbreviation compile :=
  (compile float_repr str_repr json_dumps json_loads_groups convert_parameter
           read_parameters).

(** *** What the document holds for a needle *)

(** A placement of the needle library: what is written for a needle of
    class [boundary] or [solid-boundary] whose file is no mesh file. The
    [offset] is the centre less the tip on each axis, the [axis] the entry
    location less the tip. *)
Definition library_placement (self : Family) (centre : pyval)
    (entry : string * needle) (e : Element) : Prop :=
  exists tip_location entry_location tips centres entries offsets axes,
    get_needle_parameter self (inr (fst entry)) "NEEDLE_TIP_LOCATION" true
      = Ok tip_location /\
    get_needle_parameter self (inr (fst entry)) "NEEDLE_ENTRY_LOCATION" true
      = Ok entry_location /\
    py_iter tip_location = Ok tips /\
    py_iter centre = Ok centres /\
    py_iter entry_location = Ok entries /\
    per_axis_difference centres tips = Ok offsets /\
    per_axis_difference entries tips = Ok axes /\
    tag e = "needle" /\
    get "offset" e = Some (join " " (map py_str offsets)) /\
    get "axis" e = Some (join " " (map py_str axes)).

(** The parameters that [load_needle] stores are those read from the
    element. *)
Definition stores (ne : needle_element xml_parameters) (nd : needle) : Prop :=
  needle_parameters nd = read_parameters (needle_parameters_elem ne).

(** *** The shape of [to_xml_root] *)

Lemma to_xml_root_ok (self : Family) (root : Element) :
  to_xml_root self = Ok root ->
  exists fr algorithms b lesion,
    sections_before_algorithms self = Ok fr /\
    _algorithms self = Some algorithms /\
    forallb clean algorithms = true /\
    place_needles self fr
      (initial_placement fr (map algorithm_entry algorithms))
      (_needles self) = Ok b /\
    lesion_node self = Ok lesion /\
    root = assemble fr b lesion.
Proof.
  unfold to_xml_root. intros H.
  bind_inv H. bind_inv H. bind_inv H. bind_inv H. bind_inv H.
  inversion H; subst root; clear H.
  destruct (_algorithms self) as [algorithms|] eqn:Halg; [|discriminate].
  simpl in Hv0. inversion Hv0; subst v0; clear Hv0.
  apply mapM_algorithm_node_ok in Hv1. destruct Hv1 as [Hclean ->].
  exists v, algorithms, v2, v3. repeat split; assumption.
Qed.

Lemma inner_nodes_tag (self : Family) (inner : list Element) :
  inner_nodes self = Ok inner -> Forall (fun e => tag e = "inner") inner.
Proof.
  unfold inner_nodes. intros H.
  bind_inv H. bind_inv H. bind_inv H. bind_inv H. inversion H; subst inner.
  apply Forall_app. split.
  - destruct (is_None v); [inversion Hv0; constructor|].
    bind_inv Hv0. inversion Hv0. repeat constructor.
  - destruct (is_None v1); [inversion Hv2; constructor|].
    bind_inv Hv2. inversion Hv2. repeat constructor.
Qed.

Lemma extent_node_tag (self : Family) (extent : Element) :
  extent_node self = Ok extent -> tag extent = "extent".
Proof.
  unfold extent_node. intros H. bind_inv H. inversion H. reflexivity.
Qed.

Lemma lengthscales_node_tag (self : Family) (ls : Element) (nzf : pyval) :
  lengthscales_node self = Ok (ls, nzf) -> tag ls = "lengthscales".
Proof.
  unfold lengthscales_node. intros H.
  bind_inv H. bind_inv H. bind_inv H. bind_inv H. bind_inv H.
  inversion H. reflexivity.
Qed.

(** What [sections_before_algorithms] has read and built. *)
Lemma sections_before_algorithms_ok (self : Family) (fr : front) :
  sections_before_algorithms self = Ok fr ->
  exists regions inner extent ls,
    centre_location self = Ok (centre fr) /\
    _regions self = Some regions /\
    inner_nodes self = Ok inner /\
    extent_node self = Ok extent /\
    lengthscales_node self = Ok (ls, needlezonefield fr) /\
    region_nodes fr = map region_node regions /\
    mesher_nodes fr =
      (inner ++ [extent; node "centre" [] []]
             ++ flat_map mesher_region_nodes regions ++ [ls])%list /\
    tag (geometry fr) = "geometry" /\
    tag (constants fr) = "constants" /\
    tag (variant fr) = "variant".
Proof.
  unfold sections_before_algorithms. intros H.
  bind_inv H. bind_inv H. bind_inv H. bind_inv H. bind_inv H. bind_inv H.
  bind_inv H. bind_inv H. bind_inv H. bind_inv H. bind_inv H.
  destruct v9 as [ls nzf]. bind_inv H.
  inversion H; subst fr; clear H. simpl.
  destruct (_regions self) as [regions|] eqn:Hreg; [|discriminate].
  inversion Hv3; subst v3.
  exists regions, v7, v8, ls. repeat split; try assumption.
  unfold variant_node in Hv10.
  bind_inv Hv10. bind_inv Hv10. bind_inv Hv10. bind_inv Hv10.
  inversion Hv10. reflexivity.
Qed.

(** *** The loop over the needles *)

Lemma mapM_then_map {A B C : Type} (f : A -> result B) (g : B -> C) (xs : list A) :
  mapM (fun x => y <- f x ;; Ok (g y)) xs = (ys <- mapM f xs ;; Ok (map g ys)).
Proof.
  induction xs as [|x xs IH]; simpl; [reflexivity|].
  rewrite IH. destruct (f x); simpl; [|reflexivity].
  destruct (mapM f xs); reflexivity.
Qed.

Lemma mapM_swap_difference (xs ys : list pyval) :
  mapM (fun c => py_sub (snd c) (fst c)) (combine xs ys) = per_axis_difference ys xs.
Proof.
  unfold per_axis_difference. revert ys.
  induction xs as [|x xs IH]; intros [|y ys]; simpl; try reflexivity.
  rewrite IH. reflexivity.
Qed.

Lemma joined_differences_ok (f : pyval * pyval -> result pyval)
    (pairs : list (pyval * pyval)) (s : string) :
  joined_differences f pairs = Ok s ->
  exists ds, mapM f pairs = Ok ds /\ s = join " " (map py_str ds).
Proof.
  unfold joined_differences. rewrite mapM_then_map. intros H.
  bind_inv H. bind_inv Hv. inversion Hv; subst v; clear Hv.
  inversion H; subst s. exists v0. auto.
Qed.

Lemma point_sources_needle_ok (self : Family) (needle : needle) (b b' : placement) :
  point_sources_needle self needle b = Ok b' ->
  exists system extensions,
    reference_kind needle = "library" /\
    locator needle = Some system /\
    b' = {| l := l b;
            regions_children := regions_children b;
            needlelibrary_children := needlelibrary_children b;
            mesher_children := mesher_children b;
            elmer_children :=
              (elmer_children b
               ++ [node "pointsources" [("system", system)]
                        [node "extensions" [] extensions]])%list |}.
Proof.
  unfold point_sources_needle, reference_kind, locator. intros H.
  bind_inv H. bind_inv H. bind_inv H. inversion H; subst b'; clear H.
  destruct (String.eqb (fst (split_once ":" (needle_file needle))) "library") eqn:Hk;
    [|discriminate].
  apply String.eqb_eq in Hk.
  bind_inv Hv. inversion Hv; subst v; clear Hv.
  unfold location1 in Hv2.
  destruct (snd (split_once ":" (needle_file needle))) as [system|]; [|discriminate].
  inversion Hv2; subst v2.
  eexists system, _. repeat split; try assumption.
Qed.


Lemma get_set_same (k v : string) (a : dict string string) :
  dict_get String.eqb k (set k v a) = Some v.
Proof.
  unfold set. induction a as [|[k' v'] a IH]; simpl.
  - rewrite String.eqb_refl. reflexivity.
  - destruct (String.eqb k k') eqn:E; simpl; rewrite E; auto.
Qed.

Lemma get_set_other (k k' v : string) (a : dict string string) :
  k <> k' -> dict_get String.eqb k (set k' v a) = dict_get String.eqb k a.
Proof.
  unfold set. intros Hne. induction a as [|[k2 v2] a IH]; simpl.
  - destruct (String.eqb k k') eqn:E; [apply String.eqb_eq in E; contradiction|reflexivity].
  - destruct (String.eqb k' k2) eqn:E; simpl.
    + apply String.eqb_eq in E. subst k2.
      destruct (String.eqb k k') eqn:E2; [apply String.eqb_eq in E2; contradiction|reflexivity].
    + destruct (String.eqb k k2); auto.
Qed.

Lemma boundary_needle_ok (self : Family) (centre needlezonefield : pyval)
    (name_needle_regions : bool) (ix : string) (needle : needle) (b b' : placement) :
  boundary_needle self centre needlezonefield name_needle_regions ix needle b = Ok b' ->
  if is_mesh_file needle then
    exists region_node mesh_node,
      tag mesh_node = "needle" /\
      b' = {| l := l b;
              regions_children := (regions_children b ++ [region_node])%list;
              needlelibrary_children := needlelibrary_children b;
              mesher_children := (mesher_children b ++ [mesh_node])%list;
              elmer_children := elmer_children b |}
  else
    exists e,
      library_placement self centre (ix, needle) e /\
      b' = {| l := S (l b);
              regions_children := regions_children b;
              needlelibrary_children := (needlelibrary_children b ++ [e])%list;
              mesher_children := mesher_children b;
              elmer_children := elmer_children b |}.
Proof.
  unfold boundary_needle, is_mesh_file, reference_kind. intros H.
  destruct (str_in (fst (split_once ":" (needle_file needle))) ["surface"; "zone"]).
  - bind_inv H. bind_inv H. inversion H; subst b'; clear H.
    eexists _, _. split; [|reflexivity]. reflexivity.
  - bind_inv H. bind_inv H. bind_inv H. bind_inv H. bind_inv H. bind_inv H.
    bind_inv H. bind_inv H. inversion H; subst b'; clear H.
    apply joined_differences_ok in Hv4. destruct Hv4 as (offsets & Hoff & ->).
    apply joined_differences_ok in Hv6. destruct Hv6 as (axes & Hax & ->).
    rewrite mapM_swap_difference in Hoff.
    eexists. split; [|reflexivity].
    exists v0, v1, v2, v3, v5, offsets, axes.
    repeat split; try assumption.
    + unfold get. simpl attrib. rewrite get_set_other by discriminate.
      apply get_set_same.
    + unfold get. simpl attrib. apply get_set_same.
Qed.

Lemma point_sources_not_boundary (entry : string * needle) :
  is_point_sources entry = true -> is_boundary (snd entry) = false.
Proof.
  unfold is_point_sources, is_boundary. intros H.
  apply String.eqb_eq in H. rewrite H. reflexivity.
Qed.

Lemma place_needles_ok (self : Family) (fr : front) (needles : dict string needle) :
  forall b0 b,
    place_needles self fr b0 needles = Ok b ->
    exists rs ns ms ps,
      regions_children b = (regions_children b0 ++ rs)%list /\
      needlelibrary_children b = (needlelibrary_children b0 ++ ns)%list /\
      mesher_children b = (mesher_children b0 ++ ms)%list /\
      elmer_children b = (elmer_children b0 ++ ps)%list /\
      Forall (fun e => tag e = "needle") ms /\
      Forall2 (library_placement self (centre fr))
              (filter is_library_placement needles) ns /\
      Forall2 point_source_block (filter is_point_sources needles) ps.
Proof.
  unfold place_needles.
  induction needles as [|[ix needle] needles IH]; intros b0 b H; cbn [foldM] in H.
  - inversion H; subst b. simpl. exists [], [], [], [].
    rewrite !app_nil_r. repeat split; constructor.
  - bind_inv H. destruct (IH _ _ H) as (rs & ns & ms & ps & Hr & Hn & Hm & Hp & Ht & Hl & Hs).
    clear IH H. unfold place_needle in Hv.
    cbn [filter]. unfold is_library_placement at 1, is_point_sources at 1.
    cbn [snd]. fold (is_boundary needle) in Hv.
    destruct (is_boundary needle) eqn:Hb.
    + (* boundary or solid-boundary *)
      assert (Hps : String.eqb (needle_class needle) "point-sources" = false).
      { destruct (String.eqb (needle_class needle) "point-sources") eqn:E; [|reflexivity].
        apply (point_sources_not_boundary (ix, needle)) in E. simpl in E. congruence. }
      rewrite Hps. apply boundary_needle_ok in Hv.
      destruct (is_mesh_file needle); simpl.
      * destruct Hv as (rn & mn & Hmt & ->). simpl in *.
        exists (rn :: rs), ns, (mn :: ms), ps.
        rewrite Hr, Hm, <- !app_assoc. simpl. repeat split; auto.
      * destruct Hv as (e & He & ->). simpl in *.
        exists rs, (e :: ns), ms, ps.
        rewrite Hn, <- !app_assoc. simpl. repeat split; auto.
    + simpl. destruct (String.eqb (needle_class needle) "point-sources") eqn:Hps.
      * apply point_sources_needle_ok in Hv.
        destruct Hv as (system & extensions & Hk & Hloc & ->). simpl in *.
        exists rs, ns, ms, (node "pointsources" [("system", system)]
                                 [node "extensions" [] extensions] :: ps).
        rewrite Hp, <- !app_assoc. simpl. repeat split; auto.
        constructor; [|assumption]. exists system, extensions. auto.
      * inversion Hv; subst v. exists rs, ns, ms, ps. repeat split; auto.
Qed.

(** *** The sections of the assembled document *)

Lemma find_elmer (self : Family) (fr : front) (b : placement) (lesion : Element) :
  sections_before_algorithms self = Ok fr ->
  find "elmer" (assemble fr b lesion) = Some (node "elmer" [] (elmer_children b)).
Proof.
  intros H. apply sections_before_algorithms_ok in H.
  destruct H as (? & ? & ? & ? & _ & _ & _ & _ & _ & _ & _ & Hg & Hc & _).
  unfold find, assemble. simpl. rewrite Hg, Hc. reflexivity.
Qed.

Lemma find_mesher (self : Family) (fr : front) (b : placement) (lesion : Element) :
  sections_before_algorithms self = Ok fr ->
  find "mesher" (assemble fr b lesion)
  = Some (node "mesher" (mesher_attrib fr) (mesher_children b)).
Proof.
  intros H. apply sections_before_algorithms_ok in H.
  destruct H as (? & ? & ? & ? & _ & _ & _ & _ & _ & _ & _ & Hg & Hc & _).
  unfold find, assemble. simpl. rewrite Hg, Hc. reflexivity.
Qed.

Lemma find_needlelibrary (self : Family) (fr : front) (b : placement) (lesion : Element) :
  sections_before_algorithms self = Ok fr ->
  find "needlelibrary" (assemble fr b lesion)
  = Some (node "needlelibrary" (needlelibrary_attrib fr) (needlelibrary_children b)).
Proof.
  intros H. apply sections_before_algorithms_ok in H.
  destruct H as (? & ? & ? & ? & _ & _ & _ & _ & _ & _ & _ & Hg & Hc & _).
  unfold find, assemble. simpl. rewrite Hg, Hc. reflexivity.
Qed.

(** The [algorithms] node of a document holds the entry of every
    algorithm, in the order of the dictionary. *)
Lemma to_xml_root_algorithms (self : Family) (root : Element)
    (algorithms : dict string algorithm) :
  _algorithms self = Some algorithms ->
  to_xml_root self = Ok root ->
  forallb clean algorithms = true /\
  exists node_algorithms,
    algorithms_of root = Some node_algorithms /\
    children node_algorithms = map algorithm_entry algorithms.
Proof.
  intros Halg H. apply to_xml_root_ok in H.
  destruct H as (fr & algorithms' & b & lesion & Hfr & Halg' & Hclean & Hb & _ & ->).
  rewrite Halg in Halg'. inversion Halg'; subst algorithms'. split; [assumption|].
  apply place_needles_ok in Hb.
  destruct Hb as (rs & ns & ms & ps & _ & _ & _ & Hp & _ & _ & _).
  unfold algorithms_of. erewrite find_elmer by eassumption.
  apply sections_before_algorithms_ok in Hfr.
  destruct Hfr as (? & ? & ? & ? & _ & _ & _ & _ & _ & _ & _ & _ & _ & Hv).
  exists (node "algorithms" [] (map algorithm_entry algorithms)).
  split; [|reflexivity].
  unfold find. simpl children. rewrite Hp. simpl. rewrite Hv. reflexivity.
Qed.



(** C10. The denylist scan reads the content and the result name of an
    algorithm and never its arguments: an algorithm with clean content and
    result name passes the check whatever its arguments are named, and in
    every document its entry carries the arguments as declared, each of
    them, one of the denylist or not, as the name of an [argument] node. *)
Theorem arguments_are_not_scanned (self : Family)
    (algorithms : dict string algorithm) (name : string) (definition : algorithm) :
  _algorithms self = Some algorithms ->
  In (name, definition) algorithms ->
  clean (name, definition) = true ->
  algorithm_node (name, definition) = Ok (algorithm_entry (name, definition)) /\
  get "arguments" (algorithm_entry (name, definition))
    = Some (join "," (arguments definition)) /\
  (forall argument, In argument (arguments definition) ->
     exists node_arguments,
       find "arguments" (algorithm_entry (name, definition)) = Some node_arguments /\
       In (node "argument" [("name", argument)] []) (children node_arguments)) /\
  (forall root, to_xml_root self = Ok root ->
     exists node_algorithms,
       algorithms_of root = Some node_algorithms /\
       In (algorithm_entry (name, definition)) (children node_algorithms)).
Proof.
  intros Halg Hin Hclean. split; [|split; [|split]].
  - rewrite algorithm_node_spec, Hclean. reflexivity.
  - reflexivity.
  - intros argument Harg. eexists. split; [reflexivity|].
    simpl. apply in_map_iff. exists argument. split; [reflexivity|].
    apply In_sorted. assumption.
  - intros root H.
    destruct (to_xml_root_algorithms self Halg H) as (_ & na & Hna & Hch).
    exists na. split; [assumption|]. rewrite Hch. apply in_map. assumption.
Qed.

Lemma find_app_skip {A : Type} (f : A -> bool) (xs ys : list A) :
  Forall (fun x => f x = false) xs -> List.find f (xs ++ ys) = List.find f ys.
Proof.
  induction 1 as [|x xs Hx _ IH]; simpl; [reflexivity|].
  rewrite Hx. assumption.
Qed.

Lemma filter_app_none {A : Type} (f : A -> bool) (xs ys : list A) :
  Forall (fun x => f x = false) xs -> filter f (xs ++ ys) = filter f ys.
Proof.
  induction 1 as [|x xs Hx _ IH]; simpl; [reflexivity|].
  rewrite Hx. assumption.
Qed.

Lemma filter_all {A : Type} (f : A -> bool) (xs : list A) :
  Forall (fun x => f x = true) xs -> filter f xs = xs.
Proof.
  induction 1 as [|x xs Hx _ IH]; simpl; [reflexivity|].
  rewrite Hx, IH. reflexivity.
Qed.

Lemma filter_none {A : Type} (f : A -> bool) (xs : list A) :
  Forall (fun x => f x = false) xs -> filter f xs = [].
Proof.
  induction 1 as [|x xs Hx _ IH]; simpl; [reflexivity|].
  rewrite Hx. assumption.
Qed.



(** C2 (as amended). In a document, [needlelibrary] holds one placement
    for each needle of class [boundary] or [solid-boundary] whose file is
    no surface or zone mesh, in order; its [offset] is, axis by axis, the
    derived centre less the tip of the needle, and its [axis] the entry
    location less the tip. *)
Theorem library_placement_vectors (self : Family) (root : Element) :
  to_xml_root self = Ok root ->
  exists centre needlelibrary,
    centre_location self = Ok centre /\
    find "needlelibrary" root = Some needlelibrary /\
    Forall2 (library_placement self centre)
            (filter is_library_placement (_needles self))
            (children needlelibrary).
Proof.
  intros H. apply to_xml_root_ok in H.
  destruct H as (fr & algorithms & b & lesion & Hfr & Halg & Hclean & Hb & _ & ->).
  erewrite find_needlelibrary by eassumption.
  apply place_needles_ok in Hb.
  destruct Hb as (rs & ns & ms & ps & _ & Hn & _ & _ & _ & Hl & _).
  apply sections_before_algorithms_ok in Hfr.
  destruct Hfr as (? & ? & ? & ? & Hc & _).
  exists (centre fr). eexists. split; [assumption|]. split; [reflexivity|].
  simpl children. rewrite Hn. simpl. assumption.
Qed.

(** *** The mesher section *)

Lemma str_in_In (x : string) (xs : list string) :
  str_in x xs = true <-> In x xs.
Proof.
  unfold str_in. rewrite existsb_exists. split.
  - intros (y & Hy & E). apply String.eqb_eq in E. subst y. assumption.
  - intros H. exists x. split; [assumption|apply String.eqb_refl].
Qed.

Lemma mesher_region_nodes_entry (idx : string) (r : region) :
  mesher_entry idx r (mesher_region_nodes (idx, r)).
Proof.
  unfold mesher_region_nodes.
  destruct (String.eqb (region_format r) "zone") eqn:Hf.
  { apply String.eqb_eq in Hf. apply entry_zone. assumption. }
  apply String.eqb_neq in Hf.
  destruct (String.eqb (region_meaning r) "organ") eqn:Hm.
  { apply String.eqb_eq in Hm. apply entry_organ; assumption. }
  apply String.eqb_neq in Hm.
  destruct (str_in "vessels" (region_groups r)) eqn:Hv; simpl.
  { apply entry_vessel; try assumption. left. apply str_in_In. assumption. }
  destruct (str_in "bronchi" (region_groups r)) eqn:Hb.
  { apply entry_vessel; try assumption. right. apply str_in_In. assumption. }
  apply entry_none; try assumption.
  - rewrite <- str_in_In. congruence.
  - rewrite <- str_in_In. congruence.
Qed.

Lemma mesher_region_nodes_class (entry : string * region) :
  Forall (fun e => is_class_entry e = true) (mesher_region_nodes entry).
Proof.
  destruct entry as [idx r]. unfold mesher_region_nodes.
  destruct (String.eqb (region_format r) "zone"); [repeat constructor|].
  destruct (String.eqb (region_meaning r) "organ"); [repeat constructor|].
  destruct (_ || _)%bool; repeat constructor.
Qed.

Lemma flat_map_mesher_region_nodes_class (regions : dict string region) :
  Forall (fun e => is_class_entry e = true) (flat_map mesher_region_nodes regions).
Proof.
  induction regions as [|entry regions IH]; simpl; [constructor|].
  apply Forall_app. split; [apply mesher_region_nodes_class|assumption].
Qed.

(** The children of [mesher] in a document. *)
Lemma to_xml_root_mesher (self : Family) (root : Element) :
  to_xml_root self = Ok root ->
  exists fr regions inner extent ls ms,
    _regions self = Some regions /\
    lengthscales_node self = Ok (ls, needlezonefield fr) /\
    Forall (fun e => tag e = "inner") inner /\
    tag extent = "extent" /\
    Forall (fun e => tag e = "needle") ms /\
    find "mesher" root
    = Some (node "mesher" (mesher_attrib fr)
                 (inner ++ [extent; node "centre" [] []]
                        ++ flat_map mesher_region_nodes regions ++ [ls] ++ ms)%list).
Proof.
  intros H. apply to_xml_root_ok in H.
  destruct H as (fr & algorithms & b & lesion & Hfr & Halg & Hclean & Hb & _ & ->).
  erewrite find_mesher by eassumption.
  apply place_needles_ok in Hb.
  destruct Hb as (rs & ns & ms & ps & _ & _ & Hm & _ & Hms & _ & _).
  apply sections_before_algorithms_ok in Hfr.
  destruct Hfr as (regions & inner & extent & ls & _ & Hreg & Hin & Hex & Hls & _ & Hmn & _).
  exists fr, regions, inner, extent, ls, ms. repeat split; try assumption.
  - eapply inner_nodes_tag; eassumption.
  - eapply extent_node_tag; eassumption.
  - rewrite Hm. simpl mesher_children. rewrite Hmn.
    rewrite <- !app_assoc. reflexivity.
Qed.

(** C5. In every document, the entries of [mesher] that classify regions
    are, region by region in the order of [self._regions], those that
    [mesher_entry] names: [zone] for the format [zone], else [organ] for
    the meaning [organ], else [vessel] for the groups [vessels] or
    [bronchi], else none. *)
Theorem mesher_classification (self : Family) (root : Element) :
  to_xml_root self = Ok root ->
  exists regions mesher entries,
    _regions self = Some regions /\
    find "mesher" root = Some mesher /\
    Forall2 (fun entry es => mesher_entry (fst entry) (snd entry) es)
            regions entries /\
    filter is_class_entry (children mesher) = List.concat entries.
Proof.
  intros H. apply to_xml_root_mesher in H.
  destruct H as (fr & regions & inner & extent & ls & ms
                 & Hreg & Hls & Hin & Hex & Hms & Hfind).
  exists regions. eexists. exists (map mesher_region_nodes regions).
  split; [assumption|]. split; [eassumption|]. split.
  - clear. induction regions as [|[idx r] regions IH]; simpl; constructor.
    + apply mesher_region_nodes_entry.
    + assumption.
  - simpl children. rewrite <- flat_map_concat_map.
    rewrite filter_app_none.
    2:{ eapply Forall_impl; [|exact Hin]. intros e He. unfold is_class_entry.
        rewrite He. reflexivity. }
    cbn [app filter]. unfold is_class_entry at 1. rewrite Hex. cbn.
    rewrite filter_app. rewrite filter_all by apply flat_map_mesher_region_nodes_class.
    cbn [filter app]. unfold is_class_entry at 1.
    rewrite (lengthscales_node_tag _ Hls). cbn.
    rewrite (@filter_none _ is_class_entry ms).
    + apply app_nil_r.
    + eapply Forall_impl; [|exact Hms]. intros e He. unfold is_class_entry.
      rewrite He. reflexivity.
Qed.

Lemma class_entry_not_lengthscales (es : list Element) :
  Forall (fun e => is_class_entry e = true) es ->
  Forall (fun e => String.eqb (tag e) "lengthscales" = false) es.
Proof.
  intros H. eapply Forall_impl; [|exact H]. intros e He.
  unfold is_class_entry in He. apply str_in_In in He. simpl in He.
  destruct He as [<-|[<-|[<-|[]]]]; reflexivity.
Qed.

(** What [lengthscales_node] writes: a field whose parameter is true in
    Python's sense carries the text of the parameter, any other field the
    preset of the resolution. *)
Lemma lengthscales_node_fields (self : Family) (ls : Element) (nzf : pyval) :
  lengthscales_node self = Ok (ls, nzf) ->
  exists high near far zone,
    get_parameter self "RESOLUTION_HIGH" true None = Ok high /\
    get_parameter self "RESOLUTION_FIELD_NEAR" true None = Ok near /\
    get_parameter self "RESOLUTION_FIELD_FAR" true None = Ok far /\
    get_parameter self "RESOLUTION_FIELD_ZONE" true None = Ok zone /\
    get_parameter self "RESOLUTION_FIELD_NEEDLE_ZONE" true None = Ok nzf /\
    get "nearfield" ls
    = Some (if truthy near then py_str near
            else if truthy high then "1.0" else "2.0") /\
    get "farfield" ls
    = Some (if truthy far then py_str far
            else if truthy high then "2.0" else "5.0") /\
    get "zonefield" ls
    = Some (if truthy zone then py_str zone
            else if truthy high then "1.0" else "2.0") /\
    get "needlezonefield" ls
    = (if truthy nzf then Some (py_str nzf) else None).
Proof.
  unfold lengthscales_node. intros H.
  bind_inv H. bind_inv H. bind_inv H. bind_inv H. bind_inv H.
  inversion H; subst ls nzf; clear H.
  exists v, v0, v2, v3. repeat (split; [assumption|]).
  unfold get.
  destruct (truthy v), (truthy v0), (truthy v1), (truthy v2), (truthy v3);
    repeat split; reflexivity.
Qed.

(** C4 (as amended). In every document, the [lengthscales] node of
    [mesher] has, for each of the near, far and zone fields, the text of
    the field's parameter when that parameter is true in Python's sense
    (supplied, and not zero, empty or false), and otherwise the preset:
    1.0, 2.0, 1.0 when [RESOLUTION_HIGH] is true, 2.0, 5.0, 2.0 when it is
    not. The needle-zone field is written when its parameter is true, and
    never changes another field. *)
Theorem lengthscales_presets_and_overrides (self : Family) (root : Element) :
  to_xml_root self = Ok root ->
  exists mesher ls high near far zone needle_zone,
    find "mesher" root = Some mesher /\
    find "lengthscales" mesher = Some ls /\
    get_parameter self "RESOLUTION_HIGH" true None = Ok high /\
    get_parameter self "RESOLUTION_FIELD_NEAR" true None = Ok near /\
    get_parameter self "RESOLUTION_FIELD_FAR" true None = Ok far /\
    get_parameter self "RESOLUTION_FIELD_ZONE" true None = Ok zone /\
    get_parameter self "RESOLUTION_FIELD_NEEDLE_ZONE" true None = Ok needle_zone /\
    get "nearfield" ls
    = Some (if truthy near then py_str near
            else if truthy high then "1.0" else "2.0") /\
    get "farfield" ls
    = Some (if truthy far then py_str far
            else if truthy high then "2.0" else "5.0") /\
    get "zonefield" ls
    = Some (if truthy zone then py_str zone
            else if truthy high then "1.0" else "2.0") /\
    get "needlezonefield" ls
    = (if truthy needle_zone then Some (py_str needle_zone) else None).
Proof.
  intros H. apply to_xml_root_mesher in H.
  destruct H as (fr & regions & inner & extent & ls & ms
                 & Hreg & Hls & Hin & Hex & Hms & Hfind).
  destruct (lengthscales_node_fields _ Hls)
    as (high & near & far & zone & Hh & Hn & Hf & Hz & Hnz & Hfields).
  eexists. exists ls, high, near, far, zone, (needlezonefield fr).
  split; [eassumption|]. split.
  - unfold find. simpl children.
    rewrite find_app_skip.
    2:{ eapply Forall_impl; [|exact Hin]. intros e He. rewrite He. reflexivity. }
    cbn [app List.find]. rewrite Hex. cbn.
    rewrite find_app_skip
      by (apply class_entry_not_lengthscales, flat_map_mesher_region_nodes_class).
    cbn [app List.find]. rewrite (lengthscales_node_tag _ Hls). reflexivity.
  - repeat (split; [assumption|]). assumption.
Qed.

(** *** Loading: what does not depend on the registry of files *)

Lemma same_but_files_fields (s1 s2 : Family) :
  same_but_files s1 s2 ->
  _sif s1 = _sif s2 /\ _xml s1 = _xml s2 /\ _needles s1 = _needles s2 /\
  _needle_order s1 = _needle_order s2 /\ _regions s1 = _regions s2 /\
  _regions_by_meaning s1 = _regions_by_meaning s2 /\
  _parameters s1 = _parameters s2 /\ _algorithms s1 = _algorithms s2 /\
  _definition s1 = _definition s2.
Proof.
  unfold same_but_files, set_files_required. intros H.
  inversion H. repeat split; assumption.
Qed.

Lemma same_but_files_intro (s1 s2 : Family) :
  _sif s1 = _sif s2 -> _xml s1 = _xml s2 -> _needles s1 = _needles s2 ->
  _needle_order s1 = _needle_order s2 -> _regions s1 = _regions s2 ->
  _regions_by_meaning s1 = _regions_by_meaning s2 ->
  _parameters s1 = _parameters s2 -> _algorithms s1 = _algorithms s2 ->
  _definition s1 = _definition s2 ->
  same_but_files s1 s2.
Proof.
  unfold same_but_files, set_files_required. intros. congruence.
Qed.

Lemma blind_mret {A : Type} (a : A) : files_blind (mret a).
Proof. intros s1 s2 H. split; [reflexivity|exact H]. Qed.

Lemma blind_raise {A : Type} (e : exn) : files_blind (@raise Family A e).
Proof. intros s1 s2 H. split; [reflexivity|exact H]. Qed.

Lemma blind_lift {A : Type} (r : result A) : files_blind (@lift Family A r).
Proof. intros s1 s2 H. split; [reflexivity|exact H]. Qed.

Lemma blind_mbind {A B : Type} (m : M Family A) (k : A -> M Family B) :
  files_blind m -> (forall a, files_blind (k a)) -> files_blind (mbind m k).
Proof.
  intros Hm Hk s1 s2 H. unfold mbind.
  destruct (Hm s1 s2 H) as [Hr Hs].
  destruct (m s1) as [r1 t1], (m s2) as [r2 t2]. simpl in Hr, Hs. subst r2.
  destruct r1 as [a|e].
  - apply Hk. assumption.
  - split; [reflexivity|assumption].
Qed.

Lemma blind_gets {A : Type} (f : Family -> A) :
  (forall s1 s2, same_but_files s1 s2 -> f s1 = f s2) -> files_blind (gets f).
Proof.
  intros Hf s1 s2 H. unfold gets. simpl. split; [|exact H].
  rewrite (Hf s1 s2 H). reflexivity.
Qed.

Lemma blind_modify (g : Family -> Family) :
  (forall s1 s2, same_but_files s1 s2 -> same_but_files (g s1) (g s2)) ->
  files_blind (modify g).
Proof.
  intros Hg s1 s2 H. unfold modify. simpl. split; [reflexivity|]. apply Hg, H.
Qed.

(** Closes the side conditions of [blind_gets] and [blind_modify] for the
    accessors and setters of [Family]. *)
Ltac blind_fields :=
  let s1 := fresh "s1" in
  let s2 := fresh "s2" in
  let H := fresh "H" in
  intros s1 s2 H; apply same_but_files_fields in H;
  decompose [and] H; clear H;
  first [ assumption
        | apply same_but_files_intro; simpl; congruence ].

Lemma blind_load_needle (k : nat) (needle : needle_element xml_parameters) :
  files_blind (load_needle k needle).
Proof.
  unfold load_needle.
  apply blind_mbind.
  - destruct (str_in _ _); [|apply blind_mret].
    destruct (snd _); [|apply blind_raise].
    apply blind_mbind; [apply blind_modify; blind_fields|].
    intros _. apply blind_mret.
  - intros file. apply blind_mbind; [apply blind_modify; blind_fields|].
    intros _. apply blind_modify; blind_fields.
Qed.

Lemma blind_load_needles (needles : list (needle_element xml_parameters)) :
  forall k, files_blind (load_needles k needles).
Proof.
  induction needles as [|needle needles IH]; intros k; simpl.
  - apply blind_mret.
  - apply blind_mbind; [apply blind_load_needle|]. intros _. apply IH.
Qed.

Lemma blind_load_region (region : region_element) :
  files_blind (load_region region).
Proof.
  unfold load_region.
  apply blind_mbind.
  { apply blind_mbind; [apply blind_gets; blind_fields|].
    intros a. apply blind_lift. }
  intros by_meaning. apply blind_mbind.
  { destruct (dict_mem _ _ _); [apply blind_mret|apply blind_modify; blind_fields]. }
  intros _. apply blind_mbind.
  { destruct (region_input_attr region); [apply blind_mret|apply blind_raise]. }
  intros input. apply blind_mbind; [apply blind_lift|].
  intros groups. apply blind_mbind.
  { apply blind_mbind; [apply blind_gets; blind_fields|].
    intros a. apply blind_lift. }
  intros regions. apply blind_mbind; [apply blind_modify; blind_fields|].
  intros _. apply blind_mbind.
  { destruct (_ && _)%bool; [apply blind_modify; blind_fields|apply blind_mret]. }
  intros _. apply blind_mbind.
  { apply blind_mbind; [apply blind_gets; blind_fields|].
    intros a. apply blind_lift. }
  intros by_meaning'. apply blind_mbind; [apply blind_lift|].
  intros bucket. apply blind_modify; blind_fields.
Qed.

Lemma blind_for_each {A : Type} (body : A -> M Family unit) (xs : list A) :
  (forall x, files_blind (body x)) -> files_blind (for_each body xs).
Proof.
  intros Hb. induction xs as [|x xs IH]; simpl.
  - apply blind_mret.
  - apply blind_mbind; [apply Hb|]. intros _. exact IH.
Qed.

Lemma blind_load_definition (xml : description xml_parameters)
    (parameters : parameters) (algorithms : dict string algorithm) :
  files_blind (load_definition xml parameters algorithms).
Proof.
  unfold load_definition.
  repeat (apply blind_mbind; [apply blind_modify; blind_fields|]; intros _).
  apply blind_mbind.
  { destruct (needles_block xml); [apply blind_load_needles|apply blind_mret]. }
  intros _. apply blind_mbind.
  { destruct (regions_block xml);
      [apply blind_for_each, blind_load_region|apply blind_raise]. }
  intros _.
  repeat (apply blind_mbind; [apply blind_modify; blind_fields|]; intros _).
  apply blind_modify; blind_fields.
Qed.

Lemma to_xml_root_same_but_files (s1 s2 : Family) :
  same_but_files s1 s2 -> to_xml_root s1 = to_xml_root s2.
Proof.
  intros H. apply same_but_files_fields in H.
  destruct s1, s2. simpl in H. decompose [and] H; clear H. subst.
  reflexivity.
Qed.

(** C9. Loading a description into a new instance and compiling it gives
    a result that the description, the parameters and the algorithms
    determine: two instances, whatever registries of files they were made
    with, yield the same document, or the same exception. *)
Theorem compile_deterministic (files_required1 files_required2 : dict string string)
    (xml : description xml_parameters) (parameters : parameters)
    (algorithms : dict string algorithm) :
  compile files_required1 xml parameters algorithms
  = compile files_required2 xml parameters algorithms.
Proof.
  unfold compile.
  assert (H0 : same_but_files (__init__ files_required1) (__init__ files_required2))
    by reflexivity.
  destruct (blind_load_definition xml parameters algorithms H0) as [Hr Hs].
  destruct (load_definition xml parameters algorithms (__init__ files_required1))
    as [r1 s1].
  destruct (load_definition xml parameters algorithms (__init__ files_required2))
    as [r2 s2].
  simpl in Hr, Hs. subst r2. destruct r1 as [[]|e]; [|reflexivity].
  unfold to_xml. rewrite (to_xml_root_same_but_files Hs).
  destruct (to_xml_root s2); reflexivity.
Qed.

(** *** Loading: the needles *)

Lemma mbind_ok {S A B : Type} (m : M S A) (k : A -> M S B) (s s' : S) (b : B) :
  mbind m k s = (Ok b, s') ->
  exists a s1, m s = (Ok a, s1) /\ k a s1 = (Ok b, s').
Proof.
  unfold mbind. destruct (m s) as [[a|e] s1]; intros H.
  - exists a, s1. auto.
  - discriminate.
Qed.

(** Splits a hypothesis [(x <- m ;; k) s = (Ok b, s')] into the two steps. *)
Ltac mbind_inv H :=
  let a := fresh "a" in
  let s := fresh "s" in
  let Ha := fresh "Ha" in
  apply mbind_ok in H; destruct H as (a & s & Ha & H).

Lemma keeps_mbind {A B : Type} (m : M Family A) (k : A -> M Family B) :
  keeps_needles m -> (forall a, keeps_needles (k a)) -> keeps_needles (mbind m k).
Proof.
  intros Hm Hk s. unfold mbind. specialize (Hm s).
  destruct (m s) as [[a|e] s1]; simpl in *.
  - destruct (Hk a s1) as [H1 H2]. destruct Hm as [H3 H4]. split; congruence.
  - assumption.
Qed.

Lemma keeps_pure {A : Type} (m : M Family A) :
  (forall s, snd (m s) = s) -> keeps_needles m.
Proof. intros H s. rewrite H. auto. Qed.

Lemma keeps_modify (g : Family -> Family) :
  (forall s, _needles (g s) = _needles s) ->
  (forall s, _needle_order (g s) = _needle_order s) ->
  keeps_needles (modify g).
Proof. intros H1 H2 s. simpl. auto. Qed.

Lemma keeps_load_region (region : region_element) :
  keeps_needles (load_region region).
Proof.
  unfold load_region.
  repeat first
    [ apply keeps_mbind; [|intros ?]
    | apply keeps_modify; reflexivity
    | apply keeps_pure; reflexivity
    | match goal with
      | |- keeps_needles (if ?c then _ else _) => destruct c
      | |- keeps_needles (match ?c with Some _ => _ | None => _ end) => destruct c
      end ].
Qed.

Lemma keeps_for_each {A : Type} (body : A -> M Family unit) (xs : list A) :
  (forall x, keeps_needles (body x)) -> keeps_needles (for_each body xs).
Proof.
  intros Hb. induction xs as [|x xs IH]; simpl.
  - apply keeps_pure. reflexivity.
  - apply keeps_mbind; [apply Hb|]. intros _. exact IH.
Qed.

Lemma load_needle_ok (k : nat) (ne : needle_element xml_parameters) (s s' : Family) :
  load_needle k ne s = (Ok tt, s') ->
  exists nd,
    stores ne nd /\
    _needles s' = dict_set String.eqb (needle_index_attr ne) nd (_needles s) /\
    _needle_order s' = dict_set Nat.eqb k (needle_index_attr ne) (_needle_order s).
Proof.
  unfold load_needle. intros H. mbind_inv H. mbind_inv H.
  unfold modify in H, Ha0. inversion H; subst s'; clear H.
  inversion Ha0; subst s1; clear Ha0. simpl.
  assert (Hs : _needles s0 = _needles s /\ _needle_order s0 = _needle_order s).
  { destruct (str_in _ _).
    - destruct (snd _); [|discriminate].
      unfold mbind, modify, mret in Ha. inversion Ha; subst. split; reflexivity.
    - inversion Ha; subst. split; reflexivity. }
  destruct Hs as [-> ->].
  eexists. split; [|split; reflexivity]. reflexivity.
Qed.

Lemma load_needles_ok (nes : list (needle_element xml_parameters)) :
  forall k s s',
    load_needles k nes s = (Ok tt, s') ->
    exists stored,
      Forall2 stores nes stored /\
      _needles s'
      = fold_left (fun d e => dict_set String.eqb (fst e) (snd e) d)
                  (combine (map (@needle_index_attr _) nes) stored) (_needles s) /\
      _needle_order s'
      = fold_left (fun d e => dict_set Nat.eqb (fst e) (snd e) d)
                  (combine (seq k (List.length nes)) (map (@needle_index_attr _) nes))
                  (_needle_order s).
Proof.
  induction nes as [|ne nes IH]; intros k s s' H; simpl in H.
  - inversion H; subst s'. exists []. repeat split. constructor.
  - mbind_inv H. destruct a. apply load_needle_ok in Ha.
    destruct Ha as (nd & Hst & Hn & Ho).
    destruct (IH _ _ _ H) as (stored & Hsts & Hns & Hos).
    exists (nd :: stored). split; [constructor; assumption|].
    simpl. rewrite Hns, Hos, Hn, Ho. auto.
Qed.

(** The needles of an instance that was made by [__init__] and has loaded
    a description with distinct needle indices: [_needles] lists them under
    their indices in the order of the description, [_needle_order] numbers
    the indices from 0. *)
Lemma load_definition_needles (files_required : dict string string)
    (xml : description xml_parameters) (parameters : parameters)
    (algorithms : dict string algorithm)
    (nes : list (needle_element xml_parameters)) (self : Family) :
  load_definition xml parameters algorithms (__init__ files_required) = (Ok tt, self) ->
  needles_block xml = Some nes ->
  NoDup (map (@needle_index_attr _) nes) ->
  _parameters self = Some parameters /\
  exists stored,
    Forall2 stores nes stored /\
    _needles self = combine (map (@needle_index_attr _) nes) stored /\
    _needle_order self
    = combine (seq 0 (List.length nes)) (map (@needle_index_attr _) nes).
Proof.
  unfold load_definition. intros H Hnes Hnd. rewrite Hnes in H.
  unfold mbind at 1 2 3 4 in H. unfold modify at 1 2 3 4 in H.
  mbind_inv H. mbind_inv H.
  unfold mbind, modify in H. inversion H; subst self; clear H. simpl.
  split; [reflexivity|]. destruct a.
  apply load_needles_ok in Ha. destruct Ha as (stored & Hst & Hn & Ho).
  simpl in Hn, Ho.
  assert (Hkeep : _needles s0 = _needles s /\ _needle_order s0 = _needle_order s).
  { destruct (regions_block xml) as [regions|].
    - pose proof (@keeps_for_each _ load_region regions keeps_load_region s) as Hk.
      rewrite Ha0 in Hk. exact Hk.
    - inversion Ha0. }
  destruct Hkeep as [Hk1 Hk2]. rewrite Hk1, Hk2, Hn, Ho.
  assert (Hlen : List.length stored = List.length nes).
  { symmetry. eapply Forall2_length. eassumption. }
  exists stored. split; [assumption|]. split.
  - rewrite (@fold_dict_set_new _ _ String.eqb String.eqb_eq).
    + reflexivity.
    + rewrite combine_map_fst_dup; [assumption|].
      rewrite length_map. assumption.
    + intros k _ [].
  - rewrite (@fold_dict_set_new _ _ Nat.eqb Nat.eqb_eq).
    + reflexivity.
    + rewrite combine_map_fst_dup.
      * apply seq_NoDup.
      * rewrite length_seq, length_map. reflexivity.
    + intros k _ [].
Qed.

(** *** The centre of the needles *)



(** *** The centre without needles, and a region without input *)

(** Without needles, a policy that names the needles is left as the
    centre: the [centre] node is written from the characters of its
    name. *)
Lemma needle_policy_is_kept_without_needles (self : Family) (policy : string) :
  _needles self = [] ->
  policy = "first-needle" \/ policy = "centroid-of-tips" ->
  get_parameter self "CENTRE_LOCATION" true None = Ok (VStr policy) ->
  centre_location self = Ok (VStr policy).
Proof.
  intros Hn Hp Hc. unfold centre_location. rewrite Hc, Hn.
  destruct Hp as [-> | ->]; reflexivity.
Qed.

(** Without needles and without [CENTRE_LOCATION] no centre is written:
    iterating over [None] raises. *)
Lemma absent_policy_without_needles (self : Family) :
  _needles self = [] ->
  get_parameter self "CENTRE_LOCATION" true None = Ok VNone ->
  to_xml_root self = Err TypeError.
Proof.
  intros Hn Hc. unfold to_xml_root, sections_before_algorithms, centre_location.
  rewrite Hc, Hn. reflexivity.
Qed.

(** A region without the [input] attribute makes [load_region] raise, once
    [load_definition] has set [_regions_by_meaning]. *)
Lemma load_region_without_input (re : region_element) (self : Family)
    (by_meaning : dict string (list region)) :
  region_input_attr re = None ->
  _regions_by_meaning self = Some by_meaning ->
  fst (load_region re self) = Err TypeError.
Proof.
  intros Hi Hb. unfold load_region, mbind, gets, lift. rewrite Hb. simpl.
  destruct (dict_mem String.eqb (region_name_attr re) by_meaning);
    simpl; rewrite Hi; reflexivity.
Qed.

(** *** Loading: a region, and the two ways to name a needle *)

(** X1. A region with an [input] attribute and a well-formed group list
    is loaded: it is stored under its id with its format, its meaning, its
    groups and, as input, its id followed by the extension of the input
    file; and the input file is registered, under [input/] and that name,
    exactly when the format is [surface] or [zone] and the input is not
    empty. *)
Theorem load_region_with_input (re : region_element) (input : string)
    (groups : list string) (self : Family)
    (by_meaning : dict string (list region)) (regions : dict string region) :
  region_input_attr re = Some input ->
  json_loads_groups (region_groups_attr re) = Ok groups ->
  _regions_by_meaning self = Some by_meaning ->
  _regions self = Some regions ->
  fst (load_region re self) = Ok tt /\
  _regions (snd (load_region re self))
  = Some (dict_set String.eqb (region_id_attr re)
            {| region_format := region_format_attr re;
               region_meaning := region_name_attr re;
               region_input := region_id_attr re ++ splitext_ext input;
               region_groups := groups |}
            regions) /\
  _files_required (snd (load_region re self))
  = (if (str_in (region_format_attr re) ["surface"; "zone"]
         && negb (String.eqb input EMPTY))%bool
     then dict_set String.eqb
            (os_path_join "input" (region_id_attr re ++ splitext_ext input))
            input (_files_required self)
     else _files_required self).
Proof.
  intros Hi Hg Hb Hr.
  unfold load_region, mbind, gets, lift, modify, mret. rewrite Hb. simpl.
  destruct (dict_mem String.eqb (region_name_attr re) by_meaning) eqn:Hmem;
    simpl; rewrite Hi, Hg; simpl; rewrite Hr; simpl;
    match goal with
    | |- context [if ?c then _ else _] => destruct c
    end; simpl.
  - rewrite Hb. simpl. unfold dict_item. unfold dict_mem in Hmem.
    destruct (dict_get String.eqb (region_name_attr re) by_meaning);
      [simpl; auto|discriminate].
  - rewrite Hb. simpl. unfold dict_item. unfold dict_mem in Hmem.
    destruct (dict_get String.eqb (region_name_attr re) by_meaning);
      [simpl; auto|discriminate].
  - unfold dict_item.
    rewrite (@dict_get_set_same _ _ String.eqb String.eqb_eq). simpl. auto.
  - unfold dict_item.
    rewrite (@dict_get_set_same _ _ String.eqb String.eqb_eq). simpl. auto.
Qed.

(** X2. After a description with distinct needle indices is loaded into a
    new instance, a needle is found by its place in the description,
    counted from 0, as it is found by its declared index: both look-ups
    read the same parameter. *)
Theorem needle_by_ordinal_or_index (files_required : dict string string)
    (xml : description xml_parameters) (parameters : parameters)
    (algorithms : dict string algorithm)
    (needles : list (needle_element xml_parameters)) (self : Family)
    (i : nat) (ne : needle_element xml_parameters) (key : string)
    (try_json : bool) :
  load_definition xml parameters algorithms (__init__ files_required) = (Ok tt, self) ->
  needles_block xml = Some needles ->
  NoDup (map (@needle_index_attr _) needles) ->
  nth_error needles i = Some ne ->
  get_needle_parameter self (inl i) key try_json
  = get_needle_parameter self (inr (needle_index_attr ne)) key try_json /\
  get_needle_parameter self (inl i) key try_json
  = get_parameter self key try_json
      (Some (read_parameters (needle_parameters_elem ne))).
Proof.
  intros Hload Hnes Hnd Hi.
  destruct (@load_definition_needles _ _ _ _ _ _ Hload Hnes Hnd)
    as (_ & stored & Hst & Hn & Ho).
  destruct (Forall2_nth_error_l Hst _ Hi) as (nd & Hndi & Hs).
  assert (Hlt : (i < List.length needles)%nat) by (apply nth_error_Some; congruence).
  unfold get_needle_parameter. rewrite Ho.
  rewrite (@dict_get_nth _ _ Nat.eqb Nat.eqb_eq _ _ i i (needle_index_attr ne)).
  - split; [reflexivity|]. rewrite Hn. unfold dict_item.
    rewrite (@dict_get_nth _ _ String.eqb String.eqb_eq _ _ i
               (needle_index_attr ne) nd).
    + simpl. rewrite Hs. reflexivity.
    + assumption.
    + apply map_nth_error. assumption.
    + assumption.
  - apply seq_NoDup.
  - apply nth_error_seq_lt. assumption.
  - apply map_nth_error. assumption.
Qed.

(** *** The sections of a document, one by one *)

(** Everything that [sections_before_algorithms] reads and writes. *)
Lemma front_parts (self : Family) (fr : front) :
  sections_before_algorithms self = Ok fr ->
  exists cn axis scaling regions params solid zb inner extent ls,
    centre_location self = Ok (centre fr) /\
    centre_node (centre fr) = Ok cn /\
    needleaxis_nodes self = Ok axis /\
    simulationscaling_nodes self = Ok scaling /\
    _regions self = Some regions /\
    _parameters self = Some params /\
    get_parameter self "SETTING_SOLID_NEEDLES" true None = Ok solid /\
    get_parameter self "SETTING_ZONE_BOUNDARIES" true None = Ok zb /\
    inner_nodes self = Ok inner /\
    extent_node self = Ok extent /\
    lengthscales_node self = Ok (ls, needlezonefield fr) /\
    variant_node self = Ok (variant fr) /\
    geometry fr = node "geometry" [] ((cn :: axis) ++ scaling)%list /\
    region_nodes fr = map region_node regions /\
    constants fr = node "constants" [] (map parameter_node params) /\
    needlelibrary_attrib fr
    = (if is_None solid then []
       else [("zones", if is_True solid then "true" else "false")]) /\
    name_needle_regions fr = negb (is_None solid) /\
    mesher_attrib fr
    = (if (is_True solid || is_True zb)%bool
       then [("type", "CGAL"); ("zone_boundaries", "true")]
       else [("type", "CGAL")]) /\
    mesher_nodes fr
    = (inner ++ [extent; node "centre" [] []]
             ++ flat_map mesher_region_nodes regions ++ [ls])%list.
Proof.
  unfold sections_before_algorithms. intros H.
  bind_inv H. bind_inv H. bind_inv H. bind_inv H. bind_inv H. bind_inv H.
  bind_inv H. bind_inv H. bind_inv H. bind_inv H. bind_inv H.
  destruct v9 as [ls nzf]. bind_inv H.
  inversion H; subst fr; clear H. simpl.
  destruct (_regions self) as [regions|] eqn:Hreg; [|discriminate].
  inversion Hv3; subst v3.
  destruct (_parameters self) as [params|] eqn:Hpar; [|discriminate].
  inversion Hv4; subst v4.
  exists v0, v1, v2, regions, params, v5, v6, v7, v8, ls.
  repeat (split; [first [assumption | reflexivity]|]).
  reflexivity.
Qed.

Lemma lesion_node_tag (self : Family) (lesion : Element) :
  lesion_node self = Ok lesion -> tag lesion = "lesion".
Proof.
  unfold lesion_node. intros H.
  bind_inv H. bind_inv H. bind_inv H. bind_inv H. inversion H. reflexivity.
Qed.

(** X3. A document has the root [gosmart] with the name [elmer_libnuma]
    and the version [1.0.1], and under it the nine sections, each once
    and in this order: geometry, regions, constants, needlelibrary, mesher,
    optimizer, elmergrid, elmer, lesion. [to_xml] keeps the document it
    returns in [_xml] and changes nothing else; when it raises, it changes
    nothing. *)
Theorem document_skeleton (self : Family) :
  (forall root, to_xml_root self = Ok root ->
     tag root = "gosmart" /\
     attrib root = [("name", "elmer_libnuma"); ("version", "1.0.1")] /\
     text root = None /\
     map tag (children root)
     = ["geometry"; "regions"; "constants"; "needlelibrary"; "mesher";
        "optimizer"; "elmergrid"; "elmer"; "lesion"] /\
     to_xml self = (Ok root, set_xml (Some root) self)) /\
  (forall e, to_xml_root self = Err e -> to_xml self = (Err e, self)).
Proof.
  split.
  - intros root H. pose proof H as H0. apply to_xml_root_ok in H.
    destruct H as (fr & algorithms & b & lesion & Hfr & _ & _ & _ & Hl & ->).
    apply sections_before_algorithms_ok in Hfr.
    destruct Hfr as (? & ? & ? & ? & _ & _ & _ & _ & _ & _ & _ & Hg & Hc & _).
    repeat split.
    + simpl. rewrite Hg, Hc, (lesion_node_tag _ Hl). reflexivity.
    + unfold to_xml. rewrite H0. reflexivity.
  - intros e H. unfold to_xml. rewrite H. reflexivity.
Qed.

Lemma find_regions (self : Family) (fr : front) (b : placement) (lesion : Element) :
  sections_before_algorithms self = Ok fr ->
  find "regions" (assemble fr b lesion)
  = Some (node "regions" [] (regions_children b)).
Proof.
  intros H. apply sections_before_algorithms_ok in H.
  destruct H as (? & ? & ? & ? & _ & _ & _ & _ & _ & _ & _ & Hg & Hc & _).
  unfold find, assemble. simpl. rewrite Hg. reflexivity.
Qed.

Lemma find_geometry (self : Family) (fr : front) (b : placement) (lesion : Element) :
  sections_before_algorithms self = Ok fr ->
  find "geometry" (assemble fr b lesion) = Some (geometry fr).
Proof.
  intros H. apply sections_before_algorithms_ok in H.
  destruct H as (? & ? & ? & ? & _ & _ & _ & _ & _ & _ & _ & Hg & Hc & _).
  unfold find, assemble. simpl. rewrite Hg. reflexivity.
Qed.

Lemma find_constants (self : Family) (fr : front) (b : placement) (lesion : Element) :
  sections_before_algorithms self = Ok fr ->
  find "constants" (assemble fr b lesion) = Some (constants fr).
Proof.
  intros H. apply sections_before_algorithms_ok in H.
  destruct H as (? & ? & ? & ? & _ & _ & _ & _ & _ & _ & _ & Hg & Hc & _).
  unfold find, assemble. simpl. rewrite Hg, Hc. reflexivity.
Qed.

Lemma find_lesion (self : Family) (fr : front) (b : placement) (lesion : Element) :
  sections_before_algorithms self = Ok fr ->
  lesion_node self = Ok lesion ->
  find "lesion" (assemble fr b lesion) = Some lesion.
Proof.
  intros H Hl. apply sections_before_algorithms_ok in H.
  destruct H as (? & ? & ? & ? & _ & _ & _ & _ & _ & _ & _ & Hg & Hc & _).
  unfold find, assemble. simpl. rewrite Hg, Hc, (lesion_node_tag _ Hl). reflexivity.
Qed.

(** X4. The [constants] section of a document holds one [parameter] for
    each parameter, in the order of the dictionary: its name is the key,
    its value the JSON text of the converted parameter, and its type the
    type tag when the parameter has one. *)
Theorem constants_section (self : Family) (root : Element) :
  to_xml_root self = Ok root ->
  exists params node_constants,
    _parameters self = Some params /\
    find "constants" root = Some node_constants /\
    children node_constants
    = map (fun entry =>
             node "parameter"
                  (("name", fst entry)
                   :: ("value", json_dumps
                                  (convert_parameter (fst (snd entry))
                                                     (snd (snd entry)) true))
                   :: match snd (snd entry) with
                      | Some t => [("type", t)]
                      | None => []
                      end)
                  [])
          params.
Proof.
  intros H. apply to_xml_root_ok in H.
  destruct H as (fr & algorithms & b & lesion & Hfr & _ & _ & _ & _ & ->).
  erewrite find_constants by eassumption.
  apply front_parts in Hfr.
  destruct Hfr as (cn & axis & scaling & regions & params & solid & zb & inner
                   & extent & ls & _ & _ & _ & _ & _ & Hp & _ & _ & _ & _ & _ & _
                   & _ & _ & Hc & _).
  exists params. eexists. split; [assumption|]. split; [reflexivity|].
  rewrite Hc. simpl. apply map_ext. intros [key [parameter [t|]]]; reflexivity.
Qed.

(** X5. The [lesion] section of a document carries the lesion field, which
    is the string [SETTING_LESION_FIELD] (read without JSON decoding), and
    the upper and lower thresholds exactly when their parameters are not
    [None]. A lesion field that is absent or no string leaves no
    document. *)
Theorem lesion_section (self : Family) :
  (forall root, to_xml_root self = Ok root ->
     exists lesion field upper lower,
       find "lesion" root = Some lesion /\
       get_parameter self "SETTING_LESION_FIELD" false None = Ok (VStr field) /\
       get_parameter self "SETTING_LESION_THRESHOLD_UPPER" true None = Ok upper /\
       get_parameter self "SETTING_LESION_THRESHOLD_LOWER" true None = Ok lower /\
       get "field" lesion = Some field /\
       get "threshold_upper" lesion
       = (if is_None upper then None else Some (py_str upper)) /\
       get "threshold_lower" lesion
       = (if is_None lower then None else Some (py_str lower))) /\
  (forall v, get_parameter self "SETTING_LESION_FIELD" false None = Ok v ->
     (forall s, v <> VStr s) ->
     exists e, to_xml_root self = Err e).
Proof.
  assert (Hpos : forall root, to_xml_root self = Ok root ->
     exists lesion field upper lower,
       find "lesion" root = Some lesion /\
       get_parameter self "SETTING_LESION_FIELD" false None = Ok (VStr field) /\
       get_parameter self "SETTING_LESION_THRESHOLD_UPPER" true None = Ok upper /\
       get_parameter self "SETTING_LESION_THRESHOLD_LOWER" true None = Ok lower /\
       get "field" lesion = Some field /\
       get "threshold_upper" lesion
       = (if is_None upper then None else Some (py_str upper)) /\
       get "threshold_lower" lesion
       = (if is_None lower then None else Some (py_str lower))).
  { intros root H. apply to_xml_root_ok in H.
    destruct H as (fr & algorithms & b & lesion & Hfr & _ & _ & _ & Hl & ->).
    erewrite find_lesion by eassumption.
    unfold lesion_node in Hl.
    bind_inv Hl. bind_inv Hl. bind_inv Hl. bind_inv Hl.
    inversion Hl; subst lesion; clear Hl.
    destruct v as [| | | |field|]; try discriminate.
    inversion Hv0; subst v0.
    eexists. exists field, v1, v2.
    repeat (split; [first [reflexivity | assumption]|]).
    unfold get. destruct (is_None v1), (is_None v2); repeat split; reflexivity. }
  split; [exact Hpos|].
  intros v Hv Hns.
  destruct (to_xml_root self) as [root|e] eqn:H; [|exists e; reflexivity].
  destruct (Hpos root eq_refl) as (_ & field & _ & _ & _ & Hf & _).
  rewrite Hv in Hf. inversion Hf. exfalso. apply (Hns field). assumption.
Qed.

(** *** The loop over the needles, in full *)

(** How a placement of the needle library is named: a needle of the
    library carries the reference as its [id] and, when
    [SETTING_SOLID_NEEDLES] is given, its number as its [name]; a needle of
    another kind carries the reference as its [name] and no [id]. Its one
    child lists the parameters of the needle as constants. *)
Definition placement_name (named : bool) (numbered : nat * (string * needle))
    (e : Element) : Prop :=
  exists ref,
    locator (snd (snd numbered)) = Some ref /\
    (if String.eqb (reference_kind (snd (snd numbered))) "library"
     then get "id" e = Some ref /\
          get "name" e
          = (if named then Some (str_int (Z.of_nat (fst numbered))) else None)
     else get "name" e = Some ref /\ get "id" e = None) /\
    children e
    = [node "parameters" []
            (map (fun p =>
                    node "constant"
                         [("name", fst p);
                          ("value", py_str (convert_parameter (fst (snd p))
                                                              (snd (snd p)) true))]
                         [])
                 (needle_parameters (snd (snd numbered))))].

(** The extensions of a block of point sources: one for each item of
    [CONSTANT_NEEDLE_EXTENSIONS], numbered from 0. *)
Definition extension_block (self : Family) (e : Element) : Prop :=
  exists system extension_lengths lengths extensions,
    get_parameter self "CONSTANT_NEEDLE_EXTENSIONS" true None = Ok extension_lengths /\
    py_iter extension_lengths = Ok lengths /\
    e = node "pointsources" [("system", system)] [node "extensions" [] extensions] /\
    List.length extensions = List.length lengths /\
    forall k v, nth_error lengths k = Some v ->
      nth_error extensions k
      = Some (node "extension"
                   [("phase", str_int (Z.of_nat k)); ("length", py_str v)] []).

Lemma constant_node_fields (p : string * (pyval * option string)) :
  constant_node p
  = node "constant"
         [("name", fst p);
          ("value", py_str (convert_parameter (fst (snd p)) (snd (snd p)) true))]
         [].
Proof. destruct p as [key [parameter typ]]. reflexivity. Qed.

Lemma boundary_needle_mesh (self : Family) (centre needlezonefield : pyval)
    (named : bool) (ix : string) (needle : needle) (b b' : placement) :
  is_mesh_file needle = true ->
  boundary_needle self centre needlezonefield named ix needle b = Ok b' ->
  exists r m,
    needle_region (ix, needle) r /\
    needle_mesh_entry needlezonefield (ix, needle) m /\
    b' = {| l := l b;
            regions_children := (regions_children b ++ [r])%list;
            needlelibrary_children := needlelibrary_children b;
            mesher_children := (mesher_children b ++ [m])%list;
            elmer_children := elmer_children b |}.
Proof.
  unfold boundary_needle, is_mesh_file, needle_region, needle_mesh_entry,
    reference_kind, locator.
  intros Hm H. rewrite Hm in H. cbn [fst snd].
  bind_inv H. bind_inv H. inversion H; subst b'; clear H.
  unfold location1 in Hv.
  destruct (snd (split_once ":" (needle_file needle))) as [input|]; [|discriminate].
  inversion Hv; subst v; clear Hv.
  eexists _, _. split; [|split; [|reflexivity]].
  - exists input. split; reflexivity.
  - destruct (truthy needlezonefield
              && String.eqb (fst (split_once ":" (needle_file needle))) "zone")%bool.
    + bind_inv Hv0. inversion Hv0; subst v0.
      destruct needlezonefield; try discriminate.
      inversion Hv; subst v. exists s. split; reflexivity.
    + inversion Hv0. reflexivity.
Qed.

Lemma boundary_needle_library (self : Family) (centre needlezonefield : pyval)
    (named : bool) (ix : string) (needle : needle) (b b' : placement) :
  is_mesh_file needle = false ->
  boundary_needle self centre needlezonefield named ix needle b = Ok b' ->
  exists e,
    library_placement self centre (ix, needle) e /\
    placement_name named (S (l b), (ix, needle)) e /\
    b' = {| l := S (l b);
            regions_children := regions_children b;
            needlelibrary_children := (needlelibrary_children b ++ [e])%list;
            mesher_children := mesher_children b;
            elmer_children := elmer_children b |}.
Proof.
  intros Hm H. pose proof (boundary_needle_ok _ _ _ _ _ _ _ H) as Hok.
  rewrite Hm in Hok. destruct Hok as (e & He & Hb').
  exists e. split; [assumption|]. split; [|assumption].
  unfold boundary_needle in H. unfold is_mesh_file, reference_kind in Hm.
  rewrite Hm in H.
  bind_inv H. bind_inv H. bind_inv H. bind_inv H. bind_inv H. bind_inv H.
  bind_inv H. bind_inv H. rewrite Hb' in H.
  apply (f_equal (fun r => match r with
                           | Ok p => needlelibrary_children p
                           | Err _ => []
                           end)) in H.
  cbn [needlelibrary_children] in H. apply app_inv_head in H.
  inversion H; subst e; clear H.
  unfold placement_name, locator, reference_kind. cbn [fst snd].
  unfold location1 in Hv.
  destruct (snd (split_once ":" (needle_file needle))) as [ref|]; [|discriminate].
  inversion Hv; subst v; clear Hv.
  exists ref. split; [reflexivity|]. split.
  - unfold get. cbn [attrib].
    destruct (String.eqb (fst (split_once ":" (needle_file needle))) "library");
      destruct named; split;
      repeat first [ rewrite get_set_same | rewrite get_set_other by discriminate ];
      reflexivity.
  - rewrite (map_ext _ _ constant_node_fields). reflexivity.
Qed.

Lemma point_sources_needle_extensions (self : Family) (needle : needle)
    (b b' : placement) :
  point_sources_needle self needle b = Ok b' ->
  exists e,
    extension_block self e /\
    elmer_children b' = (elmer_children b ++ [e])%list.
Proof.
  unfold point_sources_needle. intros H.
  bind_inv H. bind_inv H. bind_inv H. inversion H; subst b'; clear H.
  destruct (String.eqb (fst (split_once ":" (needle_file needle))) "library");
    [|discriminate].
  bind_inv Hv. inversion Hv; subst v; clear Hv.
  eexists. split; [|reflexivity].
  exists v2, v0, v1. eexists.
  split; [assumption|]. split; [assumption|]. split; [reflexivity|]. split.
  - apply length_enumerate.
  - intros k v Hk.
    rewrite (nth_error_enumerate _ _ 0 _ Hk). reflexivity.
Qed.

(** What the loop over the needles appends to the four sections. *)
Lemma place_needles_full (self : Family) (fr : front) (needles : dict string needle) :
  forall b0 b,
    place_needles self fr b0 needles = Ok b ->
    exists rs ns ms ps,
      regions_children b = (regions_children b0 ++ rs)%list /\
      needlelibrary_children b = (needlelibrary_children b0 ++ ns)%list /\
      mesher_children b = (mesher_children b0 ++ ms)%list /\
      elmer_children b = (elmer_children b0 ++ ps)%list /\
      Forall2 needle_region (filter is_mesh_needle needles) rs /\
      Forall2 (needle_mesh_entry (needlezonefield fr))
              (filter is_mesh_needle needles) ms /\
      Forall2 (placement_name (name_needle_regions fr))
              (combine (seq (S (l b0))
                            (List.length (filter is_library_placement needles)))
                       (filter is_library_placement needles))
              ns /\
      Forall (extension_block self) ps.
Proof.
  unfold place_needles.
  induction needles as [|[ix needle] needles IH]; intros b0 b H; cbn [foldM] in H.
  - inversion H; subst b. simpl. exists [], [], [], [].
    rewrite !app_nil_r. repeat split; constructor.
  - bind_inv H.
    destruct (IH _ _ H) as (rs & ns & ms & ps & Hr & Hn & Hm & Hp & Hrs & Hms & Hns & Hps).
    clear IH H. unfold place_needle in Hv.
    cbn [filter]. fold (is_boundary needle) in Hv.
    assert (Hcases :
      is_mesh_needle (ix, needle) = (is_boundary needle && is_mesh_file needle)%bool /\
      is_library_placement (ix, needle)
      = (is_boundary needle && negb (is_mesh_file needle))%bool)
      by (split; reflexivity).
    destruct Hcases as (E1 & E2). rewrite E1, E2. clear E1 E2.
    destruct (is_boundary needle) eqn:Hb.
    + assert (Hpt : String.eqb (needle_class needle) "point-sources" = false).
      { destruct (String.eqb (needle_class needle) "point-sources") eqn:E; [|reflexivity].
        apply (point_sources_not_boundary (ix, needle)) in E. simpl in E. congruence. }
      clear Hpt. destruct (is_mesh_file needle) eqn:Hmf; cbn [andb negb].
      * apply boundary_needle_mesh in Hv; [|assumption].
        destruct Hv as (r & m & Hrn & Hmn & ->). cbn [l regions_children
          needlelibrary_children mesher_children elmer_children] in *.
        exists (r :: rs), ns, (m :: ms), ps.
        rewrite Hr, Hm, <- !app_assoc. cbn [app].
        repeat split; auto.
      * apply boundary_needle_library in Hv; [|assumption].
        destruct Hv as (e & _ & Hname & ->). cbn [l regions_children
          needlelibrary_children mesher_children elmer_children] in *.
        exists rs, (e :: ns), ms, ps.
        rewrite Hn, <- !app_assoc. cbn [app List.length seq combine].
        repeat split; auto.
    + cbn [andb]. destruct (String.eqb (needle_class needle) "point-sources") eqn:Hpt.
      * pose proof (point_sources_needle_extensions _ _ _ Hv) as (e & He & Hel).
        apply point_sources_needle_ok in Hv.
        destruct Hv as (system & extensions & _ & _ & Hv). subst v.
        cbn [l regions_children needlelibrary_children mesher_children
               elmer_children] in *.
        apply app_inv_head in Hel. inversion Hel as [Heq].
        exists rs, ns, ms,
          (node "pointsources" [("system", system)]
                [node "extensions" [] extensions] :: ps).
        rewrite Hp, <- !app_assoc. cbn [app].
        repeat split; auto. constructor; [|assumption]. rewrite Heq. assumption.
      * inversion Hv; subst v. exists rs, ns, ms, ps. repeat split; auto.
Qed.

(** A document, with what the loop over the needles has appended. *)
Lemma to_xml_root_full (self : Family) (root : Element) :
  to_xml_root self = Ok root ->
  exists fr algorithms b lesion rs ns ms ps,
    sections_before_algorithms self = Ok fr /\
    _algorithms self = Some algorithms /\
    lesion_node self = Ok lesion /\
    root = assemble fr b lesion /\
    regions_children b = (region_nodes fr ++ rs)%list /\
    needlelibrary_children b = ns /\
    mesher_children b = (mesher_nodes fr ++ ms)%list /\
    elmer_children b
    = ([variant fr; node "algorithms" [] (map algorithm_entry algorithms)]
         ++ ps)%list /\
    Forall2 needle_region (filter is_mesh_needle (_needles self)) rs /\
    Forall2 (needle_mesh_entry (needlezonefield fr))
            (filter is_mesh_needle (_needles self)) ms /\
    Forall2 (placement_name (name_needle_regions fr))
            (combine (seq 1 (List.length
                               (filter is_library_placement (_needles self))))
                     (filter is_library_placement (_needles self)))
            ns /\
    Forall (extension_block self) ps.
Proof.
  intros H. apply to_xml_root_ok in H.
  destruct H as (fr & algorithms & b & lesion & Hfr & Halg & _ & Hb & Hl & ->).
  apply place_needles_full in Hb.
  destruct Hb as (rs & ns & ms & ps & Hr & Hn & Hm & Hp & Hrs & Hms & Hns & Hps).
  exists fr, algorithms, b, lesion, rs, ns, ms, ps.
  repeat (split; [first [assumption | reflexivity]|]). assumption.
Qed.

(** X6. The [regions] section of a document holds one node for each
    region, in the order of [self._regions], tagged with the format of the
    region and carrying its id as name, its stored input under [input/]
    and its groups joined by [; ]; after these it holds one node for each
    needle of class [boundary] or [solid-boundary] that is given by a
    surface or zone mesh file, in the order of the needles, tagged with the
    reference kind and carrying the index of the needle as name, the
    locator under [input/] and the group [needles]. *)
Theorem regions_section (self : Family) (root : Element) :
  to_xml_root self = Ok root ->
  exists regions node_regions needle_regions,
    _regions self = Some regions /\
    find "regions" root = Some node_regions /\
    children node_regions
    = (map (fun entry =>
              node (region_format (snd entry))
                   [("name", fst entry);
                    ("input", os_path_join "input/" (region_input (snd entry)));
                    ("groups", join "; " (region_groups (snd entry)))]
                   [])
           regions
       ++ needle_regions)%list /\
    Forall2 needle_region (filter is_mesh_needle (_needles self)) needle_regions.
Proof.
  intros H. apply to_xml_root_full in H.
  destruct H as (fr & algorithms & b & lesion & rs & ns & ms & ps & Hfr & _ & _
                 & -> & Hr & _ & _ & _ & Hrs & _).
  erewrite find_regions by eassumption.
  apply front_parts in Hfr.
  destruct Hfr as (cn & axis & scaling & regions & params & solid & zb & inner
                   & extent & ls & _ & _ & _ & _ & Hreg & _ & _ & _ & _ & _ & _ & _
                   & _ & Hrn & _).
  exists regions. eexists. exists rs.
  split; [assumption|]. split; [reflexivity|]. split; [|assumption].
  simpl children. rewrite Hr, Hrn. f_equal.
  apply map_ext. intros [name r]. reflexivity.
Qed.

(** The children of [mesher] that the sections before the needles write
    are no [needle] entries. *)
Lemma mesher_nodes_no_needle (self : Family) (fr : front) :
  sections_before_algorithms self = Ok fr ->
  Forall (fun e => String.eqb (tag e) "needle" = false) (mesher_nodes fr).
Proof.
  intros Hfr. apply sections_before_algorithms_ok in Hfr.
  destruct Hfr as (regions & inner & extent & ls & _ & _ & Hin & Hex & Hls & _
                   & -> & _).
  apply Forall_app. split.
  { eapply Forall_impl; [|eapply inner_nodes_tag; eassumption].
    intros e He. rewrite He. reflexivity. }
  constructor; [rewrite (extent_node_tag _ Hex); reflexivity|].
  constructor; [reflexivity|].
  apply Forall_app. split.
  { eapply Forall_impl; [|apply flat_map_mesher_region_nodes_class].
    intros e He. unfold is_class_entry in He. apply str_in_In in He. simpl in He.
    destruct He as [<-|[<-|[<-|[]]]]; reflexivity. }
  constructor; [|constructor].
  rewrite (lengthscales_node_tag _ Hls). reflexivity.
Qed.

Lemma needle_mesh_entry_tag (needlezonefield : pyval) (entry : string * needle)
    (e : Element) :
  needle_mesh_entry needlezonefield entry e -> String.eqb (tag e) "needle" = true.
Proof.
  unfold needle_mesh_entry.
  destruct (truthy needlezonefield && _)%bool.
  - intros (length & _ & ->). reflexivity.
  - intros ->. reflexivity.
Qed.

(** X7. The [needle] entries of the [mesher] section of a document are,
    in the order of the needles, one for each needle of class [boundary] or
    [solid-boundary] that is given by a surface or zone mesh file. The
    entry names the index of the needle as its region; it carries
    [RESOLUTION_FIELD_NEEDLE_ZONE], which is then a string, as its
    characteristic length exactly when that parameter is true as a
    condition and the needle is given by a zone. *)
Theorem mesher_needle_entries (self : Family) (root : Element) :
  to_xml_root self = Ok root ->
  exists mesher needlezonefield,
    find "mesher" root = Some mesher /\
    get_parameter self "RESOLUTION_FIELD_NEEDLE_ZONE" true None
    = Ok needlezonefield /\
    Forall2 (needle_mesh_entry needlezonefield)
            (filter is_mesh_needle (_needles self))
            (filter (fun e => String.eqb (tag e) "needle") (children mesher)).
Proof.
  intros H. apply to_xml_root_full in H.
  destruct H as (fr & algorithms & b & lesion & rs & ns & ms & ps & Hfr & _ & _
                 & -> & _ & _ & Hm & _ & _ & Hms & _).
  erewrite find_mesher by eassumption.
  pose proof (mesher_nodes_no_needle _ Hfr) as Hno.
  apply sections_before_algorithms_ok in Hfr.
  destruct Hfr as (regions & inner & extent & ls & _ & _ & _ & _ & Hls & _).
  destruct (lengthscales_node_fields _ Hls)
    as (high & near & far & zone & _ & _ & _ & _ & Hnz & _).
  eexists. exists (needlezonefield fr).
  split; [reflexivity|]. split; [assumption|].
  simpl children. rewrite Hm, filter_app.
  rewrite (@filter_none _ (fun e => String.eqb (tag e) "needle") (mesher_nodes fr))
    by assumption.
  rewrite (@filter_all _ (fun e => String.eqb (tag e) "needle") ms); [assumption|].
  clear - Hms. induction Hms; constructor; [|assumption].
  eapply needle_mesh_entry_tag. eassumption.
Qed.

Lemma inner_nodes_parts (self : Family) (inner : list Element) :
  inner_nodes self = Ok inner ->
  exists template coarse,
    get_parameter self "SETTING_AXISYMMETRIC_INNER" true None = Ok template /\
    get_parameter self "SETTING_AXISYMMETRIC_INNER_COARSE" true None = Ok coarse /\
    (is_None template = true \/ exists t, template = VStr t) /\
    (is_None coarse = true \/ exists t, coarse = VStr t) /\
    inner
    = ((if is_None template then []
        else [node "inner" [("type", "axisymmetric");
                            ("template", py_str template)] []])
       ++ (if is_None coarse then []
           else [node "inner" [("type", "axisymmetric"); ("name", "coarse");
                               ("template", py_str coarse)] []]))%list.
Proof.
  unfold inner_nodes. intros H.
  bind_inv H. bind_inv H. bind_inv H. bind_inv H. inversion H; subst inner; clear H.
  exists v, v1. split; [assumption|]. split; [assumption|].
  assert (H1 : (is_None v = true \/ exists t, v = VStr t) /\
               v0 = (if is_None v then []
                     else [node "inner" [("type", "axisymmetric");
                                         ("template", py_str v)] []])).
  { destruct v; simpl in Hv0 |- *; try discriminate; inversion Hv0; subst v0;
      (split; [first [left; reflexivity | right; eexists; reflexivity]
              | reflexivity]). }
  assert (H2 : (is_None v1 = true \/ exists t, v1 = VStr t) /\
               v2 = (if is_None v1 then []
                     else [node "inner" [("type", "axisymmetric"); ("name", "coarse");
                                         ("template", py_str v1)] []])).
  { destruct v1; simpl in Hv2 |- *; try discriminate; inversion Hv2; subst v2;
      (split; [first [left; reflexivity | right; eexists; reflexivity]
              | reflexivity]). }
  destruct H1 as [H1 ->], H2 as [H2 ->]. repeat split; assumption.
Qed.

(** X8. The settings of the [mesher] section of a document: its type is
    [CGAL]; it has [zone_boundaries] set to [true] exactly when
    [SETTING_SOLID_NEEDLES] or [SETTING_ZONE_BOUNDARIES] is the value
    [True]; its [extent] has the radius [50] when
    [SIMULATION_DOMAIN_RADIUS] is absent, and the text of the parameter
    otherwise; its [inner] nodes are an axisymmetric one with the template
    [SETTING_AXISYMMETRIC_INNER], when given, and then one named [coarse]
    with the template [SETTING_AXISYMMETRIC_INNER_COARSE], when given; a
    template that is given is a string. *)
Theorem mesher_settings (self : Family) (root : Element) :
  to_xml_root self = Ok root ->
  exists mesher solid zone_boundaries radius template coarse,
    find "mesher" root = Some mesher /\
    get_parameter self "SETTING_SOLID_NEEDLES" true None = Ok solid /\
    get_parameter self "SETTING_ZONE_BOUNDARIES" true None = Ok zone_boundaries /\
    get_parameter self "SIMULATION_DOMAIN_RADIUS" true None = Ok radius /\
    get_parameter self "SETTING_AXISYMMETRIC_INNER" true None = Ok template /\
    get_parameter self "SETTING_AXISYMMETRIC_INNER_COARSE" true None = Ok coarse /\
    get "type" mesher = Some "CGAL" /\
    get "zone_boundaries" mesher
    = (if (is_True solid || is_True zone_boundaries)%bool
       then Some "true" else None) /\
    find "extent" mesher
    = Some (node "extent"
                 [("radius", if is_None radius then "50" else py_str radius)] []) /\
    find "centre" mesher = Some (node "centre" [] []) /\
    (is_None template = true \/ exists t, template = VStr t) /\
    (is_None coarse = true \/ exists t, coarse = VStr t) /\
    filter (fun e => String.eqb (tag e) "inner") (children mesher)
    = ((if is_None template then []
        else [node "inner" [("type", "axisymmetric");
                            ("template", py_str template)] []])
       ++ (if is_None coarse then []
           else [node "inner" [("type", "axisymmetric"); ("name", "coarse");
                               ("template", py_str coarse)] []]))%list.
Proof.
  intros H. apply to_xml_root_full in H.
  destruct H as (fr & algorithms & b & lesion & rs & ns & ms & ps & Hfr & _ & _
                 & -> & _ & _ & Hm & _ & _ & Hms & _).
  erewrite find_mesher by eassumption.
  apply front_parts in Hfr.
  destruct Hfr as (cn & axis & scaling & regions & params & solid & zb & inner
                   & extent & ls & _ & _ & _ & _ & _ & _ & Hsolid & Hzb & Hin & Hex
                   & Hls & _ & _ & _ & _ & _ & _ & Hma & Hmn).
  pose proof (inner_nodes_tag _ Hin) as Hintag.
  destruct (inner_nodes_parts _ Hin) as (template & coarse & Ht & Hc & Hts & Hcs & Hinner).
  assert (Hext : exists radius,
             get_parameter self "SIMULATION_DOMAIN_RADIUS" true None = Ok radius /\
             extent = node "extent"
                        [("radius", if is_None radius then "50" else py_str radius)] []).
  { unfold extent_node in Hex. bind_inv Hex. inversion Hex.
    exists v. split; [assumption|reflexivity]. }
  destruct Hext as (radius & Hrad & Hextent).
  eexists. exists solid, zb, radius, template, coarse.
  split; [reflexivity|].
  repeat (split; [assumption|]).
  unfold get, find. simpl attrib. simpl children. rewrite Hma, Hm, Hmn.
  split; [destruct (is_True solid || is_True zb)%bool; reflexivity|].
  split; [destruct (is_True solid || is_True zb)%bool; reflexivity|].
  rewrite <- !app_assoc.
  split.
  { rewrite find_app_skip
      by (eapply Forall_impl; [|exact Hintag]; intros e He; rewrite He; reflexivity).
    rewrite Hextent. reflexivity. }
  split.
  { rewrite find_app_skip
      by (eapply Forall_impl; [|exact Hintag]; intros e He; rewrite He; reflexivity).
    rewrite Hextent. reflexivity. }
  split; [assumption|]. split; [assumption|].
  rewrite filter_app.
  rewrite (@filter_all _ (fun e => String.eqb (tag e) "inner") inner)
    by (eapply Forall_impl; [|exact Hintag]; intros e He; rewrite He; reflexivity).
  rewrite filter_none; [rewrite app_nil_r; assumption|].
  rewrite Hextent. constructor; [reflexivity|]. constructor; [reflexivity|].
  apply Forall_app. split.
  { eapply Forall_impl; [|apply flat_map_mesher_region_nodes_class].
    intros e He. unfold is_class_entry in He. apply str_in_In in He. simpl in He.
    destruct He as [<-|[<-|[<-|[]]]]; reflexivity. }
  constructor.
  { rewrite (lengthscales_node_tag _ Hls). reflexivity. }
  clear - Hms. induction Hms; constructor; [|assumption].
  apply needle_mesh_entry_tag in H.
  destruct (tag y =? "inner") eqn:E; [|reflexivity].
  apply String.eqb_eq in E. rewrite E in H. discriminate.
Qed.

(** X9. The [needlelibrary] section of a document has the attribute
    [zones] exactly when [SETTING_SOLID_NEEDLES] is given, with the value
    [true] for the value [True] and [false] for any other. Its placements
    are numbered from 1 in the order of the needles: a needle of the
    library carries its reference as [id] and, when
    [SETTING_SOLID_NEEDLES] is given, its number as [name]; a needle of
    another reference kind carries its reference as [name], whatever its
    number, and no [id]. Each placement lists the parameters of its needle
    as constants, by name and converted value. *)
Theorem needle_library_naming (self : Family) (root : Element) :
  to_xml_root self = Ok root ->
  exists needlelibrary solid,
    find "needlelibrary" root = Some needlelibrary /\
    get_parameter self "SETTING_SOLID_NEEDLES" true None = Ok solid /\
    get "zones" needlelibrary
    = (if is_None solid then None
       else Some (if is_True solid then "true" else "false")) /\
    Forall2 (placement_name (negb (is_None solid)))
            (combine (seq 1 (List.length
                               (filter is_library_placement (_needles self))))
                     (filter is_library_placement (_needles self)))
            (children needlelibrary).
Proof.
  intros H. apply to_xml_root_full in H.
  destruct H as (fr & algorithms & b & lesion & rs & ns & ms & ps & Hfr & _ & _
                 & -> & _ & Hn & _ & _ & _ & _ & Hns & _).
  erewrite find_needlelibrary by eassumption.
  apply front_parts in Hfr.
  destruct Hfr as (cn & axis & scaling & regions & params & solid & zb & inner
                   & extent & ls & _ & _ & _ & _ & _ & _ & Hsolid & _ & _ & _
                   & _ & _ & _ & _ & _ & Hna & Hnamed & _).
  eexists. exists solid. split; [reflexivity|]. split; [assumption|].
  unfold get. simpl attrib. simpl children. rewrite Hna, Hn. split.
  - destruct (is_None solid); reflexivity.
  - rewrite <- Hnamed. assumption.
Qed.

(** X10. Every block of point sources in the [elmer] section of a
    document has one child, [extensions], with one [extension] for each
    item of [CONSTANT_NEEDLE_EXTENSIONS], in order: the phase of the
    extension is the place of the item, counted from 0, and its length the
    text of the item. *)
Theorem point_source_extensions (self : Family) (root : Element) :
  to_xml_root self = Ok root ->
  exists elmer,
    find "elmer" root = Some elmer /\
    Forall (extension_block self)
           (filter is_pointsources_block (children elmer)).
Proof.
  intros H. apply to_xml_root_full in H.
  destruct H as (fr & algorithms & b & lesion & rs & ns & ms & ps & Hfr & _ & _
                 & -> & _ & _ & _ & Hp & _ & _ & _ & Hps).
  erewrite find_elmer by eassumption.
  eexists. split; [reflexivity|].
  simpl children. rewrite Hp. cbn [app filter].
  apply sections_before_algorithms_ok in Hfr.
  destruct Hfr as (? & ? & ? & ? & _ & _ & _ & _ & _ & _ & _ & _ & _ & Hv).
  unfold is_pointsources_block at 1. rewrite Hv. cbn.
  rewrite filter_all; [assumption|].
  eapply Forall_impl; [|exact Hps].
  intros e (system & lengths0 & lengths & extensions & _ & _ & -> & _). reflexivity.
Qed.

(** X11. The [elmer] section of a document starts with the [variant]
    node and the [algorithms] node. The text of [variant] is the text of
    the definition followed by a line with [$SOURCES]; it names the modules
    of [ELMER_NUMA_MODULES], a list of strings, joined by [; ], when that
    parameter is true as a condition, and has no such attribute otherwise.
    A definition without text leaves no document. *)
Theorem variant_section (self : Family) :
  (forall root, to_xml_root self = Ok root ->
     exists elmer variant algorithms definition modules others,
       find "elmer" root = Some elmer /\
       children elmer = (variant :: algorithms :: others)%list /\
       tag variant = "variant" /\
       tag algorithms = "algorithms" /\
       _definition self = Some (Some definition) /\
       text variant = Some (definition ++ NL ++ "$SOURCES" ++ NL) /\
       get_parameter self "ELMER_NUMA_MODULES" true None = Ok modules /\
       if truthy modules
       then exists names,
              py_iter modules = Ok (map VStr names) /\
              get "modules" variant = Some (join "; " names)
       else get "modules" variant = None) /\
  (_definition self = Some None -> exists e, to_xml_root self = Err e).
Proof.
  assert (Hpos : forall root, to_xml_root self = Ok root ->
     exists elmer variant algorithms definition modules others,
       find "elmer" root = Some elmer /\
       children elmer = (variant :: algorithms :: others)%list /\
       tag variant = "variant" /\
       tag algorithms = "algorithms" /\
       _definition self = Some (Some definition) /\
       text variant = Some (definition ++ NL ++ "$SOURCES" ++ NL) /\
       get_parameter self "ELMER_NUMA_MODULES" true None = Ok modules /\
       if truthy modules
       then exists names,
              py_iter modules = Ok (map VStr names) /\
              get "modules" variant = Some (join "; " names)
       else get "modules" variant = None).
  { intros root H. apply to_xml_root_full in H.
    destruct H as (fr & algorithms & b & lesion & rs & ns & ms & ps & Hfr & _ & _
                   & -> & _ & _ & _ & Hp & _).
    erewrite find_elmer by eassumption.
    apply front_parts in Hfr.
    destruct Hfr as (cn & axis & scaling & regions & params & solid & zb & inner
                     & extent & ls & _ & _ & _ & _ & _ & _ & _ & _ & _ & _
                     & _ & Hvar & _).
    unfold variant_node in Hvar.
    bind_inv Hvar. bind_inv Hvar. bind_inv Hvar. bind_inv Hvar.
    destruct (_definition self) as [d|]; [|discriminate].
    inversion Hv; subst v; clear Hv.
    destruct d as [definition|]; [|discriminate].
    inversion Hv0; subst v0; clear Hv0.
    eexists. exists (variant fr). eexists. exists definition, v1, ps.
    split; [reflexivity|]. split; [simpl children; rewrite Hp; reflexivity|].
    inversion Hvar as [Hvariant]. cbn [tag text].
    split; [reflexivity|]. split; [reflexivity|]. split; [reflexivity|].
    split; [reflexivity|]. split; [assumption|].
    unfold get. cbn [attrib].
    destruct (truthy v1).
    - bind_inv Hv2. bind_inv Hv2. inversion Hv2; subst v2.
      apply mapM_as_str in Hv0. subst v.
      exists v0. split; [assumption|reflexivity].
    - inversion Hv2. reflexivity. }
  split; [exact Hpos|].
  intros Hd.
  destruct (to_xml_root self) as [root|e] eqn:H; [|exists e; reflexivity].
  destruct (Hpos root eq_refl) as (_ & _ & _ & definition & _ & _ & _ & _ & _ & _ & Hdef & _).
  rewrite Hd in Hdef. discriminate.
Qed.

Lemma needleaxis_differences (ks : list string) :
  forall (vts ves : list pyval) (kvs : list (string * string)),
    mapM (fun '(c, (vt, ve)) => d <- py_sub ve vt ;; Ok (c, py_str d))
         (combine ks (combine vts ves)) = Ok kvs ->
    exists axes,
      per_axis_difference (firstn (List.length ks) ves)
                          (firstn (List.length ks) vts) = Ok axes /\
      kvs = combine ks (map py_str axes).
Proof.
  unfold per_axis_difference.
  induction ks as [|k ks IH]; intros vts ves kvs H.
  - simpl in H. inversion H. exists []. split; reflexivity.
  - destruct vts as [|vt vts]; [simpl in H; inversion H; exists [];
                                 destruct ves; split; reflexivity|].
    destruct ves as [|ve ves]; [simpl in H; inversion H; exists [];
                                 split; reflexivity|].
    cbn [combine mapM] in H. bind_inv H. bind_inv H.
    inversion H; subst kvs; clear H.
    bind_inv Hv. inversion Hv; subst v; clear Hv.
    destruct (IH _ _ _ Hv0) as (axes & Hax & ->).
    exists (v1 :: axes). cbn [List.length firstn combine mapM fst snd].
    rewrite Hv1. simpl. rewrite Hax. split; reflexivity.
Qed.

(** X12. The [geometry] section of a document holds the [centre], whose
    [x], [y] and [z] are the texts of the first three items of the derived
    centre; then, when there are needles, the [needleaxis], whose [x], [y]
    and [z] are, axis by axis, the entry location less the tip of the
    first needle of the order; then, when [SIMULATION_SCALING] is given,
    the [simulationscaling] with the text of that parameter as ratio.
    Without needles there is no [needleaxis]. *)
Theorem geometry_section (self : Family) (root : Element) :
  to_xml_root self = Ok root ->
  exists geometry centre coords scaling axis,
    find "geometry" root = Some geometry /\
    centre_location self = Ok centre /\
    py_iter centre = Ok coords /\
    get_parameter self "SIMULATION_SCALING" true None = Ok scaling /\
    children geometry
    = (node "centre" (combine XYZ (map py_str coords)) []
       :: axis
       ++ (if is_None scaling then []
           else [node "simulationscaling" [("ratio", py_str scaling)] []]))%list /\
    match _needles self with
    | [] => axis = []
    | _ :: _ =>
        exists tip entry tips entries differences,
          get_needle_parameter self (inl 0%nat) "NEEDLE_TIP_LOCATION" true = Ok tip /\
          get_needle_parameter self (inl 0%nat) "NEEDLE_ENTRY_LOCATION" true
          = Ok entry /\
          py_iter tip = Ok tips /\
          py_iter entry = Ok entries /\
          per_axis_difference (firstn 3 entries) (firstn 3 tips) = Ok differences /\
          axis = [node "needleaxis" (combine XYZ (map py_str differences)) []]
    end.
Proof.
  intros H. apply to_xml_root_full in H.
  destruct H as (fr & algorithms & b & lesion & rs & ns & ms & ps & Hfr & _ & _
                 & -> & _).
  erewrite find_geometry by eassumption.
  apply front_parts in Hfr.
  destruct Hfr as (cn & axis & scaling & regions & params & solid & zb & inner
                   & extent & ls & Hc & Hcn & Hax & Hsc & _ & _ & _ & _ & _ & _
                   & _ & _ & Hg & _).
  unfold centre_node in Hcn. bind_inv Hcn. injection Hcn as <-.
  unfold simulationscaling_nodes in Hsc. bind_inv Hsc.
  exists (geometry fr), (centre fr), v, v0, axis.
  split; [reflexivity|]. split; [assumption|]. split; [assumption|].
  split; [assumption|]. split.
  - rewrite Hg. unfold node at 1. cbn [children]. cbn [app]. f_equal.
    + f_equal. destruct (map py_str v) as [|? [|? [|? ?]]]; reflexivity.
    + f_equal. destruct (is_None v0); inversion Hsc; reflexivity.
  - unfold needleaxis_nodes in Hax.
    destruct (_needles self) as [|first others]; [inversion Hax; reflexivity|].
    bind_inv Hax. bind_inv Hax. bind_inv Hax. bind_inv Hax. bind_inv Hax.
    injection Hax as <-.
    apply needleaxis_differences in Hv5. destruct Hv5 as (differences & Hd & ->).
    exists v1, v2, v3, v4, differences.
    repeat (split; [assumption|]). f_equal. f_equal.
    destruct (map py_str differences) as [|? [|? [|? ?]]]; reflexivity.
Qed.

(** *** Loading: the phases of [load_definition] *)

(** The instance once lines 79-82 have run. *)
Definition cleared (xml : description xml_parameters) (s : Family) : Family :=
  set_regions_by_meaning (Some [])
    (set_regions (Some []) (set_needles [] (set_sif (definition_text xml) s))).

(** Lines 84-101. *)
Definition needles_phase (xml : description xml_parameters) : M Family unit :=
  match needles_block xml with
  | Some needles => load_needles 0 needles
  | None => mret tt
  end.

(** Lines 103-117. *)
Definition regions_phase (xml : description xml_parameters) : M Family unit :=
  match regions_block xml with
  | Some regions => for_each load_region regions
  | None => raise TypeError
  end.

Lemma load_definition_phases (xml : description xml_parameters)
    (parameters : parameters) (algorithms : dict string algorithm) (s : Family) :
  load_definition xml parameters algorithms s
  = match needles_phase xml (cleared xml s) with
    | (Err e, s1) => (Err e, s1)
    | (Ok _, s1) =>
        match regions_phase xml s1 with
        | (Err e, s2) => (Err e, s2)
        | (Ok _, s2) =>
            (Ok tt, set_definition (Some (definition_text xml))
                      (set_algorithms (Some algorithms)
                         (set_parameters (Some parameters) s2)))
        end
    end.
Proof.
  unfold load_definition, needles_phase, regions_phase, cleared, mbind, modify.
  destruct (match needles_block xml with
            | Some needles => load_needles 0 needles
            | None => mret tt
            end _) as [[[]|e] s1]; [|reflexivity].
  destruct (match regions_block xml with
            | Some regions => for_each load_region regions
            | None => raise TypeError
            end s1) as [[[]|e] s2]; reflexivity.
Qed.

Lemma preserves_load_needle {C : Type} (f : Family -> C) (k : nat)
    (ne : needle_element xml_parameters) :
  (forall v s, f (set_files_required v s) = f s) ->
  (forall v s, f (set_needles v s) = f s) ->
  (forall v s, f (set_needle_order v s) = f s) ->
  preserves f (load_needle k ne).
Proof.
  intros H1 H2 H3. unfold load_needle.
  repeat first
    [ apply preserves_mbind; [|intros ?]
    | apply preserves_modify; intros ?; first [apply H1 | apply H2 | apply H3]
    | apply preserves_pure; reflexivity
    | match goal with
      | |- preserves _ (if ?c then _ else _) => destruct c
      | |- preserves _ (match ?c with Some _ => _ | None => _ end) => destruct c
      end ].
Qed.

Lemma preserves_load_needles {C : Type} (f : Family -> C)
    (nes : list (needle_element xml_parameters)) :
  (forall v s, f (set_files_required v s) = f s) ->
  (forall v s, f (set_needles v s) = f s) ->
  (forall v s, f (set_needle_order v s) = f s) ->
  forall k, preserves f (load_needles k nes).
Proof.
  intros H1 H2 H3. induction nes as [|ne nes IH]; intros k; simpl.
  - apply preserves_pure. reflexivity.
  - apply preserves_mbind; [apply preserves_load_needle; assumption|].
    intros _. apply IH.
Qed.

Lemma preserves_load_region {C : Type} (f : Family -> C) (re : region_element) :
  (forall v s, f (set_files_required v s) = f s) ->
  (forall v s, f (set_regions v s) = f s) ->
  (forall v s, f (set_regions_by_meaning v s) = f s) ->
  preserves f (load_region re).
Proof.
  intros H1 H2 H3. unfold load_region.
  repeat first
    [ apply preserves_mbind; [|intros ?]
    | apply preserves_modify; intros ?; first [apply H1 | apply H2 | apply H3]
    | apply preserves_pure; reflexivity
    | match goal with
      | |- preserves _ (if ?c then _ else _) => destruct c
      | |- preserves _ (match ?c with Some _ => _ | None => _ end) => destruct c
      end ].
Qed.

Lemma preserves_needles_phase {C : Type} (f : Family -> C)
    (xml : description xml_parameters) :
  (forall v s, f (set_files_required v s) = f s) ->
  (forall v s, f (set_needles v s) = f s) ->
  (forall v s, f (set_needle_order v s) = f s) ->
  preserves f (needles_phase xml).
Proof.
  intros H1 H2 H3. unfold needles_phase. destruct (needles_block xml).
  - apply preserves_load_needles; assumption.
  - apply preserves_pure. reflexivity.
Qed.

Lemma preserves_regions_phase {C : Type} (f : Family -> C)
    (xml : description xml_parameters) :
  (forall v s, f (set_files_required v s) = f s) ->
  (forall v s, f (set_regions v s) = f s) ->
  (forall v s, f (set_regions_by_meaning v s) = f s) ->
  preserves f (regions_phase xml).
Proof.
  intros H1 H2 H3. unfold regions_phase. destruct (regions_block xml).
  - apply preserves_for_each. intros re. apply preserves_load_region; assumption.
  - apply preserves_pure. reflexivity.
Qed.

(** An attribute that only lines 79-82 and 119-121 could touch is, after
    the two loops, what it was when they started. *)
Lemma loops_preserve {C : Type} (f : Family -> C)
    (xml : description xml_parameters) (s : Family) :
  (forall v s, f (set_files_required v s) = f s) ->
  (forall v s, f (set_needles v s) = f s) ->
  (forall v s, f (set_needle_order v s) = f s) ->
  (forall v s, f (set_regions v s) = f s) ->
  (forall v s, f (set_regions_by_meaning v s) = f s) ->
  f (snd (needles_phase xml s)) = f s /\
  f (snd (regions_phase xml (snd (needles_phase xml s)))) = f s.
Proof.
  intros H1 H2 H3 H4 H5.
  pose proof (@preserves_needles_phase _ f xml H1 H2 H3 s) as Hn.
  pose proof (@preserves_regions_phase _ f xml H1 H4 H5
                (snd (needles_phase xml s))) as Hr.
  split; congruence.
Qed.

(** X13. [load_definition] assigns [_sif] first and [_parameters],
    [_algorithms] and [_definition] last: whatever it returns, [_sif] is
    then the text of the definition and [_xml] is as before; when it
    returns, the three are the parameters, the algorithms and the text of
    the definition; when it raises, the three are what they were before
    the call. *)
Theorem load_definition_assignments (xml : description xml_parameters)
    (parameters : parameters) (algorithms : dict string algorithm) (s : Family) :
  _sif (snd (load_definition xml parameters algorithms s)) = definition_text xml /\
  _xml (snd (load_definition xml parameters algorithms s)) = _xml s /\
  match fst (load_definition xml parameters algorithms s) with
  | Ok _ =>
      _parameters (snd (load_definition xml parameters algorithms s))
      = Some parameters /\
      _algorithms (snd (load_definition xml parameters algorithms s))
      = Some algorithms /\
      _definition (snd (load_definition xml parameters algorithms s))
      = Some (definition_text xml)
  | Err _ =>
      _parameters (snd (load_definition xml parameters algorithms s))
      = _parameters s /\
      _algorithms (snd (load_definition xml parameters algorithms s))
      = _algorithms s /\
      _definition (snd (load_definition xml parameters algorithms s))
      = _definition s
  end.
Proof.
  rewrite load_definition_phases.
  destruct (@loops_preserve _ _sif xml (cleared xml s)) as [A1 A2]; try reflexivity.
  destruct (@loops_preserve _ _xml xml (cleared xml s)) as [B1 B2]; try reflexivity.
  destruct (@loops_preserve _ _parameters xml (cleared xml s)) as [C1 C2];
    try reflexivity.
  destruct (@loops_preserve _ _algorithms xml (cleared xml s)) as [D1 D2];
    try reflexivity.
  destruct (@loops_preserve _ _definition xml (cleared xml s)) as [E1 E2];
    try reflexivity.
  destruct (needles_phase xml (cleared xml s)) as [[[]|e] s1]; cbn [fst snd] in *.
  - destruct (regions_phase xml s1) as [[[]|e] s2]; cbn [fst snd] in *.
    + repeat split; try reflexivity; assumption.
    + repeat split; assumption.
  - repeat split; assumption.
Qed.

(** X14. When [load_definition] raises on a new instance, the instance
    has no parameters: [to_xml] then raises [AttributeError], and leaves
    the instance as it is. *)
Theorem to_xml_after_failed_load (files_required : dict string string)
    (xml : description xml_parameters) (parameters : parameters)
    (algorithms : dict string algorithm) (e : exn) (self : Family) :
  load_definition xml parameters algorithms (__init__ files_required)
  = (Err e, self) ->
  to_xml self = (Err AttributeError, self).
Proof.
  intros H.
  assert (Hp : _parameters self = None).
  { rewrite load_definition_phases in H.
    destruct (@loops_preserve _ _parameters xml
                (cleared xml (__init__ files_required))) as [C1 C2];
      try reflexivity.
    destruct (needles_phase xml (cleared xml (__init__ files_required)))
      as [[[]|e1] s1]; cbn [fst snd] in *.
    - destruct (regions_phase xml s1) as [[[]|e2] s2]; cbn [fst snd] in *;
        [discriminate|].
      inversion H; subst. assumption.
    - inversion H; subst. assumption. }
  unfold to_xml, to_xml_root, sections_before_algorithms, centre_location,
    get_parameter.
  rewrite Hp. reflexivity.
Qed.

(** *** Loading: the registry of files and the order of the needles *)

Ltac keys_kept :=
  repeat first
    [ apply keeps_keys_mbind; [|intros ?]
    | eapply (@keeps_keys_assign _ _ String.eqb String.eqb_eq _files_required);
      intros ?; reflexivity
    | eapply (@keeps_keys_assign _ _ Nat.eqb Nat.eqb_eq _needle_order);
      intros ?; reflexivity
    | apply preserves_keeps_keys, preserves_modify; reflexivity
    | apply preserves_keeps_keys, preserves_pure; reflexivity
    | match goal with
      | |- keeps_keys _ _ (if ?c then _ else _) => destruct c
      | |- keeps_keys _ _ (match ?c with Some _ => _ | None => _ end) => destruct c
      end ].

Lemma load_needle_keeps_files (k : nat) (ne : needle_element xml_parameters) :
  keeps_keys String.eqb _files_required (load_needle k ne).
Proof. unfold load_needle. keys_kept. Qed.

Lemma load_needle_keeps_order (k : nat) (ne : needle_element xml_parameters) :
  keeps_keys Nat.eqb _needle_order (load_needle k ne).
Proof. unfold load_needle. keys_kept. Qed.

Lemma load_region_keeps_files (re : region_element) :
  keeps_keys String.eqb _files_required (load_region re).
Proof. unfold load_region. keys_kept. Qed.

Lemma load_needles_keeps_files (nes : list (needle_element xml_parameters)) :
  forall k, keeps_keys String.eqb _files_required (load_needles k nes).
Proof.
  induction nes as [|ne nes IH]; intros k; simpl.
  - apply preserves_keeps_keys, preserves_pure. reflexivity.
  - apply keeps_keys_mbind; [apply load_needle_keeps_files|]. intros _. apply IH.
Qed.

Lemma load_needles_keeps_order (nes : list (needle_element xml_parameters)) :
  forall k, keeps_keys Nat.eqb _needle_order (load_needles k nes).
Proof.
  induction nes as [|ne nes IH]; intros k; simpl.
  - apply preserves_keeps_keys, preserves_pure. reflexivity.
  - apply keeps_keys_mbind; [apply load_needle_keeps_order|]. intros _. apply IH.
Qed.

Lemma needles_phase_keeps_files (xml : description xml_parameters) :
  keeps_keys String.eqb _files_required (needles_phase xml).
Proof.
  unfold needles_phase. destruct (needles_block xml).
  - apply load_needles_keeps_files.
  - apply preserves_keeps_keys, preserves_pure. reflexivity.
Qed.

Lemma regions_phase_keeps_files (xml : description xml_parameters) :
  keeps_keys String.eqb _files_required (regions_phase xml).
Proof.
  unfold regions_phase. destruct (regions_block xml).
  - apply keeps_keys_for_each. apply load_region_keeps_files.
  - apply preserves_keeps_keys, preserves_pure. reflexivity.
Qed.

Lemma needles_phase_keeps_order (xml : description xml_parameters) :
  keeps_keys Nat.eqb _needle_order (needles_phase xml).
Proof.
  unfold needles_phase. destruct (needles_block xml).
  - apply load_needles_keeps_order.
  - apply preserves_keeps_keys, preserves_pure. reflexivity.
Qed.

(** The state that [load_definition] leaves, by the state after the two
    loops. *)
Lemma load_definition_state {C : Type} (f : Family -> C)
    (xml : description xml_parameters) (parameters : parameters)
    (algorithms : dict string algorithm) (s : Family) :
  (forall v s, f (set_parameters v s) = f s) ->
  (forall v s, f (set_algorithms v s) = f s) ->
  (forall v s, f (set_definition v s) = f s) ->
  f (snd (load_definition xml parameters algorithms s))
  = match fst (needles_phase xml (cleared xml s)) with
    | Ok _ => f (snd (regions_phase xml (snd (needles_phase xml (cleared xml s)))))
    | Err _ => f (snd (needles_phase xml (cleared xml s)))
    end.
Proof.
  intros H1 H2 H3. rewrite load_definition_phases.
  destruct (needles_phase xml (cleared xml s)) as [[[]|e] s1]; cbn [fst snd];
    [|reflexivity].
  destruct (regions_phase xml s1) as [[[]|e] s2]; cbn [fst snd]; [|reflexivity].
  rewrite H3, H2, H1. reflexivity.
Qed.

(** X15. [load_definition] forgets nothing of the registry of files nor
    of the order of the needles, whether it returns or raises: a file that
    was registered before the call is registered after it, and an ordinal
    that was bound to a needle index before is bound after. In
    particular [_needle_order], which only [__init__] makes empty, is not
    made empty by a second load. *)
Theorem load_definition_forgets_nothing (xml : description xml_parameters)
    (parameters : parameters) (algorithms : dict string algorithm) (s : Family) :
  (forall file,
     dict_mem String.eqb file (_files_required s) = true ->
     dict_mem String.eqb file
       (_files_required (snd (load_definition xml parameters algorithms s)))
     = true) /\
  (forall k,
     dict_mem Nat.eqb k (_needle_order s) = true ->
     dict_mem Nat.eqb k
       (_needle_order (snd (load_definition xml parameters algorithms s)))
     = true).
Proof.
  split.
  - intros file H.
    rewrite (@load_definition_state _ _files_required) by reflexivity.
    pose proof (needles_phase_keeps_files xml (cleared xml s) file H) as H1.
    destruct (fst (needles_phase xml (cleared xml s))); [|assumption].
    apply regions_phase_keeps_files. assumption.
  - intros k H.
    rewrite (@load_definition_state _ _needle_order) by reflexivity.
    pose proof (needles_phase_keeps_order xml (cleared xml s) k H) as H1.
    destruct (fst (needles_phase xml (cleared xml s))); [|assumption].
    rewrite (@preserves_regions_phase _ _needle_order xml) by reflexivity.
    assumption.
Qed.

(** X16. After [load_definition] has returned, the ordinals below the
    number of needles of the description are bound to the indices of the
    needles, in the order of the description, and every other ordinal is
    bound as it was before the call. *)
Theorem needle_order_after_load (xml : description xml_parameters)
    (parameters : parameters) (algorithms : dict string algorithm)
    (s s' : Family) (nes : list (needle_element xml_parameters)) (k : nat) :
  load_definition xml parameters algorithms s = (Ok tt, s') ->
  needles_block xml = Some nes ->
  dict_get Nat.eqb k (_needle_order s')
  = if (k <? List.length nes)%nat
    then nth_error (map (@needle_index_attr _) nes) k
    else dict_get Nat.eqb k (_needle_order s).
Proof.
  intros H Hnes.
  pose proof (@load_definition_state _ _needle_order xml parameters algorithms s)
    as Hs.
  rewrite H in Hs. cbn [snd] in Hs. rewrite Hs by reflexivity. clear Hs.
  rewrite load_definition_phases in H.
  destruct (needles_phase xml (cleared xml s)) as [[[]|e] s1] eqn:Hn;
    [|discriminate].
  cbn [fst snd].
  rewrite (@preserves_regions_phase _ _needle_order xml) by reflexivity.
  unfold needles_phase in Hn. rewrite Hnes in Hn.
  apply load_needles_ok in Hn. destruct Hn as (stored & _ & _ & Ho).
  rewrite Ho. cbn [cleared _needle_order set_regions_by_meaning set_regions
                     set_needles set_sif].
  rewrite <- (length_map (@needle_index_attr _) nes).
  rewrite dict_get_numbered. cbn [Nat.leb andb Nat.add]. rewrite Nat.sub_0_r.
  reflexivity.
Qed.

(** Every stored needle that is given by a mesh file names a file that
    is registered under [input]. *)
Definition needles_registered (s : Family) : Prop :=
  forall ix nd,
    In (ix, nd) (_needles s) ->
    is_mesh_file nd = true ->
    exists target,
      locator nd = Some target /\
      dict_mem String.eqb (os_path_join "input" target) (_files_required s) = true.

Lemma load_needle_registered (k : nat) (ne : needle_element xml_parameters)
    (s s' : Family) :
  load_needle k ne s = (Ok tt, s') ->
  needles_registered s -> needles_registered s'.
Proof.
  unfold load_needle, needles_registered. intros H Hinv ix nd Hin Hmesh.
  destruct (split_once ":" (needle_file_attr ne)) as [kind rest] eqn:Hsplit.
  cbn [fst snd] in H.
  destruct (str_in kind ["surface"; "zone"]) eqn:Hkind.
  - destruct rest as [path|]; [|discriminate].
    unfold mbind, modify, mret in H. inversion H; subst s'; clear H.
    cbn [_needles _files_required set_needle_order set_needles
           set_files_required] in *.
    apply (@In_dict_set _ _ String.eqb String.eqb_eq) in Hin.
    destruct Hin as [[-> ->]|Hin].
    + exists (needle_index_attr ne ++ splitext_ext path).
      unfold locator. cbn [needle_file].
      pose proof (split_once_join _ (needle_index_attr ne ++ splitext_ext path)
                                  Hsplit) as Hj.
      match goal with
      | |- context [split_once ":" ?x] =>
          change (split_once ":" x)
            with (split_once ":" (kind ++ ":" ++ needle_index_attr ne
                                       ++ splitext_ext path))
      end.
      rewrite Hj. split; [reflexivity|].
      apply (@dict_mem_set_same _ _ String.eqb String.eqb_eq).
    + destruct (Hinv ix nd Hin Hmesh) as (target & Hl & Hm).
      exists target. split; [assumption|].
      apply (@dict_mem_set _ _ String.eqb String.eqb_eq). assumption.
  - unfold mbind, modify, mret in H. inversion H; subst s'; clear H.
    cbn [_needles _files_required set_needle_order set_needles] in *.
    apply (@In_dict_set _ _ String.eqb String.eqb_eq) in Hin.
    destruct Hin as [[-> ->]|Hin].
    + unfold is_mesh_file, reference_kind in Hmesh. cbn [needle_file] in Hmesh.
      rewrite Hsplit in Hmesh. cbn [fst] in Hmesh. congruence.
    + apply (Hinv ix nd Hin Hmesh).
Qed.

Lemma load_needles_registered (nes : list (needle_element xml_parameters)) :
  forall k s s',
    load_needles k nes s = (Ok tt, s') ->
    needles_registered s -> needles_registered s'.
Proof.
  induction nes as [|ne nes IH]; intros k s s' H Hinv; simpl in H.
  - inversion H; subst s'. assumption.
  - mbind_inv H. destruct a. eapply IH; [eassumption|].
    eapply load_needle_registered; eassumption.
Qed.

(** [load_region] on a region that has an input file, step by step. *)
Definition region_stored (re : region_element) (input : string)
    (groups : list string) : region :=
  {| region_format := region_format_attr re;
     region_meaning := region_name_attr re;
     region_input := region_id_attr re ++ splitext_ext input;
     region_groups := groups |}.

Lemma load_region_steps (re : region_element) (input : string) (s : Family) :
  region_input_attr re = Some input ->
  load_region re s
  = match _regions_by_meaning s with
    | None => (Err AttributeError, s)
    | Some by_meaning =>
        let by_meaning0 :=
          if dict_mem String.eqb (region_name_attr re) by_meaning then by_meaning
          else dict_set String.eqb (region_name_attr re) [] by_meaning in
        let s1 := set_regions_by_meaning (Some by_meaning0) s in
        match json_loads_groups (region_groups_attr re) with
        | Err e => (Err e, s1)
        | Ok groups =>
            match _regions s with
            | None => (Err AttributeError, s1)
            | Some regions =>
                let stored := region_stored re input groups in
                let s2 :=
                  set_regions
                    (Some (dict_set String.eqb (region_id_attr re) stored regions))
                    s1 in
                let s3 :=
                  if (str_in (region_format_attr re) ["surface"; "zone"]
                      && negb (String.eqb input EMPTY))%bool
                  then set_files_required
                         (dict_set String.eqb
                            (os_path_join "input"
                               (region_id_attr re ++ splitext_ext input))
                            input (_files_required s)) s2
                  else s2 in
                match dict_get String.eqb (region_name_attr re) by_meaning0 with
                | None => (Err KeyError, s3)
                | Some bucket =>
                    (Ok tt,
                     set_regions_by_meaning
                       (Some (dict_set String.eqb (region_name_attr re)
                                       (bucket ++ [stored])%list by_meaning0))
                       s3)
                end
            end
        end
    end.
Proof.
  intros Hi. unfold load_region, mbind, gets, lift, modify, mret, raise.
  rewrite Hi.
  destruct s as [sif xml needles order files regions by_meaning params algs defn].
  cbn [_regions_by_meaning _regions _files_required].
  destruct by_meaning as [by_meaning|]; cbn [getattr]; [|reflexivity].
  destruct (dict_mem String.eqb (region_name_attr re) by_meaning);
    cbn [set_regions_by_meaning _regions _regions_by_meaning _files_required
         _sif _xml _needles _needle_order _parameters _algorithms _definition];
    (destruct (json_loads_groups (region_groups_attr re)) as [groups|e];
     [|reflexivity]);
    (destruct regions as [regions|]; cbn [getattr]; [|reflexivity]);
    cbn [set_regions _regions _regions_by_meaning _files_required
         _sif _xml _needles _needle_order _parameters _algorithms _definition];
    (destruct (str_in (region_format_attr re) ["surface"; "zone"]
               && negb (String.eqb input EMPTY))%bool);
    cbn [set_files_required _regions _regions_by_meaning _files_required
         _sif _xml _needles _needle_order _parameters _algorithms _definition
         getattr];
    unfold dict_item, set_regions_by_meaning, set_regions, set_files_required;
    cbn [_regions _regions_by_meaning _files_required
         _sif _xml _needles _needle_order _parameters _algorithms _definition
         getattr];
    match goal with
    | |- context [dict_get String.eqb (region_name_attr re) ?d] =>
        destruct (dict_get String.eqb (region_name_attr re) d)
    end; reflexivity.
Qed.

Lemma load_region_registers (re : region_element) (input : string) (s s' : Family) :
  load_region re s = (Ok tt, s') ->
  region_input_attr re = Some input ->
  str_in (region_format_attr re) ["surface"; "zone"] = true ->
  input <> EMPTY ->
  dict_mem String.eqb
    (os_path_join "input" (region_id_attr re ++ splitext_ext input))
    (_files_required s') = true.
Proof.
  intros H Hi Hf Hne. rewrite (load_region_steps _ s Hi) in H.
  assert (He : String.eqb input EMPTY = false).
  { destruct (String.eqb input EMPTY) eqn:E; [|reflexivity].
    apply String.eqb_eq in E. contradiction. }
  rewrite Hf, He in H. cbn [negb andb] in H.
  destruct (_regions_by_meaning s) as [by_meaning|]; [|discriminate].
  cbv zeta in H.
  destruct (json_loads_groups (region_groups_attr re)) as [groups|]; [|discriminate].
  destruct (_regions s) as [regions|]; [|discriminate].
  destruct (dict_get String.eqb (region_name_attr re) _) as [bucket|];
    [|discriminate].
  inversion H; subst s'; clear H.
  cbn [_files_required set_regions_by_meaning set_files_required].
  apply (@dict_mem_set_same _ _ String.eqb String.eqb_eq).
Qed.

Lemma for_each_load_region_registers (res : list region_element)
    (re : region_element) (input : string) :
  forall s s',
    for_each load_region res s = (Ok tt, s') ->
    In re res ->
    region_input_attr re = Some input ->
    str_in (region_format_attr re) ["surface"; "zone"] = true ->
    input <> EMPTY ->
    dict_mem String.eqb
      (os_path_join "input" (region_id_attr re ++ splitext_ext input))
      (_files_required s') = true.
Proof.
  induction res as [|r res IH]; intros s s' H Hin Hi Hf Hne; [contradiction|].
  simpl in H. mbind_inv H. destruct a. destruct Hin as [->|Hin].
  - pose proof (@load_region_registers re input s s0 Ha Hi Hf Hne) as Hreg.
    pose proof (@keeps_keys_for_each _ _ _ String.eqb _files_required load_region
                  res load_region_keeps_files s0 _ Hreg) as Hk.
    rewrite H in Hk. exact Hk.
  - eapply IH; eassumption.
Qed.

(** X17. After [load_definition] has returned, the registry of files
    knows every mesh file that the document will name under [input]:
    every stored needle that is given by a surface or zone mesh file has a
    locator, and the file of that name under [input] is registered; and so
    is, for every region of the description whose format is [surface] or
    [zone] and whose input is not empty, the file named by the id of the
    region and the extension of the input. The document joins the names to
    [input/] and the registry to [input], which gives the same path. *)
Theorem mesh_inputs_are_registered (xml : description xml_parameters)
    (parameters : parameters) (algorithms : dict string algorithm)
    (s s' : Family) :
  load_definition xml parameters algorithms s = (Ok tt, s') ->
  (forall ix nd,
     In (ix, nd) (_needles s') ->
     is_mesh_file nd = true ->
     exists target,
       locator nd = Some target /\
       dict_mem String.eqb (os_path_join "input" target) (_files_required s')
       = true) /\
  (forall res re input,
     regions_block xml = Some res ->
     In re res ->
     region_input_attr re = Some input ->
     str_in (region_format_attr re) ["surface"; "zone"] = true ->
     input <> EMPTY ->
     dict_mem String.eqb
       (os_path_join "input" (region_id_attr re ++ splitext_ext input))
       (_files_required s') = true) /\
  (forall name, os_path_join "input/" name = os_path_join "input" name).
Proof.
  intros H. rewrite load_definition_phases in H.
  destruct (needles_phase xml (cleared xml s)) as [[[]|e] s1] eqn:Hn;
    [|discriminate].
  destruct (regions_phase xml s1) as [[[]|e] s2] eqn:Hr; [|discriminate].
  inversion H; subst s'; clear H.
  cbn [_needles _files_required set_definition set_algorithms set_parameters].
  split; [|split; [|exact input_path_either_way]].
  - assert (H1 : needles_registered s1).
    { unfold needles_phase in Hn. destruct (needles_block xml) as [nes|].
      - eapply load_needles_registered; [eassumption|].
        intros ix nd []. 
      - inversion Hn; subst s1. intros ix nd []. }
    intros ix nd Hin Hmesh.
    pose proof (@preserves_regions_phase _ _needles xml
                  (fun _ _ => eq_refl) (fun _ _ => eq_refl) (fun _ _ => eq_refl) s1)
      as Hkeep.
    rewrite Hr in Hkeep. cbn [snd] in Hkeep. rewrite Hkeep in Hin.
    destruct (H1 ix nd Hin Hmesh) as (target & Hl & Hm).
    exists target. split; [assumption|].
    pose proof (regions_phase_keeps_files xml s1 _ Hm) as Hk.
    rewrite Hr in Hk. exact Hk.
  - intros res re input Hres Hin Hi Hf Hne.
    unfold regions_phase in Hr. rewrite Hres in Hr.
    eapply for_each_load_region_registers; eassumption.
Qed.

(** *** Loading: the regions by meaning *)

(** The regions are sorted by meaning: a bucket holds regions of its
    meaning only, the region stored under an id is in the bucket of its
    meaning, and the buckets hold [n] regions in all. *)
Definition sorted_by_meaning (n : nat) (s : Family) : Prop :=
  exists by_meaning regions,
    _regions_by_meaning s = Some by_meaning /\
    _regions s = Some regions /\
    (forall meaning bucket r,
       In (meaning, bucket) by_meaning -> In r bucket ->
       region_meaning r = meaning) /\
    (forall id r,
       In (id, r) regions ->
       exists bucket,
         dict_get String.eqb (region_meaning r) by_meaning = Some bucket /\
         In r bucket) /\
    bucket_total by_meaning = n.

Lemma load_region_sorted (re : region_element) (n : nat) (s s' : Family) :
  load_region re s = (Ok tt, s') ->
  sorted_by_meaning n s -> sorted_by_meaning (S n) s'.
Proof.
  intros H (by_meaning & regions & Hb & Hr & Hmeaning & Hstored & Htotal).
  destruct (region_input_attr re) as [input|] eqn:Hi.
  2:{ pose proof (load_region_without_input re s Hi Hb) as Hf.
      rewrite H in Hf. discriminate. }
  rewrite (load_region_steps _ s Hi) in H. rewrite Hb, Hr in H. cbv zeta in H.
  destruct (json_loads_groups (region_groups_attr re)) as [groups|]; [|discriminate].
  set (name := region_name_attr re) in *.
  set (stored := region_stored re input groups) in *.
  set (by_meaning0 := if dict_mem String.eqb name by_meaning then by_meaning
                      else dict_set String.eqb name [] by_meaning) in *.
  destruct (dict_get String.eqb name by_meaning0) as [bucket|] eqn:Hbucket;
    [|discriminate].
  inversion H; subst s'; clear H.
  (* what the bucket of the name held before *)
  assert (Hmeaning0 : forall meaning b r,
             In (meaning, b) by_meaning0 -> In r b -> region_meaning r = meaning).
  { intros meaning b r Hin Hr0. unfold by_meaning0 in Hin.
    destruct (dict_mem String.eqb name by_meaning).
    - eapply Hmeaning; eassumption.
    - apply (@In_dict_set _ _ String.eqb String.eqb_eq) in Hin.
      destruct Hin as [[_ ->]|Hin]; [contradiction|].
      eapply Hmeaning; eassumption. }
  assert (Hget0 : forall m b, m <> name \/ b <> [] ->
             dict_get String.eqb m by_meaning = Some b ->
             dict_get String.eqb m by_meaning0 = Some b).
  { intros m b Hor Hm. unfold by_meaning0.
    destruct (dict_mem String.eqb name by_meaning) eqn:Hmem; [assumption|].
    destruct (String.eqb m name) eqn:E.
    - apply String.eqb_eq in E. subst m. unfold dict_mem in Hmem.
      rewrite Hm in Hmem. discriminate.
    - rewrite (@dict_get_set_other _ _ String.eqb String.eqb_eq); [assumption|].
      intros ->. rewrite String.eqb_refl in E. discriminate. }
  assert (Htotal0 : bucket_total by_meaning0 = n).
  { unfold by_meaning0. destruct (dict_mem String.eqb name by_meaning) eqn:Hmem;
      [assumption|].
    rewrite (@bucket_total_new _ _ Hmem). assumption. }
  exists (dict_set String.eqb name (bucket ++ [stored])%list by_meaning0).
  exists (dict_set String.eqb (region_id_attr re) stored regions).
  split.
  { match goal with |- context [if ?c then _ else _] => destruct c end;
      reflexivity. }
  split.
  { match goal with |- context [if ?c then _ else _] => destruct c end;
      reflexivity. }
  split; [|split].
  - intros meaning b r Hin Hr0.
    apply (@In_dict_set _ _ String.eqb String.eqb_eq) in Hin.
    destruct Hin as [[-> ->]|Hin].
    + apply in_app_or in Hr0. destruct Hr0 as [Hr0|[<-|[]]]; [|reflexivity].
      eapply Hmeaning0; [|eassumption].
      apply (@dict_get_In _ _ String.eqb String.eqb_eq). assumption.
    + eapply Hmeaning0; eassumption.
  - intros id r Hin.
    apply (@In_dict_set _ _ String.eqb String.eqb_eq) in Hin.
    destruct Hin as [[-> ->]|Hin].
    + exists (bucket ++ [stored])%list. split.
      * apply (@dict_get_set_same _ _ String.eqb String.eqb_eq).
      * apply in_or_app. right. left. reflexivity.
    + destruct (Hstored id r Hin) as (b & Hget & Hinb).
      assert (Hget' : dict_get String.eqb (region_meaning r) by_meaning0 = Some b).
      { apply Hget0; [|assumption]. right. intros ->. contradiction. }
      destruct (String.eqb (region_meaning r) name) eqn:E.
      * apply String.eqb_eq in E. rewrite E in *.
        rewrite Hbucket in Hget'. inversion Hget'; subst b.
        exists (bucket ++ [stored])%list. split.
        -- apply (@dict_get_set_same _ _ String.eqb String.eqb_eq).
        -- apply in_or_app. left. assumption.
      * exists b. split; [|assumption].
        rewrite (@dict_get_set_other _ _ String.eqb String.eqb_eq); [assumption|].
        intros Heq. rewrite Heq, String.eqb_refl in E. discriminate.
  - rewrite (@bucket_total_append _ _ stored _ Hbucket). rewrite Htotal0. reflexivity.
Qed.

Lemma for_each_load_region_sorted (res : list region_element) :
  forall n s s',
    for_each load_region res s = (Ok tt, s') ->
    sorted_by_meaning n s -> sorted_by_meaning (n + List.length res) s'.
Proof.
  induction res as [|re res IH]; intros n s s' H Hinv; simpl in H.
  - inversion H; subst s'. rewrite Nat.add_0_r. assumption.
  - mbind_inv H. destruct a.
    cbn [List.length]. rewrite Nat.add_succ_r.
    apply (IH (S n) _ _ H).
    eapply load_region_sorted; eassumption.
Qed.

(** X18. After [load_definition] has returned, the regions are sorted
    by meaning: every bucket of [_regions_by_meaning] holds regions of its
    own meaning only; the region that [_regions] stores under an id is in
    the bucket of its meaning; and the buckets hold, in all, as many
    regions as the description has, a region that another of the same id
    has replaced in [_regions] included. *)
Theorem regions_are_sorted_by_meaning (xml : description xml_parameters)
    (parameters : parameters) (algorithms : dict string algorithm)
    (s s' : Family) :
  load_definition xml parameters algorithms s = (Ok tt, s') ->
  exists by_meaning regions res,
    _regions_by_meaning s' = Some by_meaning /\
    _regions s' = Some regions /\
    regions_block xml = Some res /\
    (forall meaning bucket r,
       In (meaning, bucket) by_meaning -> In r bucket ->
       region_meaning r = meaning) /\
    (forall id r,
       In (id, r) regions ->
       exists bucket,
         dict_get String.eqb (region_meaning r) by_meaning = Some bucket /\
         In r bucket) /\
    bucket_total by_meaning = List.length res.
Proof.
  intros H. rewrite load_definition_phases in H.
  destruct (needles_phase xml (cleared xml s)) as [[[]|e] s1] eqn:Hn;
    [|discriminate].
  destruct (regions_phase xml s1) as [[[]|e] s2] eqn:Hr; [|discriminate].
  inversion H; subst s'; clear H.
  cbn [_regions _regions_by_meaning set_definition set_algorithms set_parameters].
  assert (H1 : sorted_by_meaning 0 s1).
  { pose proof (@preserves_needles_phase _ _regions xml
                  (fun _ _ => eq_refl) (fun _ _ => eq_refl) (fun _ _ => eq_refl)
                  (cleared xml s)) as Hk1.
    pose proof (@preserves_needles_phase _ _regions_by_meaning xml
                  (fun _ _ => eq_refl) (fun _ _ => eq_refl) (fun _ _ => eq_refl)
                  (cleared xml s)) as Hk2.
    rewrite Hn in Hk1, Hk2. cbn [snd] in Hk1, Hk2.
    exists [], []. rewrite Hk1, Hk2.
    split; [reflexivity|]. split; [reflexivity|].
    split; [intros ? ? ? []|]. split; [intros ? ? []|reflexivity]. }
  unfold regions_phase in Hr. destruct (regions_block xml) as [res|];
    [|discriminate].
  destruct (@for_each_load_region_sorted _ _ _ _ Hr H1)
    as (by_meaning & regions & Hb & Hrs & Hm & Hst & Ht).
  exists by_meaning, regions, res.
  repeat (split; [first [assumption | reflexivity]|]). assumption.
Qed.

(** *** The centre at the first needle, and the arguments in order *)

(** X19. After a description with distinct needle indices, and at least
    one needle, is loaded into a new instance, and when the centre policy
    is absent or [first-needle], the centre that [to_xml] derives is the
    tip location among the parameters of the first needle of the
    description. *)
Theorem centre_at_first_needle (files_required : dict string string)
    (xml : description xml_parameters) (parameters : parameters)
    (algorithms : dict string algorithm)
    (ne : needle_element xml_parameters)
    (others : list (needle_element xml_parameters))
    (self : Family) (policy : pyval) :
  load_definition xml parameters algorithms (__init__ files_required) = (Ok tt, self) ->
  needles_block xml = Some (ne :: others) ->
  NoDup (map (@needle_index_attr _) (ne :: others)) ->
  get_parameter self "CENTRE_LOCATION" true None = Ok policy ->
  policy = VNone \/ policy = VStr "first-needle" ->
  centre_location self
  = get_parameter self "NEEDLE_TIP_LOCATION" true
      (Some (read_parameters (needle_parameters_elem ne))).
Proof.
  intros Hload Hnes Hnd Hpol Hcase.
  destruct (@load_definition_needles _ _ _ _ _ _ Hload Hnes Hnd)
    as (_ & stored & Hst & Hn & Ho).
  inversion Hst as [|? nd ? stored' Hs Hst']; subst.
  unfold centre_location. rewrite Hpol. cbn [rbind].
  assert (Hc : (is_None policy || eq_str policy "first-needle")%bool = true)
    by (destruct Hcase as [-> | ->]; reflexivity).
  rewrite Hc, Hn. cbn [map combine].
  unfold get_needle_parameter. rewrite Ho, Hn.
  cbn [List.length seq map combine dict_get Nat.eqb]. unfold dict_item.
  cbn [dict_get]. rewrite String.eqb_refl. cbn [rbind needle_parameters].
  rewrite Hs. reflexivity.
Qed.

(** X20. In a document, the entry of every algorithm carries its result
    name and its arguments as declared, joined by commas; its [arguments]
    node lists the declared arguments, each as often as it is declared, in
    ascending order of code points. *)
Theorem arguments_are_listed_in_order (self : Family) (root : Element)
    (algorithms : dict string algorithm) :
  _algorithms self = Some algorithms ->
  to_xml_root self = Ok root ->
  exists node_algorithms,
    algorithms_of root = Some node_algorithms /\
    Forall2 (fun entry e =>
               exists names content_node,
                 get "result" e = Some (fst entry) /\
                 get "arguments" e = Some (join "," (arguments (snd entry))) /\
                 children e
                 = [node "arguments" []
                         (map (fun a => node "argument" [("name", a)] []) names);
                    content_node] /\
                 Permutation names (arguments (snd entry)) /\
                 Sorted str_le names)
            algorithms (children node_algorithms).
Proof.
  intros Halg H.
  destruct (to_xml_root_algorithms self Halg H) as (_ & node_algorithms & Hfind & Hc).
  exists node_algorithms. split; [assumption|]. rewrite Hc.
  clear. induction algorithms as [|entry algorithms IH]; simpl; constructor.
  - exists (sorted (arguments (snd entry))). eexists.
    split; [reflexivity|]. split; [reflexivity|]. split; [reflexivity|].
    split; [apply sorted_Permutation|apply sorted_Sorted].
  - assumption.
Qed.

(** *** The check of the algorithms, and the loading of a needle *)

(** X21. The entry of an algorithm is refused exactly when one of the
    identifiers of [_disallowed_functions] occurs in the content of the
    algorithm or in its result name, that is, when the content or the name
    is some text, the identifier and some text, one after the other;
    refusing raises [NameError], for the name [RuntimeException] is not
    bound. The declared arguments play no part. *)
Theorem algorithm_is_refused_for_a_substring (result_name : string)
    (definition : algorithm) :
  (exists fn pre post,
     In fn _disallowed_functions /\
     (content_text definition = pre ++ fn ++ post \/
      result_name = pre ++ fn ++ post))
  <-> algorithm_node (result_name, definition)
      = Err (NameError "RuntimeException").
Proof.
  rewrite algorithm_node_spec. unfold clean. cbn [fst snd].
  assert (Hd : forall s,
             denylisted s = true
             <-> exists fn pre post,
                   In fn _disallowed_functions /\ s = pre ++ fn ++ post).
  { intros s. unfold denylisted. rewrite existsb_exists. split.
    - intros (fn & Hin & Hc). apply str_contains_substring in Hc.
      destruct Hc as (pre & post & Hc). exists fn, pre, post. auto.
    - intros (fn & pre & post & Hin & Hc). exists fn. split; [assumption|].
      apply str_contains_substring. exists pre, post. assumption. }
  split.
  - intros (fn & pre & post & Hin & [Hc|Hc]).
    + assert (H : denylisted (content_text definition) = true)
        by (apply Hd; exists fn, pre, post; auto).
      rewrite H. reflexivity.
    + assert (H : denylisted result_name = true)
        by (apply Hd; exists fn, pre, post; auto).
      rewrite H. destruct (denylisted (content_text definition)); reflexivity.
  - destruct (denylisted (content_text definition)) eqn:E1.
    + intros _. apply Hd in E1. destruct E1 as (fn & pre & post & Hin & Hc).
      exists fn, pre, post. auto.
    + destruct (denylisted result_name) eqn:E2.
      * intros _. apply Hd in E2. destruct E2 as (fn & pre & post & Hin & Hc).
        exists fn, pre, post. auto.
      * cbn. discriminate.
Qed.

(** X22. Loading a needle whose file is [kind:path]. A needle given by
    a surface or zone mesh file is stored, under its index, with its class,
    the parameters read from its block and the file [kind:name], where the
    name is the index followed by the extension of the path: the reference
    kind of the stored needle is the kind and its locator the name; the
    path is registered under [input] and the name; and the ordinal is
    bound to the index. Such a needle without a colon in its file makes
    the loading raise [IndexError], and nothing is stored. A needle of any
    other kind is stored with its file as declared, and the registry of
    files is left as it is. *)
Theorem load_needle_stores (k : nat) (ne : needle_element xml_parameters)
    (s : Family) (kind : string) (rest : option string) :
  split_once ":" (needle_file_attr ne) = (kind, rest) ->
  (str_in kind ["surface"; "zone"] = true -> rest = None ->
   load_needle k ne s = (Err IndexError, s)) /\
  (forall path,
     str_in kind ["surface"; "zone"] = true -> rest = Some path ->
     exists s' stored,
       load_needle k ne s = (Ok tt, s') /\
       dict_get String.eqb (needle_index_attr ne) (_needles s') = Some stored /\
       needle_class stored = needle_class_attr ne /\
       needle_parameters stored = read_parameters (needle_parameters_elem ne) /\
       needle_file stored
       = kind ++ ":" ++ needle_index_attr ne ++ splitext_ext path /\
       reference_kind stored = kind /\
       locator stored = Some (needle_index_attr ne ++ splitext_ext path) /\
       _files_required s'
       = dict_set String.eqb
           (os_path_join "input" (needle_index_attr ne ++ splitext_ext path))
           path (_files_required s) /\
       dict_get Nat.eqb k (_needle_order s') = Some (needle_index_attr ne)) /\
  (str_in kind ["surface"; "zone"] = false ->
   exists s' stored,
     load_needle k ne s = (Ok tt, s') /\
     dict_get String.eqb (needle_index_attr ne) (_needles s') = Some stored /\
     needle_class stored = needle_class_attr ne /\
     needle_parameters stored = read_parameters (needle_parameters_elem ne) /\
     needle_file stored = needle_file_attr ne /\
     _files_required s' = _files_required s /\
     dict_get Nat.eqb k (_needle_order s') = Some (needle_index_attr ne)).
Proof.
  intros Hsplit. unfold load_needle. rewrite Hsplit. cbn [fst snd].
  split; [|split].
  - intros Hk ->. rewrite Hk. reflexivity.
  - intros path Hk ->. rewrite Hk.
    unfold mbind, modify, mret. eexists. eexists. split; [reflexivity|].
    cbn [_needles _files_required _needle_order set_needle_order set_needles
           set_files_required].
    split; [apply (@dict_get_set_same _ _ String.eqb String.eqb_eq)|].
    split; [reflexivity|]. split; [reflexivity|]. split; [reflexivity|].
    pose proof (split_once_join _ (needle_index_attr ne ++ splitext_ext path)
                                Hsplit) as Hj.
    unfold reference_kind, locator. cbn [needle_file].
    split; [rewrite Hj; reflexivity|]. split; [rewrite Hj; reflexivity|].
    split; [reflexivity|].
    apply (@dict_get_set_same _ _ Nat.eqb Nat.eqb_eq).
  - intros Hk. rewrite Hk.
    unfold mbind, modify, mret. eexists. eexists. split; [reflexivity|].
    cbn [_needles _files_required _needle_order set_needle_order set_needles].
    split; [apply (@dict_get_set_same _ _ String.eqb String.eqb_eq)|].
    split; [reflexivity|]. split; [reflexivity|]. split; [reflexivity|].
    split; [reflexivity|].
    apply (@dict_get_set_same _ _ Nat.eqb Nat.eqb_eq).
Qed.
End Properties.

(* ================================================================== *)
(** ** The results on the sample inputs *)



(** C10, at a sample: the argument [eval] is on the denylist, the
    algorithm passes the check, and its entry is in the document. *)
Lemma arguments_are_not_scanned_witness :
  denylisted "eval" = true /\
  In "eval" (arguments {| arguments := ["x"; "eval"]; content := Some "x + 1" |}) /\
  exists node_algorithms,
    algorithms_of
      (Sample.document
         (Sample.compile [] Sample.bare Sample.params_origin
                         Sample.algs_eval_argument))
    = Some node_algorithms /\
    In (algorithm_entry
          ("out", {| arguments := ["x"; "eval"]; content := Some "x + 1" |}))
       (children node_algorithms).
Proof.
  split; [reflexivity|]. split; [right; left; reflexivity|].
  refine (proj2 (proj2 (proj2
            (@arguments_are_not_scanned
               Sample.float_repr Sample.str_repr Sample.json_dumps
               Sample.convert_parameter
               (Sample.loaded Sample.bare Sample.params_origin
                              Sample.algs_eval_argument)
               Sample.algs_eval_argument "out"
               {| arguments := ["x"; "eval"]; content := Some "x + 1" |}
               eq_refl (or_introl eq_refl) eq_refl))) _ _).
  vm_compute. reflexivity.
Defined.

(** C2, counterexample. The tip of the needle is (1, 2, 3) and the centre
    is the origin: the tip less the centre is (1, 2, 3), and the offset of
    the placement is (-1, -2, -3). *)
Lemma library_placement_offset_sign :
  exists root needlelibrary e,
    Sample.compile [] Sample.one_probe Sample.params_origin [] = Ok root /\
    find "needlelibrary" root = Some needlelibrary /\
    children needlelibrary = [e] /\
    get "offset" e = Some "-1 -2 -3" /\
    (ds <- per_axis_difference [VInt 1; VInt 2; VInt 3] [VInt 0; VInt 0; VInt 0] ;;
     Ok (join " " (map Sample.py_str ds)))
    = Ok "1 2 3".
Proof.
  eexists. eexists. eexists.
  split; [vm_compute; reflexivity|].
  split; [vm_compute; reflexivity|].
  split; [vm_compute; reflexivity|].
  split; vm_compute; reflexivity.
Qed.

(** C2, at a sample: the placement of the one needle. *)
Lemma library_placement_vectors_witness :
  Sample.to_xml_root (Sample.loaded Sample.one_probe Sample.params_origin [])
  = Ok (Sample.document
          (Sample.compile [] Sample.one_probe Sample.params_origin [])) /\
  exists centre needlelibrary,
    Sample.centre_location
      (Sample.loaded Sample.one_probe Sample.params_origin []) = Ok centre /\
    find "needlelibrary"
         (Sample.document
            (Sample.compile [] Sample.one_probe Sample.params_origin []))
    = Some needlelibrary /\
    Forall2 (library_placement Sample.float_repr Sample.str_repr
               Sample.convert_parameter
               (Sample.loaded Sample.one_probe Sample.params_origin []) centre)
            (filter is_library_placement
                    (_needles (Sample.loaded Sample.one_probe
                                             Sample.params_origin [])))
            (children needlelibrary).
Proof.
  assert (H : Sample.to_xml_root
                (Sample.loaded Sample.one_probe Sample.params_origin [])
              = Ok (Sample.document
                      (Sample.compile [] Sample.one_probe Sample.params_origin [])))
    by (vm_compute; reflexivity).
  split; [exact H|].
  exact (@library_placement_vectors
           Sample.float_repr Sample.str_repr Sample.json_dumps
           Sample.convert_parameter _ _ H).
Defined.


(** C3, with one needle: the centre of the one tip (1, 2, 3) equals the
    tip. *)
Lemma centroid_of_one_tip :
  exists centre,
    Sample.centre_location
      (Sample.loaded Sample.one_probe Sample.params_centroid [])
    = Ok (VList centre) /\
    Forall2 (fun c t => py_eq c t = true) centre [VInt 1; VInt 2; VInt 3].
Proof.
  eexists. split; [vm_compute; reflexivity|].
  repeat constructor.
Qed.

(** C4, counterexample. [RESOLUTION_FIELD_NEAR] is supplied as 0, whose
    text is [0], and the near field of the document is the preset. *)
Lemma near_field_zero_keeps_preset :
  exists root mesher ls,
    Sample.compile [] Sample.bare Sample.params_near_zero [] = Ok root /\
    find "mesher" root = Some mesher /\
    find "lengthscales" mesher = Some ls /\
    Sample.get_parameter (Sample.loaded Sample.bare Sample.params_near_zero [])
                         "RESOLUTION_FIELD_NEAR" true None
    = Ok (VInt 0) /\
    Sample.py_str (VInt 0) = "0" /\
    get "nearfield" ls = Some "2.0".
Proof.
  eexists. eexists. eexists.
  split; [vm_compute; reflexivity|].
  split; [vm_compute; reflexivity|].
  split; [vm_compute; reflexivity|].
  repeat split; vm_compute; reflexivity.
Qed.

(** C4, at a sample: high resolution with the far field supplied as 3;
    the fields are 1.0, 3 and 1.0. *)
Lemma lengthscales_presets_and_overrides_witness :
  Sample.to_xml_root (Sample.loaded Sample.bare Sample.params_high_far [])
  = Ok (Sample.document
          (Sample.compile [] Sample.bare Sample.params_high_far [])) /\
  exists mesher ls,
    find "mesher"
         (Sample.document
            (Sample.compile [] Sample.bare Sample.params_high_far []))
    = Some mesher /\
    find "lengthscales" mesher = Some ls /\
    get "nearfield" ls = Some "1.0" /\
    get "farfield" ls = Some "3" /\
    get "zonefield" ls = Some "1.0" /\
    get "needlezonefield" ls = None.
Proof.
  assert (H : Sample.to_xml_root
                (Sample.loaded Sample.bare Sample.params_high_far [])
              = Ok (Sample.document
                      (Sample.compile [] Sample.bare Sample.params_high_far [])))
    by (vm_compute; reflexivity).
  split; [exact H|].
  destruct (@lengthscales_presets_and_overrides
              Sample.float_repr Sample.str_repr Sample.json_dumps
              Sample.convert_parameter _ _ H)
    as (mesher & ls & high & near & far & zone & needle_zone
        & Hm & Hls & Hh & Hn & Hf & Hz & Hnz & H1 & H2 & H3 & H4).
  exists mesher, ls. split; [exact Hm|]. split; [exact Hls|].
  vm_compute in Hh, Hn, Hf, Hz, Hnz.
  inversion Hh; inversion Hn; inversion Hf; inversion Hz; inversion Hnz.
  subst high near far zone needle_zone.
  repeat split; assumption.
Defined.

(** C5, at a sample: a zone, an organ, a vessel and a region of no
    class. *)
Lemma mesher_classification_witness :
  Sample.to_xml_root (Sample.loaded Sample.four_regions Sample.params_origin [])
  = Ok (Sample.document
          (Sample.compile [] Sample.four_regions Sample.params_origin [])) /\
  exists regions mesher entries,
    _regions (Sample.loaded Sample.four_regions Sample.params_origin [])
    = Some regions /\
    find "mesher"
         (Sample.document
            (Sample.compile [] Sample.four_regions Sample.params_origin []))
    = Some mesher /\
    Forall2 (fun entry es => mesher_entry (fst entry) (snd entry) es)
            regions entries /\
    filter is_class_entry (children mesher) = List.concat entries.
Proof.
  assert (H : Sample.to_xml_root
                (Sample.loaded Sample.four_regions Sample.params_origin [])
              = Ok (Sample.document
                      (Sample.compile [] Sample.four_regions
                                      Sample.params_origin [])))
    by (vm_compute; reflexivity).
  split; [exact H|].
  exact (@mesher_classification
           Sample.float_repr Sample.str_repr Sample.json_dumps
           Sample.convert_parameter _ _ H).
Defined.

(** C5, the sample evaluated: the entries are a zone for [r1], an organ
    for [r2] and a vessel for [r3]; [r4] has none. *)
Lemma mesher_classification_sample :
  exists root mesher,
    Sample.compile [] Sample.four_regions Sample.params_origin [] = Ok root /\
    find "mesher" root = Some mesher /\
    filter is_class_entry (children mesher)
    = [ node "zone" [("region", "r1")] [];
        node "organ" [("region", "r2")] [];
        node "vessel" [("region", "r3")] [] ].
Proof.
  eexists. eexists.
  split; [vm_compute; reflexivity|].
  split; vm_compute; reflexivity.
Qed.



(** C6, the sample evaluated: the failure of the surface source is the one
    of the unsupported kind. *)
Lemma surface_point_source_rejected :
  Sample.compile [] (Sample.with_needle Sample.surface_source)
                 Sample.params_extensions []
  = Err (RuntimeError "Unknown point source distribution method: surface").
Proof. vm_compute. reflexivity. Qed.

(** C7. Without needles and without [CENTRE_LOCATION] the compilation
    raises; without needles and with the policy [centroid-of-tips] or
    [first-needle] it returns a document, whose centre carries the first
    three characters of the name of the policy. *)
Theorem needle_policy_without_needles :
  Sample.compile [] Sample.bare [Sample.lesion_field] [] = Err TypeError /\
  (exists root geometry,
     Sample.compile [] Sample.bare Sample.params_centroid [] = Ok root /\
     find "geometry" root = Some geometry /\
     find "centre" geometry
     = Some (node "centre" [("x", "c"); ("y", "e"); ("z", "n")] [])) /\
  (exists root geometry,
     Sample.compile [] Sample.bare
       [("CENTRE_LOCATION", Sample.untyped (VStr "first-needle"));
        Sample.lesion_field] []
     = Ok root /\
     find "geometry" root = Some geometry /\
     find "centre" geometry
     = Some (node "centre" [("x", "f"); ("y", "i"); ("z", "r")] [])).
Proof.
  split; [vm_compute; reflexivity|]. split.
  - eexists. eexists. split; [vm_compute; reflexivity|].
    split; vm_compute; reflexivity.
  - eexists. eexists. split; [vm_compute; reflexivity|].
    split; vm_compute; reflexivity.
Qed.

(** C8. Loading a description whose region has no [input] attribute
    raises [TypeError]: the extension of the input is taken before the
    guard on the input is reached. The region is not stored, and the
    parameters are not assigned. *)
Theorem region_without_input_fails :
  fst (Sample.load_definition (Sample.with_region Sample.region_without_input)
                              Sample.params_origin [] (__init__ []))
  = Err TypeError /\
  _regions (Sample.loaded (Sample.with_region Sample.region_without_input)
                          Sample.params_origin [])
  = Some [] /\
  _parameters (Sample.loaded (Sample.with_region Sample.region_without_input)
                             Sample.params_origin [])
  = None.
Proof. repeat split; vm_compute; reflexivity. Qed.

(** X1, at a sample: a surface region with the input [r2-in.vtp] is
    registered under [input/r2.vtp]. *)
Lemma load_region_with_input_witness :
  fst (load_region Sample.json_loads_groups
         (Sample.region_of "r2" "organ" "surface" ["organs"])
         (Sample.loaded Sample.bare Sample.params_origin []))
  = Ok tt /\
  _files_required
    (snd (load_region Sample.json_loads_groups
            (Sample.region_of "r2" "organ" "surface" ["organs"])
            (Sample.loaded Sample.bare Sample.params_origin [])))
  = [("input/r2.vtp", "r2-in.vtp")].
Proof.
  destruct (@load_region_with_input
              Sample.json_loads_groups
              (Sample.region_of "r2" "organ" "surface" ["organs"])
              "r2-in.vtp" ["organs"]
              (Sample.loaded Sample.bare Sample.params_origin [])
              [] [] eq_refl eq_refl eq_refl eq_refl)
    as (H1 & _ & H3).
  split; [exact H1|]. rewrite H3. reflexivity.
Defined.

(** X2, at a sample: the second needle of two, by its ordinal 1 and by its
    index [n2]. *)
Lemma needle_by_ordinal_or_index_witness :
  get_needle_parameter Sample.convert_parameter
    (Sample.loaded Sample.two_probes Sample.params_centroid [])
    (inl 1%nat) "NEEDLE_TIP_LOCATION" true
  = get_needle_parameter Sample.convert_parameter
      (Sample.loaded Sample.two_probes Sample.params_centroid [])
      (inr "n2") "NEEDLE_TIP_LOCATION" true /\
  get_needle_parameter Sample.convert_parameter
    (Sample.loaded Sample.two_probes Sample.params_centroid [])
    (inl 1%nat) "NEEDLE_TIP_LOCATION" true
  = Ok (VList [VInt 3; VInt 4; VInt 6]).
Proof.
  refine (@needle_by_ordinal_or_index
            Sample.json_loads_groups Sample.convert_parameter
            parameters Sample.read_parameters
            [] Sample.two_probes Sample.params_centroid []
            [Sample.probe; Sample.probe2]
            (Sample.loaded Sample.two_probes Sample.params_centroid [])
            1%nat Sample.probe2 "NEEDLE_TIP_LOCATION" true
            _ _ _ _).
  - vm_compute. reflexivity.
  - reflexivity.
  - constructor.
    + simpl. intros [H|[]]. discriminate H.
    + constructor; [intros []|constructor].
  - reflexivity.
Defined.

(* ================================================================== *)
(** ** The sections of the document of the treatment plan *)

(** The functions of the family on the sample instance of what it takes
    from outside. *)
Local Abbreviation sample_to_xml_root :=
  (to_xml_root Sample.float_repr Sample.str_repr Sample.json_dumps
               Sample.convert_parameter).
Local Abbreviation sample_to_xml :=
  (to_xml Sample.float_repr Sample.str_repr Sample.json_dumps
          Sample.convert_parameter).
Local Abbreviation sample_get_parameter :=
  (get_parameter Sample.convert_parameter).
Local Abbreviation sample_get_needle_parameter :=
  (get_needle_parameter Sample.convert_parameter).
Local Abbreviation sample_centre_location :=
  (centre_location Sample.convert_parameter).
Local Abbreviation sample_py_str := (py_str Sample.float_repr Sample.str_repr).
Local Abbreviation sample_load_definition :=
  (load_definition Sample.json_loads_groups Sample.read_parameters).

(** X3, on the treatment plan: the document has the root and the nine
    sections, and [to_xml] keeps it in [_xml]. *)
Lemma document_skeleton_witness :
  sample_to_xml_root Treatment.planned = Ok Treatment.sheet /\
  tag Treatment.sheet = "gosmart" /\
  attrib Treatment.sheet = [("name", "elmer_libnuma"); ("version", "1.0.1")] /\
  text Treatment.sheet = None /\
  map tag (children Treatment.sheet)
  = ["geometry"; "regions"; "constants"; "needlelibrary"; "mesher";
     "optimizer"; "elmergrid"; "elmer"; "lesion"] /\
  sample_to_xml Treatment.planned
  = (Ok Treatment.sheet, set_xml (Some Treatment.sheet) Treatment.planned).
Proof.
  assert (H : sample_to_xml_root Treatment.planned = Ok Treatment.sheet)
    by (vm_compute; reflexivity).
  split; [exact H|].
  exact (proj1 (@document_skeleton
                  Sample.float_repr Sample.str_repr Sample.json_dumps
                  Sample.convert_parameter Treatment.planned) _ H).
Defined.

(** X4, on the treatment plan, whose last parameter has a type tag. *)
Lemma constants_section_witness :
  sample_to_xml_root Treatment.planned = Ok Treatment.sheet /\
  exists params node_constants,
    _parameters Treatment.planned = Some params /\
    find "constants" Treatment.sheet = Some node_constants /\
    children node_constants
    = map (fun entry =>
             node "parameter"
                  (("name", fst entry)
                   :: ("value", Sample.json_dumps
                                  (Sample.convert_parameter
                                     (fst (snd entry)) (snd (snd entry)) true))
                   :: match snd (snd entry) with
                      | Some t => [("type", t)]
                      | None => []
                      end)
                  [])
          params.
Proof.
  assert (H : sample_to_xml_root Treatment.planned = Ok Treatment.sheet)
    by (vm_compute; reflexivity).
  split; [exact H|].
  exact (@constants_section
           Sample.float_repr Sample.str_repr Sample.json_dumps
           Sample.convert_parameter _ _ H).
Defined.

(** X5, on the treatment plan, which gives the lower threshold only; and
    on the plan with the number 3 as lesion field, which has no
    document. *)
Lemma lesion_section_witness :
  (sample_to_xml_root Treatment.planned = Ok Treatment.sheet /\
   exists lesion field upper lower,
     find "lesion" Treatment.sheet = Some lesion /\
     sample_get_parameter Treatment.planned "SETTING_LESION_FIELD" false None
     = Ok (VStr field) /\
     sample_get_parameter Treatment.planned "SETTING_LESION_THRESHOLD_UPPER"
                          true None = Ok upper /\
     sample_get_parameter Treatment.planned "SETTING_LESION_THRESHOLD_LOWER"
                          true None = Ok lower /\
     get "field" lesion = Some field /\
     get "threshold_upper" lesion
     = (if is_None upper then None else Some (sample_py_str upper)) /\
     get "threshold_lower" lesion
     = (if is_None lower then None else Some (sample_py_str lower))) /\
  (sample_get_parameter
     (Sample.loaded Sample.bare
        [("CENTRE_LOCATION", Sample.untyped Sample.origin);
         ("SETTING_LESION_FIELD", Sample.untyped (VInt 3))] [])
     "SETTING_LESION_FIELD" false None = Ok (VInt 3) /\
   exists e,
     sample_to_xml_root
       (Sample.loaded Sample.bare
          [("CENTRE_LOCATION", Sample.untyped Sample.origin);
           ("SETTING_LESION_FIELD", Sample.untyped (VInt 3))] [])
     = Err e).
Proof.
  assert (H : sample_to_xml_root Treatment.planned = Ok Treatment.sheet)
    by (vm_compute; reflexivity).
  assert (H3 : sample_get_parameter
                 (Sample.loaded Sample.bare
                    [("CENTRE_LOCATION", Sample.untyped Sample.origin);
                     ("SETTING_LESION_FIELD", Sample.untyped (VInt 3))] [])
                 "SETTING_LESION_FIELD" false None = Ok (VInt 3))
    by (vm_compute; reflexivity).
  split; split; [exact H| |exact H3|].
  - exact (proj1 (@lesion_section
                    Sample.float_repr Sample.str_repr Sample.json_dumps
                    Sample.convert_parameter Treatment.planned) _ H).
  - refine (proj2 (@lesion_section
                     Sample.float_repr Sample.str_repr Sample.json_dumps
                     Sample.convert_parameter _) _ H3 _).
    intros s. discriminate.
Defined.

(** X6, on the treatment plan: four regions, then the zone and the surface
    of the two needles that are given by mesh files. *)
Lemma regions_section_witness :
  sample_to_xml_root Treatment.planned = Ok Treatment.sheet /\
  exists regions node_regions needle_regions,
    _regions Treatment.planned = Some regions /\
    find "regions" Treatment.sheet = Some node_regions /\
    children node_regions
    = (map (fun entry =>
              node (region_format (snd entry))
                   [("name", fst entry);
                    ("input", os_path_join "input/" (region_input (snd entry)));
                    ("groups", join "; " (region_groups (snd entry)))]
                   [])
           regions
       ++ needle_regions)%list /\
    Forall2 needle_region
            (filter is_mesh_needle (_needles Treatment.planned)) needle_regions.
Proof.
  assert (H : sample_to_xml_root Treatment.planned = Ok Treatment.sheet)
    by (vm_compute; reflexivity).
  split; [exact H|].
  exact (@regions_section
           Sample.float_repr Sample.str_repr Sample.json_dumps
           Sample.convert_parameter _ _ H).
Defined.

(** X7, on the treatment plan: the zone needle has the characteristic
    length 0.5, the surface needle has none. *)
Lemma mesher_needle_entries_witness :
  sample_to_xml_root Treatment.planned = Ok Treatment.sheet /\
  exists mesher needlezonefield,
    find "mesher" Treatment.sheet = Some mesher /\
    sample_get_parameter Treatment.planned "RESOLUTION_FIELD_NEEDLE_ZONE"
                         true None = Ok needlezonefield /\
    Forall2 (needle_mesh_entry needlezonefield)
            (filter is_mesh_needle (_needles Treatment.planned))
            (filter (fun e => String.eqb (tag e) "needle") (children mesher)).
Proof.
  assert (H : sample_to_xml_root Treatment.planned = Ok Treatment.sheet)
    by (vm_compute; reflexivity).
  split; [exact H|].
  exact (@mesher_needle_entries
           Sample.float_repr Sample.str_repr Sample.json_dumps
           Sample.convert_parameter _ _ H).
Defined.

(** X8, on the treatment plan: solid needles, the radius 30 and the inner
    template [disc]. *)
Lemma mesher_settings_witness :
  sample_to_xml_root Treatment.planned = Ok Treatment.sheet /\
  exists mesher solid zone_boundaries radius template coarse,
    find "mesher" Treatment.sheet = Some mesher /\
    sample_get_parameter Treatment.planned "SETTING_SOLID_NEEDLES" true None
    = Ok solid /\
    sample_get_parameter Treatment.planned "SETTING_ZONE_BOUNDARIES" true None
    = Ok zone_boundaries /\
    sample_get_parameter Treatment.planned "SIMULATION_DOMAIN_RADIUS" true None
    = Ok radius /\
    sample_get_parameter Treatment.planned "SETTING_AXISYMMETRIC_INNER" true None
    = Ok template /\
    sample_get_parameter Treatment.planned "SETTING_AXISYMMETRIC_INNER_COARSE"
                         true None = Ok coarse /\
    get "type" mesher = Some "CGAL" /\
    get "zone_boundaries" mesher
    = (if (is_True solid || is_True zone_boundaries)%bool
       then Some "true" else None) /\
    find "extent" mesher
    = Some (node "extent"
                 [("radius", if is_None radius then "50"
                             else sample_py_str radius)] []) /\
    find "centre" mesher = Some (node "centre" [] []) /\
    (is_None template = true \/ exists t, template = VStr t) /\
    (is_None coarse = true \/ exists t, coarse = VStr t) /\
    filter (fun e => String.eqb (tag e) "inner") (children mesher)
    = ((if is_None template then []
        else [node "inner" [("type", "axisymmetric");
                            ("template", sample_py_str template)] []])
       ++ (if is_None coarse then []
           else [node "inner" [("type", "axisymmetric"); ("name", "coarse");
                               ("template", sample_py_str coarse)] []]))%list.
Proof.
  assert (H : sample_to_xml_root Treatment.planned = Ok Treatment.sheet)
    by (vm_compute; reflexivity).
  split; [exact H|].
  exact (@mesher_settings
           Sample.float_repr Sample.str_repr Sample.json_dumps
           Sample.convert_parameter _ _ H).
Defined.

(** X9, on the treatment plan: the needle of the library is named 1, the
    needle of the catalogue by its reference. *)
Lemma needle_library_naming_witness :
  sample_to_xml_root Treatment.planned = Ok Treatment.sheet /\
  exists needlelibrary solid,
    find "needlelibrary" Treatment.sheet = Some needlelibrary /\
    sample_get_parameter Treatment.planned "SETTING_SOLID_NEEDLES" true None
    = Ok solid /\
    get "zones" needlelibrary
    = (if is_None solid then None
       else Some (if is_True solid then "true" else "false")) /\
    Forall2 (placement_name Sample.float_repr Sample.str_repr
                            Sample.convert_parameter (negb (is_None solid)))
            (combine (seq 1 (List.length
                               (filter is_library_placement
                                       (_needles Treatment.planned))))
                     (filter is_library_placement (_needles Treatment.planned)))
            (children needlelibrary).
Proof.
  assert (H : sample_to_xml_root Treatment.planned = Ok Treatment.sheet)
    by (vm_compute; reflexivity).
  split; [exact H|].
  exact (@needle_library_naming
           Sample.float_repr Sample.str_repr Sample.json_dumps
           Sample.convert_parameter _ _ H).
Defined.

(** X10, on the treatment plan: the extensions 10 and 20 of the point
    source. *)
Lemma point_source_extensions_witness :
  sample_to_xml_root Treatment.planned = Ok Treatment.sheet /\
  exists elmer,
    find "elmer" Treatment.sheet = Some elmer /\
    Forall (extension_block Sample.float_repr Sample.str_repr
                            Sample.convert_parameter Treatment.planned)
           (filter is_pointsources_block (children elmer)).
Proof.
  assert (H : sample_to_xml_root Treatment.planned = Ok Treatment.sheet)
    by (vm_compute; reflexivity).
  split; [exact H|].
  exact (@point_source_extensions
           Sample.float_repr Sample.str_repr Sample.json_dumps
           Sample.convert_parameter _ _ H).
Defined.

(** X11, on the treatment plan, with two modules; and on a description
    whose definition has no text. *)
Lemma variant_section_witness :
  (sample_to_xml_root Treatment.planned = Ok Treatment.sheet /\
   exists elmer variant algorithms definition modules others,
     find "elmer" Treatment.sheet = Some elmer /\
     children elmer = (variant :: algorithms :: others)%list /\
     tag variant = "variant" /\
     tag algorithms = "algorithms" /\
     _definition Treatment.planned = Some (Some definition) /\
     text variant = Some (definition ++ NL ++ "$SOURCES" ++ NL) /\
     sample_get_parameter Treatment.planned "ELMER_NUMA_MODULES" true None
     = Ok modules /\
     if truthy modules
     then exists names,
            py_iter modules = Ok (map VStr names) /\
            get "modules" variant = Some (join "; " names)
     else get "modules" variant = None) /\
  (_definition
     (Sample.loaded {| definition_text := None;
                       needles_block := None;
                       regions_block := Some [] |}
                    Sample.params_origin [])
   = Some None /\
   exists e,
     sample_to_xml_root
       (Sample.loaded {| definition_text := None;
                         needles_block := None;
                         regions_block := Some [] |}
                      Sample.params_origin [])
     = Err e).
Proof.
  assert (H : sample_to_xml_root Treatment.planned = Ok Treatment.sheet)
    by (vm_compute; reflexivity).
  split; split; [exact H| |vm_compute; reflexivity|].
  - exact (proj1 (@variant_section
                    Sample.float_repr Sample.str_repr Sample.json_dumps
                    Sample.convert_parameter Treatment.planned) _ H).
  - apply (proj2 (@variant_section
                    Sample.float_repr Sample.str_repr Sample.json_dumps
                    Sample.convert_parameter _)).
    reflexivity.
Defined.

(** X12, on the treatment plan: the centre at the origin, the axis of the
    first needle and the scaling 2. *)
Lemma geometry_section_witness :
  sample_to_xml_root Treatment.planned = Ok Treatment.sheet /\
  exists geometry centre coords scaling axis,
    find "geometry" Treatment.sheet = Some geometry /\
    sample_centre_location Treatment.planned = Ok centre /\
    py_iter centre = Ok coords /\
    sample_get_parameter Treatment.planned "SIMULATION_SCALING" true None
    = Ok scaling /\
    children geometry
    = (node "centre" (combine XYZ (map sample_py_str coords)) []
       :: axis
       ++ (if is_None scaling then []
           else [node "simulationscaling"
                      [("ratio", sample_py_str scaling)] []]))%list /\
    match _needles Treatment.planned with
    | [] => axis = []
    | _ :: _ =>
        exists tip entry tips entries differences,
          sample_get_needle_parameter Treatment.planned
                               (inl 0%nat) "NEEDLE_TIP_LOCATION" true = Ok tip /\
          sample_get_needle_parameter Treatment.planned
                               (inl 0%nat) "NEEDLE_ENTRY_LOCATION" true
          = Ok entry /\
          py_iter tip = Ok tips /\
          py_iter entry = Ok entries /\
          per_axis_difference (firstn 3 entries) (firstn 3 tips) = Ok differences /\
          axis = [node "needleaxis"
                       (combine XYZ (map sample_py_str differences)) []]
    end.
Proof.
  assert (H : sample_to_xml_root Treatment.planned = Ok Treatment.sheet)
    by (vm_compute; reflexivity).
  split; [exact H|].
  exact (@geometry_section
           Sample.float_repr Sample.str_repr Sample.json_dumps
           Sample.convert_parameter _ _ H).
Defined.

(* ================================================================== *)
(** ** Loading, on the treatment plan *)

(** X14, on the region without input: loading raises, and [to_xml] then
    finds no parameters. *)
Lemma to_xml_after_failed_load_witness :
  sample_load_definition (Sample.with_region Sample.region_without_input)
                         Sample.params_origin [] (__init__ [])
  = (Err TypeError, Treatment.unloaded) /\
  sample_to_xml Treatment.unloaded
  = (Err AttributeError, Treatment.unloaded).
Proof.
  assert (H : sample_load_definition
                (Sample.with_region Sample.region_without_input)
                Sample.params_origin [] (__init__ [])
              = (Err TypeError, Treatment.unloaded))
    by (vm_compute; reflexivity).
  split; [exact H|].
  exact (@to_xml_after_failed_load
           Sample.float_repr Sample.str_repr Sample.json_dumps
           Sample.json_loads_groups Sample.convert_parameter
           _ Sample.read_parameters []
           (Sample.with_region Sample.region_without_input)
           Sample.params_origin [] TypeError Treatment.unloaded H).
Defined.

(** X15, on the plan followed by the description with one needle: the
    mesh of the zone needle is still registered, and the ordinal 4 is
    still bound. *)
Lemma load_definition_forgets_nothing_witness :
  (dict_mem String.eqb "input/z1.vtu" (_files_required Treatment.planned) = true /\
   dict_mem String.eqb "input/z1.vtu"
     (_files_required
        (snd (sample_load_definition Sample.one_probe Sample.params_origin []
                                     Treatment.planned)))
   = true) /\
  (dict_mem Nat.eqb 4%nat (_needle_order Treatment.planned) = true /\
   dict_mem Nat.eqb 4%nat
     (_needle_order
        (snd (sample_load_definition Sample.one_probe Sample.params_origin []
                                     Treatment.planned)))
   = true).
Proof.
  assert (H1 : dict_mem String.eqb "input/z1.vtu"
                 (_files_required Treatment.planned) = true)
    by (vm_compute; reflexivity).
  assert (H2 : dict_mem Nat.eqb 4%nat (_needle_order Treatment.planned) = true)
    by (vm_compute; reflexivity).
  split; (split; [assumption|]).
  - exact (proj1 (@load_definition_forgets_nothing
                    Sample.json_loads_groups _ Sample.read_parameters
                    Sample.one_probe Sample.params_origin [] Treatment.planned)
                 "input/z1.vtu" H1).
  - exact (proj2 (@load_definition_forgets_nothing
                    Sample.json_loads_groups _ Sample.read_parameters
                    Sample.one_probe Sample.params_origin [] Treatment.planned)
                 4%nat H2).
Defined.

(** X16, on the plan followed by the description with one needle: the
    ordinal 4 is bound as the plan has bound it. *)
Lemma needle_order_after_load_witness :
  sample_load_definition Sample.one_probe Sample.params_origin []
                         Treatment.planned
  = (Ok tt, Treatment.replanned) /\
  needles_block Sample.one_probe = Some [Sample.probe] /\
  dict_get Nat.eqb 4%nat (_needle_order Treatment.replanned)
  = if (4 <? List.length [Sample.probe])%nat
    then nth_error (map (@needle_index_attr _) [Sample.probe]) 4%nat
    else dict_get Nat.eqb 4%nat (_needle_order Treatment.planned).
Proof.
  assert (H : sample_load_definition Sample.one_probe Sample.params_origin []
                                     Treatment.planned
              = (Ok tt, Treatment.replanned))
    by (vm_compute; reflexivity).
  split; [exact H|]. split; [exact eq_refl|].
  exact (@needle_order_after_load
           Sample.json_loads_groups _ Sample.read_parameters
           Sample.one_probe Sample.params_origin [] Treatment.planned
           Treatment.replanned [Sample.probe] 4%nat H eq_refl).
Defined.

(** After the second load the ordinal 4 names a needle that is no longer
    there: looking it up raises [KeyError]. *)
Lemma stale_ordinal_after_reload :
  dict_get Nat.eqb 4%nat (_needle_order Treatment.replanned) = Some "p1" /\
  map fst (_needles Treatment.replanned) = ["n1"] /\
  sample_get_needle_parameter Treatment.replanned
                       (inl 4%nat) "NEEDLE_TIP_LOCATION" true
  = Err KeyError.
Proof. repeat split; vm_compute; reflexivity. Qed.

(** X17, on the treatment plan loaded into a new instance. *)
Lemma mesh_inputs_are_registered_witness :
  sample_load_definition Treatment.plan Treatment.settings [] (__init__ [])
  = (Ok tt, Treatment.planned) /\
  (forall ix nd,
     In (ix, nd) (_needles Treatment.planned) ->
     is_mesh_file nd = true ->
     exists target,
       locator nd = Some target /\
       dict_mem String.eqb (os_path_join "input" target)
                (_files_required Treatment.planned) = true) /\
  (forall res re input,
     regions_block Treatment.plan = Some res ->
     In re res ->
     region_input_attr re = Some input ->
     str_in (region_format_attr re) ["surface"; "zone"] = true ->
     input <> EMPTY ->
     dict_mem String.eqb
       (os_path_join "input" (region_id_attr re ++ splitext_ext input))
       (_files_required Treatment.planned) = true) /\
  (forall name, os_path_join "input/" name = os_path_join "input" name).
Proof.
  assert (H : sample_load_definition Treatment.plan Treatment.settings []
                                     (__init__ [])
              = (Ok tt, Treatment.planned))
    by (vm_compute; reflexivity).
  split; [exact H|].
  exact (@mesh_inputs_are_registered
           Sample.json_loads_groups _ Sample.read_parameters
           Treatment.plan Treatment.settings [] (__init__ [])
           Treatment.planned H).
Defined.

(** X18, on the treatment plan loaded into a new instance. *)
Lemma regions_are_sorted_by_meaning_witness :
  sample_load_definition Treatment.plan Treatment.settings [] (__init__ [])
  = (Ok tt, Treatment.planned) /\
  exists by_meaning regions res,
    _regions_by_meaning Treatment.planned = Some by_meaning /\
    _regions Treatment.planned = Some regions /\
    regions_block Treatment.plan = Some res /\
    (forall meaning bucket r,
       In (meaning, bucket) by_meaning -> In r bucket ->
       region_meaning r = meaning) /\
    (forall id r,
       In (id, r) regions ->
       exists bucket,
         dict_get String.eqb (region_meaning r) by_meaning = Some bucket /\
         In r bucket) /\
    bucket_total by_meaning = List.length res.
Proof.
  assert (H : sample_load_definition Treatment.plan Treatment.settings []
                                     (__init__ [])
              = (Ok tt, Treatment.planned))
    by (vm_compute; reflexivity).
  split; [exact H|].
  exact (@regions_are_sorted_by_meaning
           Sample.json_loads_groups _ Sample.read_parameters
           Treatment.plan Treatment.settings [] (__init__ [])
           Treatment.planned H).
Defined.

(** X19, on the description with one needle and no centre policy: the
    centre is the tip of the needle. *)
Lemma centre_at_first_needle_witness :
  sample_load_definition Sample.one_probe [Sample.lesion_field] [] (__init__ [])
  = (Ok tt, Sample.loaded Sample.one_probe [Sample.lesion_field] []) /\
  needles_block Sample.one_probe = Some [Sample.probe] /\
  NoDup (map (@needle_index_attr _) [Sample.probe]) /\
  sample_get_parameter (Sample.loaded Sample.one_probe [Sample.lesion_field] [])
                       "CENTRE_LOCATION" true None = Ok VNone /\
  sample_centre_location (Sample.loaded Sample.one_probe [Sample.lesion_field] [])
  = sample_get_parameter
      (Sample.loaded Sample.one_probe [Sample.lesion_field] [])
      "NEEDLE_TIP_LOCATION" true
      (Some (Sample.read_parameters (needle_parameters_elem Sample.probe))).
Proof.
  assert (H : sample_load_definition Sample.one_probe [Sample.lesion_field] []
                                     (__init__ [])
              = (Ok tt, Sample.loaded Sample.one_probe [Sample.lesion_field] []))
    by (vm_compute; reflexivity).
  assert (Hnd : NoDup (map (@needle_index_attr _) [Sample.probe]))
    by (constructor; [intros []|constructor]).
  assert (Hp : sample_get_parameter
                 (Sample.loaded Sample.one_probe [Sample.lesion_field] [])
                 "CENTRE_LOCATION" true None = Ok VNone)
    by (vm_compute; reflexivity).
  split; [exact H|]. split; [reflexivity|]. split; [exact Hnd|].
  split; [exact Hp|].
  exact (@centre_at_first_needle
           Sample.json_loads_groups Sample.convert_parameter
           _ Sample.read_parameters [] Sample.one_probe [Sample.lesion_field] []
           Sample.probe []
           (Sample.loaded Sample.one_probe [Sample.lesion_field] []) VNone
           H eq_refl Hnd Hp (or_introl eq_refl)).
Defined.

(** X20, on an algorithm that declares [y], [x] and [y]. *)
Lemma arguments_are_listed_in_order_witness :
  _algorithms (Sample.loaded Sample.bare Sample.params_origin
                             Treatment.algs_repeated)
  = Some Treatment.algs_repeated /\
  sample_to_xml_root (Sample.loaded Sample.bare Sample.params_origin
                                    Treatment.algs_repeated)
  = Ok (Sample.document
          (Sample.compile [] Sample.bare Sample.params_origin
                          Treatment.algs_repeated)) /\
  exists node_algorithms,
    algorithms_of (Sample.document
                     (Sample.compile [] Sample.bare Sample.params_origin
                                     Treatment.algs_repeated))
    = Some node_algorithms /\
    Forall2 (fun entry e =>
               exists names content_node,
                 get "result" e = Some (fst entry) /\
                 get "arguments" e = Some (join "," (arguments (snd entry))) /\
                 children e
                 = [node "arguments" []
                         (map (fun a => node "argument" [("name", a)] []) names);
                    content_node] /\
                 Permutation names (arguments (snd entry)) /\
                 Sorted str_le names)
            Treatment.algs_repeated (children node_algorithms).
Proof.
  assert (H : sample_to_xml_root
                (Sample.loaded Sample.bare Sample.params_origin
                               Treatment.algs_repeated)
              = Ok (Sample.document
                      (Sample.compile [] Sample.bare Sample.params_origin
                                      Treatment.algs_repeated)))
    by (vm_compute; reflexivity).
  split; [vm_compute; reflexivity|]. split; [exact H|].
  exact (@arguments_are_listed_in_order
           Sample.float_repr Sample.str_repr Sample.json_dumps
           Sample.convert_parameter
           (Sample.loaded Sample.bare Sample.params_origin Treatment.algs_repeated)
           _ Treatment.algs_repeated ltac:(vm_compute; reflexivity) H).
Defined.

(** The arguments [y], [x], [y] are listed as [x], [y], [y]. *)
Lemma arguments_in_order_sample :
  sorted ["y"; "x"; "y"] = ["x"; "y"; "y"].
Proof. reflexivity. Qed.

(** X22, on the needle of the treatment plan that is given by a zone. *)
Lemma load_needle_stores_witness :
  split_once ":" (needle_file_attr Treatment.zone_needle)
  = ("zone", Some "meshes/antenna.vtu") /\
  exists s' stored,
    load_needle Sample.read_parameters 1 Treatment.zone_needle (__init__ [])
    = (Ok tt, s') /\
    dict_get String.eqb (needle_index_attr Treatment.zone_needle) (_needles s')
    = Some stored /\
    needle_class stored = needle_class_attr Treatment.zone_needle /\
    needle_parameters stored
    = Sample.read_parameters (needle_parameters_elem Treatment.zone_needle) /\
    needle_file stored
    = "zone" ++ ":" ++ needle_index_attr Treatment.zone_needle
             ++ splitext_ext "meshes/antenna.vtu" /\
    reference_kind stored = "zone" /\
    locator stored
    = Some (needle_index_attr Treatment.zone_needle
            ++ splitext_ext "meshes/antenna.vtu") /\
    _files_required s'
    = dict_set String.eqb
        (os_path_join "input"
           (needle_index_attr Treatment.zone_needle
            ++ splitext_ext "meshes/antenna.vtu"))
        "meshes/antenna.vtu" (_files_required (__init__ [])) /\
    dict_get Nat.eqb 1%nat (_needle_order s')
    = Some (needle_index_attr Treatment.zone_needle).
Proof.
  assert (H : split_once ":" (needle_file_attr Treatment.zone_needle)
              = ("zone", Some "meshes/antenna.vtu"))
    by (vm_compute; reflexivity).
  split; [exact H|].
  exact (proj1 (proj2 (@load_needle_stores
                         _ Sample.read_parameters 1%nat Treatment.zone_needle
                         (__init__ []) "zone" (Some "meshes/antenna.vtu") H))
               "meshes/antenna.vtu" eq_refl eq_refl).
Defined.

(** The zone needle of the plan is stored as [zone:z1.vtu], and its mesh
    is registered as [input/z1.vtu]. *)
Lemma zone_needle_of_the_plan :
  dict_get String.eqb "z1" (_needles Treatment.planned)
  = Some {| needle_parameters := [];
            needle_file := "zone:z1.vtu";
            needle_class := "boundary" |} /\
  dict_get String.eqb "input/z1.vtu" (_files_required Treatment.planned)
  = Some "meshes/antenna.vtu".
Proof. split; vm_compute; reflexivity. Qed.

(** X21, on the algorithm whose content calls [fopen]. *)
Lemma algorithm_is_refused_for_a_substring_witness :
  (exists fn pre post,
     In fn _disallowed_functions /\
     (content_text {| arguments := ["x"]; content := Some "fopen(x)" |}
      = pre ++ fn ++ post \/
      "out" = pre ++ fn ++ post)) /\
  algorithm_node ("out", {| arguments := ["x"]; content := Some "fopen(x)" |})
  = Err (NameError "RuntimeException").
Proof.
  assert (H : exists fn pre post,
             In fn _disallowed_functions /\
             (content_text {| arguments := ["x"]; content := Some "fopen(x)" |}
              = pre ++ fn ++ post \/
              "out" = pre ++ fn ++ post)).
  { exists "fopen", EMPTY, "(x)". split; [|left; reflexivity].
    unfold _disallowed_functions. simpl. tauto. }
  split; [exact H|].
  exact (proj1 (algorithm_is_refused_for_a_substring
                  "out" {| arguments := ["x"]; content := Some "fopen(x)" |}) H).
Defined.
